(** * Price and overview clients for BirdEye and DexScreener

    A shallow embedding of [birdeye/birdeye.py] and
    [dexscreener/dexscreener.py]: the address validator, the response
    validator, the two client classes and the pool selector, followed by
    the properties of the specification that concern them.

    Python values that come out of [response.json()] are modelled by the
    type [json]; exceptions by the type [exn]; a method that talks to the
    network is a state-passing function over the list of requests sent so
    far.  The HTTP transport is a function from a request to its
    response. *)

From Stdlib Require Import ZArith List String Ascii Bool Lia SpecFloat.
From stdpp Require Import gmap strings list.

Local Open Scope string_scope.
Local Set Warnings "-register-all".

(** ** Python values *)

(** The objects [json.loads] builds.  A float is a binary64 number
    ([prec = 53], [emax = 1024] in [SpecFloat]); an object is the list of
    its items in insertion order, looked up by first match. *)
Inductive json : Type :=
| JNull
| JBool (b : bool)
| JInt (n : Z)
| JFloat (f : spec_float)
| JStr (s : string)
| JArr (l : list json)
| JObj (kv : list (string * json)).

Definition prec64 : Z := 53.
Definition emax64 : Z := 1024.

(** [decimal.Decimal]: sign, coefficient and exponent, or a special value. *)
Inductive Decimal : Type :=
| Dec (sign : bool) (coeff : N) (exp : Z)
| DecInf (sign : bool)
| DecNaN.

(** The exceptions the two modules can raise.  [NoPositionsError],
    [InvalidTokens] and [InvalidSolanaAddress] come from the module
    [custom_exceptions], which is not part of the sources: they are taken
    as unrelated subclasses of [Exception] that keep the constructor
    argument. *)
Inductive exn : Type :=
| NoPositionsError (msg : option string)
| InvalidTokens (arg : option json)
| InvalidSolanaAddress (arg : string)
| ValueError
| JSONDecodeError
| TypeError
| KeyError
| AttributeError
| UnboundLocalError
| InvalidOperation
| OverflowError.

Inductive outcome (A : Type) : Type :=
| Ret (a : A)
| Raise (e : exn).
Arguments Ret {A} a.
Arguments Raise {A} e.

Definition oc_bind {A B : Type} (c : outcome A) (k : A -> outcome B) : outcome B :=
  match c with
  | Ret a => k a
  | Raise e => Raise e
  end.

Notation "'let?' x := c 'in' k" := (oc_bind c (fun x => k))
  (at level 10, x name, c at level 100, k at level 200).

(** [isinstance(e, ValueError)]: [json.JSONDecodeError] derives from it. *)
Definition is_ValueError (e : exn) : bool :=
  match e with
  | ValueError | JSONDecodeError => true
  | _ => false
  end.

Definition is_TypeError (e : exn) : bool :=
  match e with
  | TypeError => true
  | _ => false
  end.

(** The clause [except (ValueError, TypeError)]. *)
Definition is_Value_or_TypeError (e : exn) : bool :=
  is_ValueError e || is_TypeError e.

(** The clause [except (InvalidSolanaAddress, InvalidTokens)]. *)
Definition is_address_or_tokens_error (e : exn) : bool :=
  match e with
  | InvalidSolanaAddress _ | InvalidTokens _ => true
  | _ => false
  end.

(** ** The parts of the Python runtime that are not modelled

    The string and sequence forms of the [Decimal] constructor, the
    string forms of [float] and [int], [str] of a value, and the
    constants of the modules [config] and [constants] are parameters. *)
Class Runtime : Type := {
  Decimal_of_str : string -> option Decimal;
  Decimal_of_seq : list json -> outcome Decimal;
  float_of_str : string -> option spec_float;
  int_of_str : string -> option Z;
  py_str : json -> string;
  BASE_URL : string;
  BIRDEYE_API_KEY : string;
  SOL_MINT : string
}.

(** ** Truth value, item access and iteration *)

Definition float_is_zero (f : spec_float) : bool :=
  match f with
  | S754_zero _ => true
  | _ => false
  end.

(** [bool(v)]. *)
Definition truthy (v : json) : bool :=
  match v with
  | JNull => false
  | JBool b => b
  | JInt n => negb (n =? 0)%Z
  | JFloat f => negb (float_is_zero f)
  | JStr s => negb (String.eqb s "")
  | JArr l => match l with [] => false | _ => true end
  | JObj kv => match kv with [] => false | _ => true end
  end.

Fixpoint assoc (k : string) (kv : list (string * json)) : option json :=
  match kv with
  | [] => None
  | (k', v) :: rest => if String.eqb k k' then Some v else assoc k rest
  end.

(** [v.get(k, d)]: only a dict has the method. *)
Definition py_get (v : json) (k : string) (d : json) : outcome json :=
  match v with
  | JObj kv => Ret (default d (assoc k kv))
  | _ => Raise AttributeError
  end.

(** [v[k]] for a string [k]. *)
Definition py_getitem (v : json) (k : string) : outcome json :=
  match v with
  | JObj kv => match assoc k kv with
               | Some x => Ret x
               | None => Raise KeyError
               end
  | _ => Raise TypeError
  end.

Fixpoint is_substring (p s : string) : bool :=
  String.prefix p s ||
  match s with
  | EmptyString => false
  | String _ s' => is_substring p s'
  end.

Definition json_is_str (k : string) (v : json) : bool :=
  match v with
  | JStr s => String.eqb s k
  | _ => false
  end.

(** [k in v] for a string [k]. *)
Definition py_contains (k : string) (v : json) : outcome bool :=
  match v with
  | JObj kv => Ret (bool_decide (is_Some (assoc k kv)))
  | JArr l => Ret (existsb (json_is_str k) l)
  | JStr s => Ret (is_substring k s)
  | _ => Raise TypeError
  end.

Fixpoint chars (s : string) : list json :=
  match s with
  | EmptyString => []
  | String c s' => JStr (String c EmptyString) :: chars s'
  end.

(** The items a [for] loop over [v] visits. *)
Definition py_iter (v : json) : outcome (list json) :=
  match v with
  | JArr l => Ret l
  | JObj kv => Ret (map (fun p => JStr (fst p)) kv)
  | JStr s => Ret (chars s)
  | _ => Raise TypeError
  end.

(** ** Numbers *)

(** [float(n)] for an int: round to nearest, ties to even;
    [OverflowError] beyond the largest finite float. *)
Definition float_of_int (n : Z) : outcome spec_float :=
  match binary_normalize prec64 emax64 n 0 false with
  | S754_infinity _ => Raise OverflowError
  | f => Ret f
  end.

Definition float_of_bool (b : bool) : spec_float :=
  binary_normalize prec64 emax64 (if b then 1 else 0) 0 false.

(** [float(v)]. *)
Definition py_float `{Runtime} (v : json) : outcome spec_float :=
  match v with
  | JInt n => float_of_int n
  | JBool b => Ret (float_of_bool b)
  | JFloat f => Ret f
  | JStr s => match float_of_str s with
              | Some f => Ret f
              | None => Raise ValueError
              end
  | _ => Raise TypeError
  end.

(** [a > b] on floats: false when either is a NaN. *)
Definition float_gt (a b : spec_float) : bool := SFltb b a.

(** Strips the trailing zero bits of a mantissa while the exponent is
    negative: the numerator and the denominator exponent of
    [float.as_integer_ratio]. *)
Fixpoint lowest_terms (m : positive) (e : Z) : positive * Z :=
  match m with
  | xO p => if (e <? 0)%Z then lowest_terms p (e + 1) else (m, e)
  | _ => (m, e)
  end.

(** [Decimal.from_float]: the exact value of the float. *)
Definition Decimal_of_float (f : spec_float) : Decimal :=
  match f with
  | S754_zero s => Dec s 0 0
  | S754_infinity s => DecInf s
  | S754_nan => DecNaN
  | S754_finite s m e =>
      let '(n, e') := lowest_terms m e in
      if (0 <=? e')%Z
      then Dec s (N.pos n * 2 ^ Z.to_N e') 0
      else Dec s (N.pos n * 5 ^ Z.to_N (- e')) e'
  end.

Definition Decimal_of_int (n : Z) : Decimal :=
  Dec (n <? 0)%Z (Z.abs_N n) 0.

(** [Decimal(v)]. *)
Definition py_Decimal `{Runtime} (v : json) : outcome Decimal :=
  match v with
  | JInt n => Ret (Decimal_of_int n)
  | JBool b => Ret (Decimal_of_int (if b then 1 else 0))
  | JFloat f => Ret (Decimal_of_float f)
  | JStr s => match Decimal_of_str s with
              | Some d => Ret d
              | None => Raise InvalidOperation
              end
  | JArr l => Decimal_of_seq l
  | JNull | JObj _ => Raise TypeError
  end.

(** [int(f)] for a float: truncation towards zero. *)
Definition int_of_float (f : spec_float) : outcome Z :=
  match f with
  | S754_zero _ => Ret 0%Z
  | S754_infinity _ => Raise OverflowError
  | S754_nan => Raise ValueError
  | S754_finite s m e =>
      let a := if (0 <=? e)%Z then (Z.pos m * 2 ^ e)%Z
               else (Z.pos m / 2 ^ (- e))%Z in
      Ret (if s then (- a)%Z else a)
  end.

(** [int(v)]. *)
Definition py_int `{Runtime} (v : json) : outcome Z :=
  match v with
  | JInt n => Ret n
  | JBool b => Ret (if b then 1 else 0)%Z
  | JFloat f => int_of_float f
  | JStr s => match int_of_str s with
              | Some n => Ret n
              | None => Raise ValueError
              end
  | _ => Raise TypeError
  end.

(** The float [0.0] and the int [0], the defaults of [.get]. *)
Definition zero_float : json := JFloat (S754_zero false).
Definition zero_int : json := JInt 0.

(** ** Dictionary keys

    Two keys are the same when Python finds them equal: [True], [1] and
    [1.0] are one key, and so are [0.0], [-0.0], [0] and [False].  A
    float key is kept by its exact value in lowest terms.  Every NaN that
    [json.loads] builds is the one object [json.decoder.NaN], hence one
    key. *)
Inductive pykey : Type :=
| KNone
| KInt (n : Z)
| KFrac (s : bool) (m : positive) (e : Z)
| KInf (s : bool)
| KNaN
| KStr (s : string).

#[global] Instance pykey_eq_dec : EqDecision pykey.
Proof. solve_decision. Defined.

Definition pykey_encode (k : pykey) : Z + (bool * positive * Z) + (option bool) + string :=
  match k with
  | KInt n => inl (inl (inl n))
  | KFrac s m e => inl (inl (inr (s, m, e)))
  | KInf s => inl (inr (Some s))
  | KNaN => inl (inr None)
  | KStr s => inr s
  | KNone => inr ""
  end.

Definition pykey_tag (k : pykey) : bool :=
  match k with
  | KNone => true
  | _ => false
  end.

Definition pykey_decode (x : bool * (Z + (bool * positive * Z) + (option bool) + string)) : pykey :=
  match x with
  | (true, _) => KNone
  | (false, inl (inl (inl n))) => KInt n
  | (false, inl (inl (inr (s, m, e)))) => KFrac s m e
  | (false, inl (inr (Some s))) => KInf s
  | (false, inl (inr None)) => KNaN
  | (false, inr s) => KStr s
  end.

#[global] Instance pykey_countable : Countable pykey.
Proof.
  apply (inj_countable' (fun k => (pykey_tag k, pykey_encode k)) pykey_decode).
  intros []; reflexivity.
Defined.

Definition key_of_float (f : spec_float) : pykey :=
  match f with
  | S754_zero _ => KInt 0
  | S754_infinity s => KInf s
  | S754_nan => KNaN
  | S754_finite s m e =>
      let '(n, e') := lowest_terms m e in
      if (0 <=? e')%Z
      then KInt (if s then - (Z.pos n * 2 ^ e') else Z.pos n * 2 ^ e')%Z
      else KFrac s n e'
  end.

(** The key a value is stored under; a list or a dict is unhashable. *)
Definition py_key (v : json) : outcome pykey :=
  match v with
  | JNull => Ret KNone
  | JBool b => Ret (KInt (if b then 1 else 0))
  | JInt n => Ret (KInt n)
  | JFloat f => Ret (key_of_float f)
  | JStr s => Ret (KStr s)
  | JArr _ | JObj _ => Raise TypeError
  end.

(** ** Address validator *)

Definition base58_alphabet : string :=
  "123456789ABCDEFGHJKLMNPQRSTUVWXYZabcdefghijkmnopqrstuvwxyz".

Fixpoint index_of (c : ascii) (s : string) (i : N) : option N :=
  match s with
  | EmptyString => None
  | String c' s' => if Ascii.eqb c c' then Some i else index_of c s' (i + 1)%N
  end.

Fixpoint base58_value (s : string) (acc : N) : option N :=
  match s with
  | EmptyString => Some acc
  | String c s' =>
      match index_of c base58_alphabet 0 with
      | Some d => base58_value s' (acc * 58 + d)%N
      | None => None
      end
  end.

Fixpoint leading_ones (s : string) : nat :=
  match s with
  | String c s' => if Ascii.eqb c "1" then S (leading_ones s') else O
  | EmptyString => O
  end.

Definition byte_length (n : N) : nat := N.to_nat ((N.size n + 7) / 8).

(** [Pubkey.from_string] of the library [solders]: at most 44 characters
    of the base58 alphabet that decode to exactly 32 bytes, a leading
    [1] standing for a zero byte.  [None] is the error it raises. *)
Definition Pubkey_from_string (s : string) : option N :=
  if (44 <? String.length s)%nat then None
  else match base58_value s 0 with
       | Some n => if (leading_ones s + byte_length n =? 32)%nat then Some n else None
       | None => None
       end.

Definition is_solana_address (input_string : string) : bool :=
  match Pubkey_from_string input_string with
  | Some _ => true
  | None => false
  end.

(** ** Methods with effects *)

Definition oc_try {A : Type} (c : outcome A) (handler : exn -> outcome A) : outcome A :=
  match c with
  | Ret a => Ret a
  | Raise e => handler e
  end.

Fixpoint oc_for {A : Type} (body : A -> outcome unit) (l : list A) : outcome unit :=
  match l with
  | [] => Ret tt
  | x :: rest => let? _ := body x in oc_for body rest
  end.

(** A computation over a state [St]; the state survives an exception. *)
Definition M (St A : Type) : Type := St -> outcome A * St.

Definition m_ret {St A : Type} (a : A) : M St A := fun s => (Ret a, s).

Definition m_raise {St A : Type} (e : exn) : M St A := fun s => (Raise e, s).

Definition m_lift {St A : Type} (c : outcome A) : M St A := fun s => (c, s).

Definition m_bind {St A B : Type} (c : M St A) (k : A -> M St B) : M St B :=
  fun s =>
    match c s with
    | (Ret a, s') => k a s'
    | (Raise e, s') => (Raise e, s')
    end.

Notation "'let*' x := c 'in' k" := (m_bind c (fun x => k))
  (at level 10, x name, c at level 100, k at level 200).

(** [try: c except ...: handler]; the handler re-raises what its clause
    does not name. *)
Definition m_try {St A : Type} (c : M St A) (handler : exn -> M St A) : M St A :=
  fun s =>
    match c s with
    | (Ret a, s') => (Ret a, s')
    | (Raise e, s') => handler e s'
    end.

Definition m_get {St : Type} : M St St := fun s => (Ret s, s).

Definition m_put {St : Type} (s : St) : M St unit := fun _ => (Ret tt, s).

Fixpoint m_for {St A : Type} (body : A -> M St unit) (l : list A) : M St unit :=
  match l with
  | [] => m_ret tt
  | x :: rest => let* _ := body x in m_for body rest
  end.

(** ** HTTP *)

Record request : Type := {
  verb : string;
  url : string;
  headers : list (string * string)
}.

(** A response: its status and its body, [None] when the body is not JSON. *)
Record response : Type := {
  status_code : Z;
  body : option json
}.

Definition transport : Type := request -> response.

(** [response.json()]. *)
Definition response_json (r : response) : outcome json :=
  match body r with
  | Some j => Ret j
  | None => Raise JSONDecodeError
  end.

(** [str(e)] for an exception built from at most one argument; the
    messages of the built-in exceptions are not modelled. *)
Definition exn_str `{Runtime} (e : exn) : string :=
  match e with
  | InvalidSolanaAddress a => a
  | NoPositionsError (Some s) => s
  | InvalidTokens (Some (JStr s)) => s
  | InvalidTokens (Some v) => py_str v
  | _ => ""
  end.

(** [d[k] = v] on a dict kept in insertion order. *)
Fixpoint dict_set (k : string) (v : json) (d : list (string * json)) : list (string * json) :=
  match d with
  | [] => [(k, v)]
  | (k', v') :: rest =>
      if String.eqb k k' then (k, v) :: rest else (k', v') :: dict_set k v rest
  end.

(** ** Result tables

    [fetch_prices_dex] and the DexScreener [fetch_token_overview] fill a
    dict of dicts of dicts: token address, then [dexId], then symbol.
    The variable [dex_id] of the method is part of the state, [None]
    while it is unbound: the handlers read it. *)
Abbreviation table V := (gmap string (gmap pykey (gmap pykey V))).

Record locals (V : Type) : Type := {
  tbl : table V;
  dex_id : option json
}.
Arguments tbl {V} l.
Arguments dex_id {V} l.

Section Locals.
Context {V : Type}.

(** [dex_id = v]. *)
Definition assign_dex_id (v : json) : M (locals V) unit :=
  fun st => (Ret tt, {| tbl := tbl st; dex_id := Some v |}).

(** Reading [dex_id]. *)
Definition read_dex_id : M (locals V) json :=
  fun st =>
    match dex_id st with
    | Some v => (Ret v, st)
    | None => (Raise UnboundLocalError, st)
    end.

Definition set_tbl (t : table V) : M (locals V) unit :=
  fun st => (Ret tt, {| tbl := t; dex_id := dex_id st |}).

(** [t[address] = {}]. *)
Definition token_reset (address : string) : M (locals V) unit :=
  let* st := m_get in
  set_tbl (<[address := ∅]> (tbl st)).

(** [t[address][d] = {}]. *)
Definition venue_reset (address : string) (d : json) : M (locals V) unit :=
  let* st := m_get in
  match tbl st !! address with
  | None => m_raise KeyError
  | Some venues =>
      let* k := m_lift (py_key d) in
      set_tbl (<[address := <[k := ∅]> venues]> (tbl st))
  end.

(** [t[address][d][symbol] = v]. *)
Definition venue_store (address : string) (d symbol : json) (v : V) : M (locals V) unit :=
  let* st := m_get in
  match tbl st !! address with
  | None => m_raise KeyError
  | Some venues =>
      let* k := m_lift (py_key d) in
      match venues !! k with
      | None => m_raise KeyError
      | Some quotes =>
          let* s := m_lift (py_key symbol) in
          set_tbl (<[address := <[k := <[s := v]> quotes]> venues]> (tbl st))
      end
  end.

(** [del t[address][d]]. *)
Definition venue_delete (address : string) (d : json) : M (locals V) unit :=
  let* st := m_get in
  match tbl st !! address with
  | None => m_raise KeyError
  | Some venues =>
      let* k := m_lift (py_key d) in
      match venues !! k with
      | None => m_raise KeyError
      | Some _ => set_tbl (<[address := delete k venues]> (tbl st))
      end
  end.

(** [if address in t: del t[address]]. *)
Definition token_discard (address : string) : M (locals V) unit :=
  let* st := m_get in
  set_tbl (delete address (tbl st)).

(** The handler of the inner [try] of both methods:
    [except (ValueError, TypeError): if dex_id: del t[address][dex_id]]. *)
Definition drop_venue (address : string) (e : exn) : M (locals V) unit :=
  if is_Value_or_TypeError e then
    let* d := read_dex_id in
    if truthy d then venue_delete address d else m_ret tt
  else m_raise e.
End Locals.

(** * dexscreener/dexscreener.py *)
Module DexScreener.

(** [PriceInfo] and [TokenOverview] come from [clients.common], which is
    not part of the sources: each is the record its call site builds, the
    fields of [TokenOverview] with the prefix [ov_]. *)
Record PriceInfo : Type := {
  value : Decimal;
  liquidity : Decimal
}.

Record TokenOverview : Type := {
  ov_price : Decimal;
  ov_symbol : json;
  ov_liquidity : Decimal;
  ov_decimals : string;
  ov_lastTradeUnixTime : string;
  ov_supply : string
}.

(** What [fetch_token_overview] returns: a string or the table. *)
Inductive overview_result : Type :=
| OvText (s : string)
| OvTable (t : table TokenOverview).

Section Client.
Context `{Runtime} (net : transport).

Definition _validate_token_address (token_address : string) : outcome unit :=
  oc_try
    (if negb (truthy (JStr token_address)) then Raise (NoPositionsError None)
     else if negb (is_solana_address token_address)
          then Raise (InvalidSolanaAddress token_address)
          else Ret tt)
    (fun e => Raise (InvalidSolanaAddress token_address)).

Definition _validate_token_addresses (token_addresses : list string) : outcome unit :=
  match token_addresses with
  | [] => Raise (NoPositionsError (Some "Token addresses list is empty"))
  | _ => oc_for _validate_token_address token_addresses
  end.

Definition _validate_response (resp : response) : outcome unit :=
  if negb (status_code resp =? 200)%Z then Raise (InvalidTokens None) else Ret tt.

Definition token_url (address : string) : string :=
  "https://api.dexscreener.com/latest/dex/tokens/" ++ address.

(** [requests.get(url)]: the request joins the log. *)
Definition requests_get (u : string) : M (list request) response :=
  fun log =>
    let r := {| verb := "GET"; url := u; headers := [] |} in
    (Ret (net r), (log ++ [r])%list).

Definition _call_api (token_address : string) : M (list request) json :=
  let* _ := m_lift (_validate_token_address token_address) in
  let* response := requests_get (token_url token_address) in
  let* _ := m_lift (_validate_response response) in
  m_lift (response_json response).

(** The body of the loop of [_call_api_bulk]. *)
Definition call_one (address : string) (responses : list (string * json))
  : M (list request) (list (string * json)) :=
  m_try
    (let* _ := m_lift (_validate_token_address address) in
     let* response := requests_get (token_url address) in
     let* _ := m_lift (_validate_response response) in
     let* j := m_lift (response_json response) in
     m_ret (dict_set address j responses))
    (fun e =>
       if is_address_or_tokens_error e
       then m_ret (dict_set address (JObj [("error", JStr (exn_str e))]) responses)
       else m_raise e).

Fixpoint call_each (token_addresses : list string) (responses : list (string * json))
  : M (list request) (list (string * json)) :=
  match token_addresses with
  | [] => m_ret responses
  | address :: rest =>
      let* responses' := call_one address responses in
      call_each rest responses'
  end.

Definition _call_api_bulk (token_addresses : list string)
  : M (list request) (list (string * json)) :=
  match token_addresses with
  | [] => m_raise (NoPositionsError (Some "Token addresses list is empty"))
  | _ => call_each token_addresses []
  end.

(** The inner [try] of [fetch_prices_dex], for one pair. *)
Definition price_pair (address : string) (pair : json) : M (locals PriceInfo) unit :=
  m_try
    (let* p := m_lift (py_get pair "priceUsd" zero_float) in
     let* price := m_lift (py_Decimal p) in
     let* l := m_lift (py_get pair "liquidity" (JObj [])) in
     let* u := m_lift (py_get l "usd" zero_float) in
     let* liquidity := m_lift (py_Decimal u) in
     let* d := m_lift (py_get pair "dexId" JNull) in
     let* _ := assign_dex_id d in
     let* _ := venue_reset address d in
     let* b := m_lift (py_get pair "baseToken" (JObj [])) in
     let* symbol := m_lift (py_get b "symbol" JNull) in
     venue_store address d symbol {| value := price; liquidity := liquidity |})
    (drop_venue address).

(** The outer [try] of [fetch_prices_dex], for one item of [responses]. *)
Definition price_token (item : string * json) : M (locals PriceInfo) unit :=
  let '(address, token_data) := item in
  m_try
    (let* has_pairs := m_lift (py_contains "pairs" token_data) in
     if has_pairs then
       let* _ := token_reset address in
       let* pairs := m_lift (py_getitem token_data "pairs") in
       let* items := m_lift (py_iter pairs) in
       m_for (price_pair address) items
     else m_ret tt)
    (fun e => if is_Value_or_TypeError e then token_discard address else m_raise e).

(** Runs a loop over fresh locals and hands back the table. *)
Definition run_locals {V St : Type} (c : M (locals V) unit) (t : table V) : M St (table V) :=
  match c {| tbl := t; dex_id := None |} with
  | (Ret _, st) => m_ret (tbl st)
  | (Raise e, _) => m_raise e
  end.

Definition fetch_prices_dex (token_addresses : list string)
  : M (list request) (table PriceInfo) :=
  let* _ := m_lift (_validate_token_addresses token_addresses) in
  let* responses := _call_api_bulk token_addresses in
  run_locals (m_for price_token responses) ∅.

(** The inner [try] of [fetch_token_overview], for one pair. *)
Definition overview_pair (address : string) (pair : json) : M (locals TokenOverview) unit :=
  m_try
    (let* p := m_lift (py_get pair "priceUsd" zero_float) in
     let* price := m_lift (py_Decimal p) in
     let* b := m_lift (py_get pair "baseToken" (JObj [])) in
     let* symbol := m_lift (py_get b "symbol" JNull) in
     let* l := m_lift (py_get pair "liquidity" (JObj [])) in
     let* u := m_lift (py_get l "usd" zero_float) in
     let* liquidity := m_lift (py_Decimal u) in
     let* d := m_lift (py_get pair "dexId" JNull) in
     let* _ := assign_dex_id d in
     let* _ := venue_reset address d in
     venue_store address d symbol
       {| ov_price := price; ov_symbol := symbol; ov_liquidity := liquidity;
          ov_decimals := "N/A"; ov_lastTradeUnixTime := "N/A"; ov_supply := "N/A" |})
    (drop_venue address).

Definition fetch_token_overview (address : string) : M (list request) overview_result :=
  let* _ := m_lift (_validate_token_address address) in
  let* responses := _call_api address in
  let* pairs := m_lift (py_get responses "pairs" JNull) in
  if truthy pairs then
    let* items := m_lift (py_iter pairs) in
    let* t := run_locals (m_for (overview_pair address) items) {[address := ∅]} in
    m_ret (OvTable t)
  else m_ret (OvText "Pairs Not Found").

(** The condition of the [if] in [find_largest_pool_with_sol]; the
    right operand of [and] is evaluated only when the left one holds. *)
Definition pool_matches (entry : json) (address : string) : outcome bool :=
  let? b := py_get entry "baseToken" (JObj []) in
  let? a := py_get b "address" JNull in
  if json_is_str address a then
    let? q := py_getitem entry "quoteToken" in
    let? qa := py_getitem q "address" in
    Ret (json_is_str SOL_MINT qa)
  else Ret false.

(** [entry.get("liquidity", {}).get("usd", 0)] as a float. *)
Definition liquidity_usd (entry : json) : outcome spec_float :=
  let? l := py_get entry "liquidity" (JObj []) in
  let? u := py_get l "usd" zero_int in
  py_float u.

(** The [-1] that [max_liquidity_usd] starts from, as the float it is
    compared as. *)
Definition minus_one : spec_float := S754_finite true 4503599627370496 (-52).

Fixpoint largest_from (token_pairs : list json) (address : string)
    (max_entry : json) (max_liquidity_usd : spec_float) : outcome json :=
  match token_pairs with
  | [] => Ret max_entry
  | entry :: rest =>
      let? m := pool_matches entry address in
      if m then
        let? l := liquidity_usd entry in
        if float_gt l max_liquidity_usd
        then largest_from rest address entry l
        else largest_from rest address max_entry max_liquidity_usd
      else largest_from rest address max_entry max_liquidity_usd
  end.

Definition find_largest_pool_with_sol (token_pairs : list json) (address : string)
  : outcome json :=
  largest_from token_pairs address (JObj []) minus_one.
End Client.

End DexScreener.

(** * birdeye/birdeye.py *)
Module BirdEye.

Record PriceInfo : Type := {
  price : Decimal;
  liquidity : Decimal
}.

(** [TokenOverview] is [typing.Dict[str, Union[float, str]]], a
    subscripted alias of [typing.Dict].  Such an alias cannot be
    instantiated: calling it raises [TypeError], once the keyword
    arguments of the call have been evaluated. *)
Definition TokenOverview (price : Decimal) (symbol : json)
    (decimals lastTradeUnixTime : Z) (liquidity supply : Decimal) : outcome json :=
  Raise TypeError.

(** The requests sent and the values printed so far. *)
Record world : Type := {
  sent : list request;
  printed : list (gmap string PriceInfo)
}.

Definition upper_ascii (c : ascii) : ascii :=
  let n := nat_of_ascii c in
  if ((97 <=? n) && (n <=? 122))%nat then ascii_of_nat (n - 32) else c.

(** [s.upper()] on ASCII. *)
Fixpoint upper (s : string) : string :=
  match s with
  | EmptyString => EmptyString
  | String c s' => String (upper_ascii c) (upper s')
  end.

Section Client.
Context `{Runtime} (net : transport).

Definition _headers : list (string * string) :=
  [("accept", "application/json"); ("x-chain", "solana"); ("X-API-KEY", BIRDEYE_API_KEY)].

Definition send (v u : string) : M world response :=
  fun w =>
    let r := {| verb := v; url := u; headers := _headers |} in
    (Ret (net r), {| sent := (sent w ++ [r])%list; printed := printed w |}).

Definition _make_api_call (method query_url : string) : M world response :=
  if String.eqb (upper method) "GET" then send "GET" query_url
  else if String.eqb (upper method) "POST" then send "POST" query_url
  else m_raise ValueError.

(** [print(prices)]. *)
Definition print (prices : gmap string PriceInfo) : M world unit :=
  fun w => (Ret tt, {| sent := sent w; printed := (printed w ++ [prices])%list |}).

(** The loop of [fetch_prices] over [token_addresses]. *)
Fixpoint price_each (data : json) (token_addresses : list string)
    (prices : gmap string PriceInfo) : outcome (gmap string PriceInfo) :=
  match token_addresses with
  | [] => Ret prices
  | token :: rest =>
      let? d := py_getitem data "data" in
      let? token_data := py_get d token JNull in
      if truthy token_data then
        let? v := py_getitem token_data "value" in
        let? p := py_Decimal v in
        let? c := py_getitem token_data "priceChange24h" in
        let? l := py_Decimal c in
        price_each data rest (<[token := {| price := p; liquidity := l |}]> prices)
      else
        price_each data rest
          (<[token := {| price := Dec false 0 0; liquidity := Dec false 0 0 |}]> prices)
  end.

(** The method has no [return]: it gives [None] back. *)
Definition fetch_prices (token_addresses : list string)
  : M world (option (gmap string PriceInfo)) :=
  match token_addresses with
  | [] => m_raise (NoPositionsError (Some "No tokens provided"))
  | _ =>
      let addresses := String.concat "," token_addresses in
      let url := BASE_URL ++ "/defi/multi_price?list_address=" ++ addresses in
      let* response := _make_api_call "GET" url in
      if negb (status_code response =? 200)%Z
      then m_raise (InvalidTokens (Some (JStr "API call was unsuccessful")))
      else
        let* data := m_lift (response_json response) in
        let* prices := m_lift (price_each data token_addresses ∅) in
        let* _ := print prices in
        m_ret None
  end.

Definition unauthorized : json :=
  JObj [("CODE", JInt 401); ("message", JStr "Token is not Authorized")].

Definition fetch_token_overview (address : string) : M world json :=
  if negb (is_solana_address address)
  then m_raise (InvalidSolanaAddress ("Invalid Solana address: " ++ address))
  else
    let url := "https://public-api.birdeye.so/defi/token_overview?address=" ++ address in
    let* response := _make_api_call "GET" url in
    if (status_code response =? 401)%Z
    then m_raise (InvalidTokens (Some unauthorized))
    else if negb (status_code response =? 200)%Z
    then m_raise (InvalidTokens (Some (JStr "API call was unsuccessful")))
    else
      let* data := m_lift (response_json response) in
      let* token := m_lift (py_get data "data" JNull) in
      let* p := m_lift (py_get token "price" zero_int) in
      let* price := m_lift (py_Decimal p) in
      let* symbol := m_lift (py_get token "symbol" (JStr "")) in
      let* d := m_lift (py_get token "decimals" zero_int) in
      let* decimals := m_lift (py_int d) in
      let* t := m_lift (py_get token "lastTradeUnixTime" zero_int) in
      let* lastTradeUnixTime := m_lift (py_int t) in
      let* l := m_lift (py_get token "liquidity" zero_int) in
      let* liquidity := m_lift (py_Decimal l) in
      let* s := m_lift (py_get token "supply" zero_int) in
      let* supply := m_lift (py_Decimal s) in
      m_lift (TokenOverview price symbol decimals lastTradeUnixTime liquidity supply).
End Client.

End BirdEye.

(** * A runtime for the examples

    Its parsers read plain decimal literals: an optional sign, digits and
    at most one point for [Decimal], an optional sign and digits for
    [int] and [float].  Every other string is rejected, a sequence is not
    a [Decimal], and [str] of a value is not used by the examples. *)

Definition digit_value (c : ascii) : option N :=
  let n := N_of_ascii c in
  if ((48 <=? n) && (n <=? 57))%N then Some (n - 48)%N else None.

Fixpoint digits_value (s : string) (acc : N) : option N :=
  match s with
  | EmptyString => Some acc
  | String c s' =>
      match digit_value c with
      | Some d => digits_value s' (acc * 10 + d)%N
      | None => None
      end
  end.

(** The text before the first point and, if there is one, the text after it. *)
Fixpoint split_point (s : string) : string * option string :=
  match s with
  | EmptyString => (EmptyString, None)
  | String c s' =>
      if Ascii.eqb c "." then (EmptyString, Some s')
      else let '(i, f) := split_point s' in (String c i, f)
  end.

Definition unsigned_literal (s : string) : option (N * Z) :=
  let '(i, f) := split_point s in
  let frac := default EmptyString f in
  if String.eqb (i ++ frac) "" then None
  else match digits_value (i ++ frac) 0 with
       | Some n => Some (n, (- Z.of_nat (String.length frac))%Z)
       | None => None
       end.

Definition signed (s : string) : bool * string :=
  match s with
  | String c s' =>
      if Ascii.eqb c "-" then (true, s')
      else if Ascii.eqb c "+" then (false, s')
      else (false, s)
  | EmptyString => (false, s)
  end.

Definition plain_Decimal (s : string) : option Decimal :=
  let '(neg, body) := signed s in
  match unsigned_literal body with
  | Some (n, e) => Some (Dec neg n e)
  | None => None
  end.

Definition plain_int (s : string) : option Z :=
  let '(neg, body) := signed s in
  if String.eqb body "" then None
  else match digits_value body 0 with
       | Some n => Some (if neg then (- Z.of_N n)%Z else Z.of_N n)
       | None => None
       end.

Definition plain_float (s : string) : option spec_float :=
  match plain_int s with
  | Some n => Some (binary_normalize prec64 emax64 n 0 (fst (signed s)))
  | None => None
  end.

Definition plain_runtime : Runtime := {|
  Decimal_of_str := plain_Decimal;
  Decimal_of_seq := fun _ => Raise ValueError;
  float_of_str := plain_float;
  int_of_str := plain_int;
  py_str := fun _ => "";
  BASE_URL := "https://public-api.birdeye.so";
  BIRDEYE_API_KEY := "key";
  SOL_MINT := "So11111111111111111111111111111111111111112"
|}.

(** * Requests, payload shapes and examples used by the statements *)

(** The request [requests.get] sends for a DexScreener token. *)
Definition dex_request (address : string) : request :=
  {| verb := "GET"; url := DexScreener.token_url address; headers := [] |}.

(** The request of the BirdEye multi-price call. *)
Definition multi_price_request `{Runtime} (token_addresses : list string) : request :=
  {| verb := "GET";
     url := BASE_URL ++ "/defi/multi_price?list_address=" ++ String.concat "," token_addresses;
     headers := BirdEye._headers |}.

(** The request of the BirdEye overview call. *)
Definition overview_request `{Runtime} (address : string) : request :=
  {| verb := "GET";
     url := "https://public-api.birdeye.so/defi/token_overview?address=" ++ address;
     headers := BirdEye._headers |}.

(** The message of the generic [InvalidTokens] of the BirdEye client. *)
Definition unsuccessful : exn := InvalidTokens (Some (JStr "API call was unsuccessful")).

(** An overview payload without a result: no [pairs], an empty list, or
    [null]. *)
Definition pairs_missing (kv : list (string * json)) : Prop :=
  assoc "pairs" kv = None \/ assoc "pairs" kv = Some (JArr []) \/ assoc "pairs" kv = Some JNull.

(** What one iteration of the loop of [BirdEye.fetch_prices] stores for
    [token]. *)
Definition token_quote `{Runtime} (data : json) (token : string) : outcome BirdEye.PriceInfo :=
  let? d := py_getitem data "data" in
  let? token_data := py_get d token JNull in
  if truthy token_data then
    let? v := py_getitem token_data "value" in
    let? p := py_Decimal v in
    let? c := py_getitem token_data "priceChange24h" in
    let? l := py_Decimal c in
    Ret {| BirdEye.price := p; BirdEye.liquidity := l |}
  else Ret {| BirdEye.price := Dec false 0 0; BirdEye.liquidity := Dec false 0 0 |}.

(** What the [try] block of [DexScreener.price_pair] reads from a pair
    when nothing in it fails: the [dexId], its key, the key of the symbol
    and the quote. *)
Definition pair_entry `{Runtime} (pair : json)
  : outcome (json * pykey * pykey * DexScreener.PriceInfo) :=
  let? p := py_get pair "priceUsd" zero_float in
  let? price := py_Decimal p in
  let? l := py_get pair "liquidity" (JObj []) in
  let? u := py_get l "usd" zero_float in
  let? liquidity := py_Decimal u in
  let? d := py_get pair "dexId" JNull in
  let? k := py_key d in
  let? b := py_get pair "baseToken" (JObj []) in
  let? symbol := py_get b "symbol" JNull in
  let? s := py_key symbol in
  Ret (d, k, s, {| DexScreener.value := price; DexScreener.liquidity := liquidity |}).

(** A pair all of whose reads succeed. *)
Definition pair_parses `{Runtime} (pair : json) : Prop :=
  exists e, pair_entry pair = Ret e.

(** The venues of a token after a pair that parses. *)
Definition store_pair `{Runtime} (venues : gmap pykey (gmap pykey DexScreener.PriceInfo))
    (pair : json) : gmap pykey (gmap pykey DexScreener.PriceInfo) :=
  match pair_entry pair with
  | Ret (_, k, s, q) => <[k := {[s := q]}]> venues
  | Raise _ => venues
  end.

(** A price payload: a dict whose [pairs] is a list of pairs that parse. *)
Definition payload_parses `{Runtime} (payload : json) : Prop :=
  exists kv pairs,
    payload = JObj kv /\ assoc "pairs" kv = Some (JArr pairs) /\ Forall pair_parses pairs.

(** The per-token error marker of [_call_api_bulk]. *)
Definition error_marker (text : string) : json := JObj [("error", JStr text)].

(** What [_call_api_bulk] stores for an address whose 200 responses carry
    JSON. *)
Definition bulk_entry (net : transport) (address : string) : json :=
  if is_solana_address address then
    if (status_code (net (dex_request address)) =? 200)%Z
    then default JNull (body (net (dex_request address)))
    else error_marker ""
  else error_marker address.

(** The requests a bulk call sends: one per valid address. *)
Definition bulk_requests (addresses : list string) : list request :=
  map dex_request (filter (fun a => is_solana_address a = true) addresses).

(** An order-preserving key of the floats that are not a NaN. *)
Definition float_rank (f : spec_float) : option (Z * Z * Z) :=
  match f with
  | S754_nan => None
  | S754_infinity true => Some (-2, 0, 0)%Z
  | S754_finite true m e => Some (-1, - e, - Z.pos m)%Z
  | S754_zero _ => Some (0, 0, 0)%Z
  | S754_finite false m e => Some (1, e, Z.pos m)%Z
  | S754_infinity false => Some (2, 0, 0)%Z
  end.

Definition lex_lt (x y : Z * Z * Z) : Prop :=
  let '(a, b, c) := x in
  let '(a', b', c') := y in
  (a < a' \/ (a = a' /\ (b < b' \/ (b = b' /\ c < c'))))%Z.

(** [r], with liquidity [f], is the first of the pairs that pass the
    filter of the pool selector to have the largest liquidity: no
    earlier pair that passes has a liquidity of at least [f], no later
    one has more. *)
Definition first_largest `{Runtime} (token_pairs : list json) (address : string)
    (r : json) (f : spec_float) : Prop :=
  exists before after,
    token_pairs = (before ++ r :: after)%list
    /\ DexScreener.pool_matches r address = Ret true
    /\ DexScreener.liquidity_usd r = Ret f
    /\ (forall e g, e ∈ before -> DexScreener.pool_matches e address = Ret true ->
          DexScreener.liquidity_usd e = Ret g -> SFleb f g = false)
    /\ (forall e g, e ∈ after -> DexScreener.pool_matches e address = Ret true ->
          DexScreener.liquidity_usd e = Ret g -> SFltb f g = false).

(** A pair the pool selector can read: the filter gives an answer and,
    when the pair passes, its liquidity converts to a float. *)
Definition pool_readable `{Runtime} (address : string) (entry : json) : Prop :=
  DexScreener.pool_matches entry address = Ret false
  \/ (DexScreener.pool_matches entry address = Ret true
      /\ exists f, DexScreener.liquidity_usd entry = Ret f).

(** The rank of the float that [float] gives for an int below [2^53] in
    magnitude. *)
Definition int_rank (n : Z) : Z * Z * Z :=
  match n with
  | Z0 => (0, 0, 0)
  | Zpos p => let d := Z.pos (digits2_pos p) in (1, d - 53, Z.pos p * 2 ^ (53 - d))
  | Zneg p => let d := Z.pos (digits2_pos p) in (-1, - (d - 53), - (Z.pos p * 2 ^ (53 - d)))
  end%Z.

(** [liquidity.usd] of a pair, when it is an int: its exact value. *)
Definition exact_liquidity (entry : json) : option Z :=
  match entry with
  | JObj kv =>
      match default (JObj []) (assoc "liquidity" kv) with
      | JObj inner =>
          match default zero_int (assoc "usd" inner) with
          | JInt n => Some n
          | _ => None
          end
      | _ => None
      end
  | _ => None
  end.

(** A pair the filter of the pool selector gives an answer for and, when
    it passes, whose liquidity is an int below [2^53] in magnitude. *)
Definition pool_exact `{Runtime} (address : string) (entry : json) : Prop :=
  DexScreener.pool_matches entry address = Ret false
  \/ (DexScreener.pool_matches entry address = Ret true
      /\ exists n, exact_liquidity entry = Some n /\ (Z.abs n < 2 ^ 53)%Z).

(** [first_largest], in exact values: no earlier pair that passes has a
    liquidity of at least [n], no later one has more. *)
Definition first_largest_exact `{Runtime} (token_pairs : list json) (address : string)
    (r : json) (n : Z) : Prop :=
  exists before after,
    token_pairs = (before ++ r :: after)%list
    /\ DexScreener.pool_matches r address = Ret true
    /\ exact_liquidity r = Some n
    /\ (forall e m, e ∈ before -> DexScreener.pool_matches e address = Ret true ->
          exact_liquidity e = Some m -> (m < n)%Z)
    /\ (forall e m, e ∈ after -> DexScreener.pool_matches e address = Ret true ->
          exact_liquidity e = Some m -> (m <= n)%Z).

(** Example addresses: the wrapped SOL mint, two tokens, and a string that
    is no address. *)
Definition WSOL : string := "So11111111111111111111111111111111111111112".
Definition TOKEN_A : string := "WskzsKqEW3ZsmrhPAevfVZb6PuuLzWov9mJWZsfDePC".
Definition TOKEN_B : string := "2uvch6aviS6xE3yhWjVZnFrDw7skUtf6ubc7xYJEPpwj".
Definition NOT_AN_ADDRESS : string := "not-an-address".

(** A DexScreener pair of [TOKEN_A] against wrapped SOL. *)
Definition example_pair (priceUsd usd : json) (dex : string) : json :=
  JObj [("priceUsd", priceUsd);
        ("liquidity", JObj [("usd", usd)]);
        ("dexId", JStr dex);
        ("baseToken", JObj [("address", JStr TOKEN_A); ("symbol", JStr "TKA")]);
        ("quoteToken", JObj [("address", JStr WSOL)])].

Definition example_payload : json :=
  JObj [("pairs", JArr [example_pair (JStr "1.5") (JInt 10) "raydium";
                        example_pair (JStr "1.6") (JInt 50) "orca"])].

(** A payload whose only pair has a [null] price. *)
Definition unbound_payload : json :=
  JObj [("pairs", JArr [example_pair JNull (JInt 10) "raydium"])].

(** A payload whose second pair has a [null] price. *)
Definition stale_payload : json :=
  JObj [("pairs", JArr [example_pair (JStr "1.6") (JInt 50) "orca";
                        example_pair JNull (JInt 10) "raydium"])].

(** A payload without pairs. *)
Definition empty_payload : json := JObj [("pairs", JArr [])].

(** A transport that answers [status] with [payload] whatever the request. *)
Definition always (status : Z) (payload : json) : transport :=
  fun _ => {| status_code := status; body := Some payload |}.

(** A DexScreener transport: [example_payload] for every token but
    [TOKEN_B], which gets a 500. *)
Definition one_down : transport :=
  fun r =>
    if String.eqb (url r) (DexScreener.token_url TOKEN_B)
    then {| status_code := 500; body := None |}
    else {| status_code := 200; body := Some example_payload |}.

(** A BirdEye multi-price payload that knows [TOKEN_A] only. *)
Definition example_prices : json :=
  JObj [("data", JObj [(TOKEN_A, JObj [("value", JStr "2.5"); ("priceChange24h", JInt 7)])])].

(** A BirdEye multi-price payload whose [value] is [null]. *)
Definition null_value_prices : json :=
  JObj [("data", JObj [(TOKEN_A, JObj [("value", JNull); ("priceChange24h", JInt 7)])])].

Definition fresh_world : BirdEye.world := {| BirdEye.sent := []; BirdEye.printed := [] |}.

(** * Relations between the locals before and after a computation *)

(** [c] relates every state to the state it leaves, whatever its outcome. *)
Definition respects {V A : Type} (R : locals V -> locals V -> Prop)
    (c : M (locals V) A) : Prop :=
  forall st, R st (snd (c st)).

(** The table is the same, or differs by the entry of [address], which is
    then present. *)
Definition updates_entry {V : Type} (address : string) (st st' : locals V) : Prop :=
  tbl st' = tbl st \/ exists venues, tbl st' = <[address := venues]> (tbl st).

(** The entries of the other addresses are the same. *)
Definition same_elsewhere {V : Type} (address : string) (st st' : locals V) : Prop :=
  forall a, a <> address -> tbl st' !! a = tbl st !! a.

(** Every value stored in a table satisfies [P]. *)
Definition table_values {V : Type} (P : V -> Prop) (t : table V) : Prop :=
  forall a venues k quotes s v,
    t !! a = Some venues -> venues !! k = Some quotes -> quotes !! s = Some v -> P v.

(** [P] on the values of the table is kept. *)
Definition keeps_values {V : Type} (P : V -> Prop) (st st' : locals V) : Prop :=
  table_values P (tbl st) -> table_values P (tbl st').

(** The three fields a DexScreener overview cannot fill. *)
Definition unavailable (v : DexScreener.TokenOverview) : Prop :=
  DexScreener.ov_decimals v = "N/A"
  /\ DexScreener.ov_lastTradeUnixTime v = "N/A"
  /\ DexScreener.ov_supply v = "N/A".

(** A payload with two pairs of one venue. *)
Definition same_venue_payload : json :=
  JObj [("pairs", JArr [example_pair (JStr "1.5") (JInt 10) "orca";
                        example_pair (JStr "1.6") (JInt 50) "orca"])].

(** A payload whose [pairs] is [null], the answer for an unknown token. *)
Definition null_pairs_payload : json := JObj [("pairs", JNull)].

(** The price and the liquidity of an overview, as a quote. *)
Definition quote_of_overview (o : DexScreener.TokenOverview) : DexScreener.PriceInfo :=
  {| DexScreener.value := DexScreener.ov_price o;
     DexScreener.liquidity := DexScreener.ov_liquidity o |}.

(** What [pair.get('baseToken', {}).get('symbol')] gives for a pair where
    it does not raise. *)
Definition pair_symbol (pair : json) : json :=
  match (let? b := py_get pair "baseToken" (JObj []) in py_get b "symbol" JNull) with
  | Ret symbol => symbol
  | Raise _ => JNull
  end.

(** The overview that [fetch_token_overview] builds for a pair with the
    quote [q]. *)
Definition overview_of (pair : json) (q : DexScreener.PriceInfo) : DexScreener.TokenOverview :=
  {| DexScreener.ov_price := DexScreener.value q;
     DexScreener.ov_symbol := pair_symbol pair;
     DexScreener.ov_liquidity := DexScreener.liquidity q;
     DexScreener.ov_decimals := "N/A";
     DexScreener.ov_lastTradeUnixTime := "N/A";
     DexScreener.ov_supply := "N/A" |}.

(** The venues of the overview of a token after a pair that parses. *)
Definition store_overview `{Runtime}
    (venues : gmap pykey (gmap pykey DexScreener.TokenOverview)) (pair : json)
  : gmap pykey (gmap pykey DexScreener.TokenOverview) :=
  match pair_entry pair with
  | Ret (_, k, s, q) => <[k := {[s := overview_of pair q]}]> venues
  | Raise _ => venues
  end.

(** The quotes of the venues of an overview, and of a table of
    overviews. *)
Definition venue_quotes (venues : gmap pykey (gmap pykey DexScreener.TokenOverview))
  : gmap pykey (gmap pykey DexScreener.PriceInfo) :=
  fmap (M := gmap pykey) (fmap (M := gmap pykey) quote_of_overview) venues.

Definition table_quotes (t : table DexScreener.TokenOverview) : table DexScreener.PriceInfo :=
  fmap (M := gmap string) venue_quotes t.

(** A transport whose answers are 200 with a body that is not JSON. *)
Definition not_json : transport :=
  fun _ => {| status_code := 200; body := None |}.

(** * The claims in the words of the specification *)





(** A BirdEye transport that answers the overview with a 401 and every
    other request with a 200 and [example_prices]. *)
Definition overview_unauthorized : transport :=
  fun r =>
    if String.prefix "https://public-api.birdeye.so/defi/token_overview" (url r)
    then {| status_code := 401; body := None |}
    else {| status_code := 200; body := Some example_prices |}.

(** A numeric field that is absent or convertible: [d] is the exact
    decimal 0 when the field is absent and [Decimal] of the field
    otherwise. *)
Definition field_converts `{Runtime} (field : option json) (d : Decimal) : Prop :=
  match field with
  | None => d = Dec false 0 0
  | Some v => py_Decimal v = Ret d
  end.

(** A pair of a price payload that is well formed, with the venue key
    [k], the symbol key [s] and the quote [q] it stands for: a dict whose
    [priceUsd] is absent or converts to the value of [q]; whose
    [liquidity] is absent or a dict whose [usd] is absent or converts to
    the liquidity of [q]; whose [dexId], [null] when absent, can be a
    key, [k]; whose [baseToken] is absent or a dict whose [symbol],
    [null] when absent, can be a key, [s]. *)
Definition well_formed_pair `{Runtime} (pair : json) (k s : pykey)
    (q : DexScreener.PriceInfo) : Prop :=
  exists kv,
    pair = JObj kv
    /\ field_converts (assoc "priceUsd" kv) (DexScreener.value q)
    /\ match assoc "liquidity" kv with
       | None => DexScreener.liquidity q = Dec false 0 0
       | Some (JObj inner) => field_converts (assoc "usd" inner) (DexScreener.liquidity q)
       | Some _ => False
       end
    /\ py_key (default JNull (assoc "dexId" kv)) = Ret k
    /\ match assoc "baseToken" kv with
       | None => s = KNone
       | Some (JObj b) => py_key (default JNull (assoc "symbol" b)) = Ret s
       | Some _ => False
       end.

(** An entry of the multi-price payload of BirdEye that [fetch_prices]
    can store: the token is omitted, or its entry is falsy, or it is a
    dict whose [value] and [priceChange24h] are present and convert. *)
Definition entry_converts `{Runtime} (entries : list (string * json)) (token : string)
  : Prop :=
  match assoc token entries with
  | None => True
  | Some token_data =>
      truthy token_data = false
      \/ exists fields v c p l,
           token_data = JObj fields
           /\ assoc "value" fields = Some v /\ py_Decimal v = Ret p
           /\ assoc "priceChange24h" fields = Some c /\ py_Decimal c = Ret l
  end.

(** A pair without [priceUsd] and without [liquidity]. *)
Definition bare_pair : json :=
  JObj [("dexId", JStr "orca"); ("baseToken", JObj [("symbol", JStr "TKA")])].

(** A pair whose [baseToken] is [null]. *)
Definition null_base_payload : json :=
  JObj [("pairs", JArr [JObj [("dexId", JStr "orca"); ("baseToken", JNull)]])].

(** * Properties *)

(** ** Address and response validation *)

Lemma solana_address_truthy (a : string) :
  is_solana_address a = true -> truthy (JStr a) = true.
Proof. destruct a; [vm_compute; discriminate | reflexivity]. Qed.

Lemma validate_token_address_ok (a : string) :
  is_solana_address a = true -> DexScreener._validate_token_address a = Ret tt.
Proof.
  intros Ha. unfold DexScreener._validate_token_address.
  rewrite (solana_address_truthy a Ha), Ha. reflexivity.
Qed.

Lemma validate_token_address_bad (a : string) :
  is_solana_address a = false ->
  DexScreener._validate_token_address a = Raise (InvalidSolanaAddress a).
Proof.
  intros Ha. unfold DexScreener._validate_token_address.
  rewrite Ha. destruct (truthy (JStr a)); reflexivity.
Qed.

(** The empty string is rejected as an invalid address: the
    [NoPositionsError] raised for it is caught by the handler of the same
    method. *)
Lemma validate_token_address_empty :
  DexScreener._validate_token_address "" = Raise (InvalidSolanaAddress "").
Proof. reflexivity. Qed.

Lemma validate_token_addresses_ok (l : list string) :
  l <> [] -> Forall (fun a => is_solana_address a = true) l ->
  DexScreener._validate_token_addresses l = Ret tt.
Proof.
  intros Hne Hall. unfold DexScreener._validate_token_addresses.
  destruct l as [|a l]; [congruence|]. clear Hne.
  induction Hall as [|x xs Hx _ IH]; [reflexivity|].
  cbn [oc_for]. rewrite (validate_token_address_ok x Hx). exact IH.
Qed.

(** With an invalid address in the list, validation raises for the first
    one. *)
Lemma validate_token_addresses_bad (l1 l2 : list string) (bad : string) :
  Forall (fun a => is_solana_address a = true) l1 ->
  is_solana_address bad = false ->
  DexScreener._validate_token_addresses (l1 ++ bad :: l2)%list
    = Raise (InvalidSolanaAddress bad).
Proof.
  intros Hall Hbad. unfold DexScreener._validate_token_addresses.
  assert (Hfor : oc_for DexScreener._validate_token_address (l1 ++ bad :: l2)%list
                 = Raise (InvalidSolanaAddress bad)).
  { induction Hall as [|x xs Hx _ IH]; cbn [oc_for app].
    - rewrite (validate_token_address_bad bad Hbad). reflexivity.
    - rewrite (validate_token_address_ok x Hx). exact IH. }
  destruct (l1 ++ bad :: l2)%list eqn:E; [destruct l1; discriminate | exact Hfor].
Qed.

Section BirdEyeProperties.
Context {rt : Runtime} (net : transport).

Lemma make_api_call_get (u : string) (w : BirdEye.world) :
  BirdEye._make_api_call net "GET" u w
  = (Ret (net {| verb := "GET"; url := u; headers := BirdEye._headers |}),
     {| BirdEye.sent := (BirdEye.sent w
                           ++ [{| verb := "GET"; url := u; headers := BirdEye._headers |}])%list;
        BirdEye.printed := BirdEye.printed w |}).
Proof. reflexivity. Qed.

(** [fetch_prices] sends its request whatever the addresses are. *)
Lemma fetch_prices_sends (tokens : list string) (w : BirdEye.world) :
  tokens <> [] ->
  BirdEye.sent (snd (BirdEye.fetch_prices net tokens w))
  = (BirdEye.sent w ++ [multi_price_request tokens])%list.
Proof.
  intros Hne. destruct tokens as [|t ts]; [congruence|].
  unfold BirdEye.fetch_prices, m_bind. rewrite make_api_call_get.
  fold (multi_price_request (t :: ts)).
  destruct (negb _); [reflexivity|].
  unfold m_lift. destruct (response_json _); [|reflexivity].
  destruct (BirdEye.price_each _ _ _); reflexivity.
Qed.

(** [fetch_prices] never gives a mapping back. *)
Lemma fetch_prices_no_mapping (tokens : list string) (w : BirdEye.world)
    (m : gmap string BirdEye.PriceInfo) :
  fst (BirdEye.fetch_prices net tokens w) <> Ret (Some m).
Proof.
  destruct tokens as [|t ts]; [discriminate|].
  unfold BirdEye.fetch_prices, m_bind. rewrite make_api_call_get.
  destruct (negb _); [discriminate|].
  unfold m_lift. destruct (response_json _); [|discriminate].
  destruct (BirdEye.price_each _ _ _); discriminate.
Qed.

Lemma price_each_step (data : json) (t : string) (ts : list string)
    (acc : gmap string BirdEye.PriceInfo) :
  BirdEye.price_each data (t :: ts) acc
  = let? q := token_quote data t in BirdEye.price_each data ts (<[t := q]> acc).
Proof.
  cbn [BirdEye.price_each]. unfold token_quote.
  destruct (py_getitem data "data") as [d|]; [|reflexivity]. cbn [oc_bind].
  destruct (py_get d t JNull) as [td|]; [|reflexivity]. cbn [oc_bind].
  destruct (truthy td); [|reflexivity].
  destruct (py_getitem td "value") as [v|]; [|reflexivity]. cbn [oc_bind].
  destruct (py_Decimal v); [|reflexivity]. cbn [oc_bind].
  destruct (py_getitem td "priceChange24h") as [c|]; [|reflexivity]. cbn [oc_bind].
  destruct (py_Decimal c); reflexivity.
Qed.

(** The loop stores the quote of every token it is given and leaves the
    other keys alone. *)
Lemma price_each_total (data : json) (tokens : list string)
    (acc : gmap string BirdEye.PriceInfo) :
  Forall (fun t => exists q, token_quote data t = Ret q) tokens ->
  exists prices,
    BirdEye.price_each data tokens acc = Ret prices
    /\ (forall t, t ∈ tokens -> exists q, token_quote data t = Ret q /\ prices !! t = Some q)
    /\ (forall t, t ∉ tokens -> prices !! t = acc !! t).
Proof.
  intros Hall. revert acc.
  induction Hall as [|t ts [q Hq] _ IH]; intros acc.
  - exists acc. split; [reflexivity|]. split; [|reflexivity].
    intros t Ht. inversion Ht.
  - rewrite price_each_step, Hq. cbn [oc_bind].
    destruct (IH (<[t := q]> acc)) as (prices & Hrun & Hin & Hout).
    exists prices. split; [exact Hrun|]. split.
    + intros t' Ht'. destruct (decide (t' ∈ ts)) as [Hts|Hts]; [auto|].
      apply elem_of_cons in Ht' as [-> | Ht']; [|contradiction].
      exists q. split; [exact Hq|]. rewrite (Hout _ Hts). apply lookup_insert_eq.
    + intros t' Ht'. apply not_elem_of_cons in Ht' as [Hne Hts].
      rewrite (Hout _ Hts). apply lookup_insert_ne. congruence.
Qed.

(** On a 200 response whose entries convert, [fetch_prices] prints the
    table of the quotes and gives [None] back. *)
Lemma fetch_prices_prints (tokens : list string) (w : BirdEye.world) (data : json) :
  tokens <> [] ->
  net (multi_price_request tokens) = {| status_code := 200; body := Some data |} ->
  Forall (fun t => exists q, token_quote data t = Ret q) tokens ->
  exists prices,
    BirdEye.fetch_prices net tokens w
    = (Ret None,
       {| BirdEye.sent := (BirdEye.sent w ++ [multi_price_request tokens])%list;
          BirdEye.printed := (BirdEye.printed w ++ [prices])%list |})
    /\ forall t, t ∈ tokens ->
         exists q, token_quote data t = Ret q /\ prices !! t = Some q.
Proof.
  intros Hne Hnet Hall.
  destruct (price_each_total data tokens ∅ Hall) as (prices & Hrun & Hin & _).
  exists prices. split; [|exact Hin].
  destruct tokens as [|t ts]; [congruence|].
  unfold BirdEye.fetch_prices, m_bind. rewrite make_api_call_get.
  fold (multi_price_request (t :: ts)). rewrite Hnet. cbn [status_code].
  unfold m_lift, response_json. cbn [body negb Z.eqb Pos.eqb].
  rewrite Hrun. reflexivity.
Qed.
End BirdEyeProperties.

(** ** The BirdEye client *)

(** C1 (the code departs from the claim).  The claim: on a 200 response,
    [fetch_prices] returns a mapping with an entry for every requested
    address, zero-valued for an address the payload omits.  The method
    builds that mapping and prints it, but has no [return]: for two
    requested tokens of which the payload knows one, the table printed
    holds both, the omitted one with zeros, and the value given back is
    [None]. *)
Theorem C1_fetch_prices_returns_None :
  let prices : gmap string BirdEye.PriceInfo :=
    <[TOKEN_B := {| BirdEye.price := Dec false 0 0; BirdEye.liquidity := Dec false 0 0 |}]>
      (<[TOKEN_A := {| BirdEye.price := Dec false 25 (-1);
                       BirdEye.liquidity := Dec false 7 0 |}]> ∅) in
  @BirdEye.fetch_prices plain_runtime (always 200 example_prices)
    [TOKEN_A; TOKEN_B] fresh_world
  = (Ret None,
     {| BirdEye.sent := [@multi_price_request plain_runtime [TOKEN_A; TOKEN_B]];
        BirdEye.printed := [prices] |}).
Proof. vm_compute. reflexivity. Qed.

(** C5 (the code departs from the claim).  The claim: an address that
    fails validation never reaches a network call.  [fetch_prices] of the
    BirdEye client does not validate its addresses: given a string that is
    no address it sends the multi-price request that carries it, whatever
    the transport and the world. *)
Theorem C5_fetch_prices_sends_invalid_address {rt : Runtime} (net : transport)
    (w : BirdEye.world) :
  is_solana_address NOT_AN_ADDRESS = false
  /\ BirdEye.sent (snd (BirdEye.fetch_prices net [NOT_AN_ADDRESS] w))
     = (BirdEye.sent w ++ [multi_price_request [NOT_AN_ADDRESS]])%list.
Proof.
  split; [reflexivity|]. apply fetch_prices_sends. discriminate.
Qed.

(** The BirdEye overview validates before it sends. *)
Lemma birdeye_overview_invalid {rt : Runtime} (net : transport) (address : string)
    (w : BirdEye.world) :
  is_solana_address address = false ->
  BirdEye.fetch_token_overview net address w
  = (Raise (InvalidSolanaAddress ("Invalid Solana address: " ++ address)), w).
Proof.
  intros Ha. unfold BirdEye.fetch_token_overview. rewrite Ha. reflexivity.
Qed.

(** C6, counterexample.  In [fetch_prices] a 401 is not told apart: it
    raises the same exception as a 500; and the generic exception of the
    overview carries no status code, a 500 and a 503 raise the same one. *)
Lemma C6_counterexample :
  fst (@BirdEye.fetch_prices plain_runtime (always 401 JNull) [TOKEN_A] fresh_world)
  = fst (@BirdEye.fetch_prices plain_runtime (always 500 JNull) [TOKEN_A] fresh_world)
  /\ fst (@BirdEye.fetch_token_overview plain_runtime (always 500 JNull) TOKEN_A fresh_world)
     = fst (@BirdEye.fetch_token_overview plain_runtime (always 503 JNull) TOKEN_A fresh_world).
Proof. split; vm_compute; reflexivity. Qed.

(** C10.  In the multi-price flow of the BirdEye client, on a 200
    response whose entries convert, the table built has, for every
    requested token the payload holds a non-empty entry for, the [price]
    read from the field [value] and the [liquidity] read from the field
    [priceChange24h]. *)
Theorem C10_liquidity_is_priceChange24h {rt : Runtime} (net : transport)
    (tokens : list string) (w : BirdEye.world) (data : json)
    (entries : list (string * json)) :
  tokens <> [] ->
  net (multi_price_request tokens) = {| status_code := 200; body := Some data |} ->
  py_getitem data "data" = Ret (JObj entries) ->
  Forall (fun t => exists q, token_quote data t = Ret q) tokens ->
  exists prices,
    BirdEye.fetch_prices net tokens w
    = (Ret None,
       {| BirdEye.sent := (BirdEye.sent w ++ [multi_price_request tokens])%list;
          BirdEye.printed := (BirdEye.printed w ++ [prices])%list |})
    /\ forall token td,
         token ∈ tokens -> assoc token entries = Some td -> truthy td = true ->
         exists v c p l,
           py_getitem td "value" = Ret v /\ py_getitem td "priceChange24h" = Ret c
           /\ py_Decimal v = Ret p /\ py_Decimal c = Ret l
           /\ prices !! token = Some {| BirdEye.price := p; BirdEye.liquidity := l |}.
Proof.
  intros Hne Hnet Hdata Hall.
  destruct (fetch_prices_prints net tokens w data Hne Hnet Hall) as (prices & Hrun & Hin).
  exists prices. split; [exact Hrun|].
  intros token td Htok Htd Htruthy.
  destruct (Hin token Htok) as (q & Hq & Hlook).
  unfold token_quote in Hq. rewrite Hdata in Hq. cbn [oc_bind py_get] in Hq.
  rewrite Htd in Hq. cbn [from_option id oc_bind] in Hq. rewrite Htruthy in Hq.
  destruct (py_getitem td "value") as [v|] eqn:Hv; [|discriminate]. cbn [oc_bind] in Hq.
  destruct (py_Decimal v) as [p|] eqn:Hp; [|discriminate]. cbn [oc_bind] in Hq.
  destruct (py_getitem td "priceChange24h") as [c|] eqn:Hc; [|discriminate].
  cbn [oc_bind] in Hq.
  destruct (py_Decimal c) as [l|] eqn:Hl; [|discriminate]. cbn [oc_bind] in Hq.
  injection Hq as <-. exists v, c, p, l.
  split; [reflexivity|]. split; [reflexivity|].
  split; [exact Hp|]. split; [exact Hl|]. exact Hlook.
Qed.

Lemma C10_liquidity_is_priceChange24h_witness :
  [TOKEN_A; TOKEN_B] <> []
  /\ always 200 example_prices (@multi_price_request plain_runtime [TOKEN_A; TOKEN_B])
     = {| status_code := 200; body := Some example_prices |}
  /\ Forall (fun t => exists q, @token_quote plain_runtime example_prices t = Ret q)
       [TOKEN_A; TOKEN_B]
  /\ exists prices,
       BirdEye.printed
         (snd (@BirdEye.fetch_prices plain_runtime (always 200 example_prices)
                 [TOKEN_A; TOKEN_B] fresh_world)) = [prices]
       /\ prices !! TOKEN_A
          = Some {| BirdEye.price := Dec false 25 (-1); BirdEye.liquidity := Dec false 7 0 |}.
Proof.
  assert (H1 : [TOKEN_A; TOKEN_B] <> []) by discriminate.
  assert (H2 : always 200 example_prices (@multi_price_request plain_runtime [TOKEN_A; TOKEN_B])
               = {| status_code := 200; body := Some example_prices |}) by reflexivity.
  assert (H3 : Forall (fun t => exists q, @token_quote plain_runtime example_prices t = Ret q)
                 [TOKEN_A; TOKEN_B]).
  { repeat constructor; eexists; vm_compute; reflexivity. }
  refine (conj H1 (conj H2 (conj H3 _))).
  destruct (@C10_liquidity_is_priceChange24h plain_runtime (always 200 example_prices)
              [TOKEN_A; TOKEN_B] fresh_world example_prices
              [(TOKEN_A, JObj [("value", JStr "2.5"); ("priceChange24h", JInt 7)])]
              H1 H2 eq_refl H3) as (prices & Hrun & Hquote).
  exists prices. split; [rewrite Hrun; reflexivity|].
  destruct (Hquote TOKEN_A (JObj [("value", JStr "2.5"); ("priceChange24h", JInt 7)]))
    as (v & c & p & l & Hv & Hc & Hp & Hl & Hlook).
  - apply elem_of_cons. left. reflexivity.
  - reflexivity.
  - reflexivity.
  - rewrite Hlook. cbn in Hv, Hc. injection Hv as <-. injection Hc as <-.
    cbn in Hp, Hl. injection Hp as <-. injection Hl as <-. reflexivity.
Defined.

(** ** The DexScreener client: calls *)

Section DexCalls.
Context (net : transport).

Lemma requests_get_eq (a : string) (log : list request) :
  DexScreener.requests_get net (DexScreener.token_url a) log
  = (Ret (net (dex_request a)), (log ++ [dex_request a])%list).
Proof. reflexivity. Qed.

(** [_call_api] sends nothing for an invalid address. *)
Lemma call_api_invalid (a : string) (log : list request) :
  is_solana_address a = false ->
  DexScreener._call_api net a log = (Raise (InvalidSolanaAddress a), log).
Proof.
  intros Ha. unfold DexScreener._call_api, m_bind, m_lift.
  rewrite (validate_token_address_bad a Ha). reflexivity.
Qed.

Lemma call_api_valid (a : string) (log : list request) :
  is_solana_address a = true ->
  DexScreener._call_api net a log
  = (let? _ := DexScreener._validate_response (net (dex_request a)) in
     response_json (net (dex_request a)),
     (log ++ [dex_request a])%list).
Proof.
  intros Ha. unfold DexScreener._call_api, m_bind, m_lift.
  rewrite (validate_token_address_ok a Ha), requests_get_eq.
  destruct (DexScreener._validate_response _); reflexivity.
Qed.

(** One turn of the loop of [_call_api_bulk], when the 200 responses
    carry JSON: the entry is the payload or an error marker, and a
    request is sent for a valid address only. *)
Lemma call_one_entry {rt : Runtime} (a : string) (responses : list (string * json))
    (log : list request) :
  (is_solana_address a = true -> status_code (net (dex_request a)) = 200%Z ->
   body (net (dex_request a)) <> None) ->
  DexScreener.call_one net a responses log
  = (Ret (dict_set a (bulk_entry net a) responses),
     (log ++ (if is_solana_address a then [dex_request a] else []))%list).
Proof.
  intros Hbody. unfold DexScreener.call_one, m_try, m_bind, m_lift, bulk_entry.
  destruct (is_solana_address a) eqn:Ha.
  - rewrite (validate_token_address_ok a Ha), requests_get_eq.
    unfold DexScreener._validate_response, response_json.
    destruct (Z.eqb_spec (status_code (net (dex_request a))) 200) as [Hs|Hs].
    + cbn [negb]. specialize (Hbody eq_refl Hs).
      destruct (body (net (dex_request a))); [reflexivity|congruence].
    + reflexivity.
  - rewrite (validate_token_address_bad a Ha). cbn.
    rewrite app_nil_r. reflexivity.
Qed.
End DexCalls.

Lemma dict_set_fresh (k : string) (v : json) (d : list (string * json)) :
  k ∉ map fst d -> dict_set k v d = (d ++ [(k, v)])%list.
Proof.
  induction d as [|[k' v'] d IH]; intros Hk; [reflexivity|].
  cbn [dict_set]. cbn [map fst] in Hk. apply not_elem_of_cons in Hk as [Hne Hk].
  destruct (String.eqb_spec k k'); [contradiction|].
  rewrite (IH Hk). reflexivity.
Qed.

Section DexBulk.
Context {rt : Runtime} (net : transport).

Lemma call_each_entries (addresses : list string) (responses : list (string * json))
    (log : list request) :
  NoDup addresses ->
  (forall a, a ∈ addresses -> a ∉ map fst responses) ->
  (forall a, a ∈ addresses -> is_solana_address a = true ->
             status_code (net (dex_request a)) = 200%Z ->
             body (net (dex_request a)) <> None) ->
  DexScreener.call_each net addresses responses log
  = (Ret (responses ++ map (fun a => (a, bulk_entry net a)) addresses)%list,
     (log ++ bulk_requests addresses)%list).
Proof.
  intros Hnd. revert responses log.
  induction Hnd as [|a rest Ha Hnd IH]; intros responses log Hfresh Hbody.
  - cbn. rewrite !app_nil_r. reflexivity.
  - cbn [DexScreener.call_each]. unfold m_bind.
    rewrite call_one_entry by (apply Hbody, elem_of_cons; auto).
    rewrite dict_set_fresh by (apply Hfresh, elem_of_cons; auto).
    rewrite IH.
    + cbn [map]. rewrite <- !app_assoc. cbn [app].
      unfold bulk_requests. rewrite filter_cons.
      destruct (decide (is_solana_address a = true)) as [Hv|Hv].
      * rewrite Hv. reflexivity.
      * apply not_true_is_false in Hv. rewrite Hv. reflexivity.
    + intros b Hb. rewrite map_app. cbn [map fst].
      intros Hin. apply elem_of_app in Hin as [Hin|Hin].
      * apply (Hfresh b); [apply elem_of_cons; auto|exact Hin].
      * apply list_elem_of_singleton in Hin. subst b. contradiction.
    + intros b Hb. apply Hbody, elem_of_cons; auto.
Qed.

(** [_call_api_bulk] over distinct addresses, when the 200 responses
    carry JSON: one entry per address, in order. *)
Lemma call_api_bulk_entries (addresses : list string) (log : list request) :
  addresses <> [] -> NoDup addresses ->
  (forall a, a ∈ addresses -> is_solana_address a = true ->
             status_code (net (dex_request a)) = 200%Z ->
             body (net (dex_request a)) <> None) ->
  DexScreener._call_api_bulk net addresses log
  = (Ret (map (fun a => (a, bulk_entry net a)) addresses),
     (log ++ bulk_requests addresses)%list).
Proof.
  intros Hne Hnd Hbody. unfold DexScreener._call_api_bulk.
  destruct addresses as [|a rest]; [congruence|].
  rewrite call_each_entries; auto.
  intros b _ Hb. inversion Hb.
Qed.
End DexBulk.

(** ** The DexScreener client: tables *)

Section DexTables.
Context {rt : Runtime}.

(** A pair that parses is stored under its venue and symbol, and
    [dex_id] is left bound to its [dexId]. *)
Lemma price_pair_parses (address : string) (pair d : json) (k s : pykey)
    (q : DexScreener.PriceInfo) (st : locals DexScreener.PriceInfo)
    (venues : gmap pykey (gmap pykey DexScreener.PriceInfo)) :
  pair_entry pair = Ret (d, k, s, q) ->
  tbl st !! address = Some venues ->
  DexScreener.price_pair address pair st
  = (Ret tt, {| tbl := <[address := <[k := {[s := q]}]> venues]> (tbl st);
                dex_id := Some d |}).
Proof.
  intros He Hv. unfold pair_entry in He.
  destruct (py_get pair "priceUsd" zero_float) as [p|] eqn:E1; [|discriminate].
  cbn [oc_bind] in He.
  destruct (py_Decimal p) as [price|] eqn:E2; [|discriminate]. cbn [oc_bind] in He.
  destruct (py_get pair "liquidity" (JObj [])) as [l|] eqn:E3; [|discriminate].
  cbn [oc_bind] in He.
  destruct (py_get l "usd" zero_float) as [u|] eqn:E4; [|discriminate].
  cbn [oc_bind] in He.
  destruct (py_Decimal u) as [liq|] eqn:E5; [|discriminate]. cbn [oc_bind] in He.
  destruct (py_get pair "dexId" JNull) as [d'|] eqn:E6; [|discriminate].
  cbn [oc_bind] in He.
  destruct (py_key d') as [k'|] eqn:E7; [|discriminate]. cbn [oc_bind] in He.
  destruct (py_get pair "baseToken" (JObj [])) as [b|] eqn:E8; [|discriminate].
  cbn [oc_bind] in He.
  destruct (py_get b "symbol" JNull) as [sym|] eqn:E9; [|discriminate].
  cbn [oc_bind] in He.
  destruct (py_key sym) as [s'|] eqn:E10; [|discriminate]. cbn [oc_bind] in He.
  injection He as <- <- <- <-.
  unfold DexScreener.price_pair, m_try, m_bind, m_lift.
  rewrite E1, E2, E3, E4, E5, E6.
  unfold assign_dex_id, venue_reset, venue_store, m_bind, m_get, m_lift, set_tbl.
  cbn [tbl dex_id]. rewrite Hv, E7, E8, E9. cbn [tbl dex_id].
  rewrite !lookup_insert_eq, E10. cbn [tbl dex_id].
  rewrite !insert_insert_eq, insert_empty. reflexivity.
Qed.

(** The loop over pairs that all parse never raises: it stores every
    pair in turn. *)
Lemma price_pairs_parse (address : string) (pairs : list json)
    (st : locals DexScreener.PriceInfo)
    (venues : gmap pykey (gmap pykey DexScreener.PriceInfo)) :
  Forall pair_parses pairs ->
  tbl st !! address = Some venues ->
  exists st',
    m_for (DexScreener.price_pair address) pairs st = (Ret tt, st')
    /\ tbl st' = <[address := foldl store_pair venues pairs]> (tbl st).
Proof.
  intros Hall. revert st venues.
  induction Hall as [|pair rest [[[[d k] s] q] He] _ IH]; intros st venues Hv.
  - exists st. split; [reflexivity|]. cbn [foldl]. symmetry. apply insert_id, Hv.
  - cbn [m_for]. unfold m_bind.
    rewrite (price_pair_parses address pair d k s q st venues He Hv).
    destruct (IH {| tbl := <[address := <[k := {[s := q]}]> venues]> (tbl st);
                    dex_id := Some d |} (<[k := {[s := q]}]> venues))
      as (st' & Hrun & Htbl); [apply lookup_insert_eq|].
    exists st'. split; [exact Hrun|].
    assert (Hs : store_pair venues pair = <[k := {[s := q]}]> venues)
      by (unfold store_pair; rewrite He; reflexivity).
    rewrite Htbl. cbn [tbl foldl]. rewrite insert_insert_eq, Hs. reflexivity.
Qed.

(** A payload that parses gives its token an entry. *)
Lemma price_token_parses (address : string) (payload : json)
    (st : locals DexScreener.PriceInfo) :
  payload_parses payload ->
  exists st' venues,
    DexScreener.price_token (address, payload) st = (Ret tt, st')
    /\ tbl st' = <[address := venues]> (tbl st).
Proof.
  intros (kv & pairs & -> & Hpairs & Hall).
  unfold DexScreener.price_token, m_try, m_bind, m_lift, py_contains.
  rewrite Hpairs. rewrite bool_decide_eq_true_2 by eauto.
  unfold token_reset, m_bind, m_get, set_tbl. cbn [py_getitem].
  rewrite Hpairs. cbn [py_iter].
  destruct (price_pairs_parse address pairs
              {| tbl := <[address := ∅]> (tbl st); dex_id := dex_id st |} ∅ Hall)
    as (st' & Hrun & Htbl); [apply lookup_insert_eq|].
  rewrite Hrun. exists st', (foldl store_pair ∅ pairs).
  split; [reflexivity|]. rewrite Htbl. cbn [tbl]. apply insert_insert_eq.
Qed.

(** An error marker gives its token no entry. *)
Lemma price_token_marker (address text : string) (st : locals DexScreener.PriceInfo) :
  DexScreener.price_token (address, error_marker text) st = (Ret tt, st).
Proof. reflexivity. Qed.
End DexTables.

(** ** The DexScreener client: bulk prices *)

Lemma assoc_map_entry (f : string -> json) (a : string) (l : list string) :
  a ∈ l -> assoc a (map (fun x => (x, f x)) l) = Some (f a).
Proof.
  induction l as [|x l IH]; intros Ha; [inversion Ha|].
  cbn [map assoc]. destruct (String.eqb_spec a x) as [->|Hne]; [reflexivity|].
  apply elem_of_cons in Ha as [Ha|Ha]; [contradiction|]. exact (IH Ha).
Qed.

Lemma error_marker_not_payload {rt : Runtime} (text : string) :
  ~ payload_parses (error_marker text).
Proof.
  intros (kv & pairs & Heq & Hp & _). injection Heq as <-. discriminate.
Qed.

Lemma bulk_requests_valid (addresses : list string) :
  Forall (fun a => is_solana_address a = true) addresses ->
  bulk_requests addresses = map dex_request addresses.
Proof.
  unfold bulk_requests. induction 1 as [|a l Ha _ IH]; [reflexivity|].
  rewrite filter_cons_True by exact Ha. cbn [map]. congruence.
Qed.

Section DexPrices.
Context {rt : Runtime} (net : transport).

(** The loop of [fetch_prices_dex] over payloads and error markers: it
    never raises, and gives an entry to the tokens with a payload. *)
Lemma price_tokens_entries (items : list (string * json))
    (st : locals DexScreener.PriceInfo) :
  Forall (fun it => payload_parses (snd it) \/ exists text, snd it = error_marker text)
    items ->
  exists st',
    m_for DexScreener.price_token items st = (Ret tt, st')
    /\ forall a, is_Some (tbl st' !! a)
                 <-> is_Some (tbl st !! a) \/ exists j, (a, j) ∈ items /\ payload_parses j.
Proof.
  intros Hall. revert st.
  induction Hall as [|[b j] rest Hit _ IH]; intros st.
  - exists st. split; [reflexivity|]. intros a. split; [auto|].
    intros [H|(j & Hj & _)]; [exact H|inversion Hj].
  - cbn [m_for]. unfold m_bind. cbn [snd] in Hit. destruct Hit as [Hp|[text ->]].
    + destruct (price_token_parses b j st Hp) as (st1 & venues & Hrun & Htbl).
      rewrite Hrun. destruct (IH st1) as (st' & Hrest & Hdom).
      exists st'. split; [exact Hrest|]. intros a. rewrite Hdom, Htbl.
      rewrite lookup_insert_is_Some. split.
      * intros [[->|[_ H]]|(j' & Hj' & Hp')].
        -- right. exists j. split; [apply elem_of_cons; auto|exact Hp].
        -- left. exact H.
        -- right. exists j'. split; [apply elem_of_cons; auto|exact Hp'].
      * intros [H|(j' & Hj' & Hp')].
        -- left. destruct (decide (b = a)); [left; assumption|right; auto].
        -- apply elem_of_cons in Hj' as [Heq|Hj'].
           ++ injection Heq as -> ->. left. left. reflexivity.
           ++ right. exists j'. auto.
    + rewrite price_token_marker. destruct (IH st) as (st' & Hrest & Hdom).
      exists st'. split; [exact Hrest|]. intros a. rewrite Hdom. split.
      * intros [H|(j' & Hj' & Hp')]; [left; exact H|].
        right. exists j'. split; [apply elem_of_cons; auto|exact Hp'].
      * intros [H|(j' & Hj' & Hp')]; [left; exact H|].
        apply elem_of_cons in Hj' as [Heq|Hj'].
        -- injection Heq as -> ->. destruct (error_marker_not_payload text Hp').
        -- right. exists j'. auto.
Qed.

(** With an invalid address in the list, [fetch_prices_dex] raises for
    the first one and sends nothing. *)
Lemma fetch_prices_dex_invalid (l1 l2 : list string) (bad : string)
    (log : list request) :
  Forall (fun a => is_solana_address a = true) l1 ->
  is_solana_address bad = false ->
  DexScreener.fetch_prices_dex net (l1 ++ bad :: l2)%list log
  = (Raise (InvalidSolanaAddress bad), log).
Proof.
  intros Hall Hbad. unfold DexScreener.fetch_prices_dex, m_bind, m_lift.
  rewrite (validate_token_addresses_bad l1 l2 bad Hall Hbad). reflexivity.
Qed.

(** Over distinct valid addresses whose 200 responses carry a payload
    that parses, [fetch_prices_dex] gives an entry to exactly the
    addresses answered with a 200. *)
Lemma fetch_prices_dex_entries (addresses : list string) (log : list request) :
  addresses <> [] -> NoDup addresses ->
  Forall (fun a => is_solana_address a = true) addresses ->
  (forall a, a ∈ addresses -> status_code (net (dex_request a)) = 200%Z ->
             exists j, body (net (dex_request a)) = Some j /\ payload_parses j) ->
  exists t,
    DexScreener.fetch_prices_dex net addresses log
    = (Ret t, (log ++ map dex_request addresses)%list)
    /\ forall a, is_Some (t !! a)
                 <-> a ∈ addresses /\ status_code (net (dex_request a)) = 200%Z.
Proof.
  intros Hne Hnd Hvalid Hok.
  assert (Hitems :
    Forall (fun it => payload_parses (snd it) \/ exists text, snd it = error_marker text)
      (map (fun a => (a, bulk_entry net a)) addresses)).
  { apply Forall_forall. intros [a j] Hin.
    apply list_elem_of_fmap in Hin as (a' & Heq & Ha'). injection Heq as -> ->.
    cbn [snd]. unfold bulk_entry.
    assert (Hv : is_solana_address a' = true)
      by exact (proj1 (Forall_forall _ _) Hvalid a' Ha').
    rewrite Hv.
    destruct (Z.eqb_spec (status_code (net (dex_request a'))) 200) as [Hs|Hs].
    - destruct (Hok a' Ha' Hs) as (j & -> & Hj). left. exact Hj.
    - right. exists "". reflexivity. }
  destruct (price_tokens_entries _ {| tbl := ∅; dex_id := None |} Hitems)
    as (st' & Hrun & Hdom).
  exists (tbl st'). split.
  - unfold DexScreener.fetch_prices_dex, m_bind, m_lift.
    rewrite (validate_token_addresses_ok addresses Hne Hvalid).
    rewrite call_api_bulk_entries; [|exact Hne|exact Hnd|].
    + unfold DexScreener.run_locals. rewrite Hrun. unfold m_ret.
      rewrite (bulk_requests_valid addresses Hvalid). reflexivity.
    + intros a Ha _ Hs. destruct (Hok a Ha Hs) as (j & -> & _). discriminate.
  - intros a. rewrite Hdom. cbn [tbl]. rewrite lookup_empty. split.
    + intros [H|(j & Hin & Hp)]; [destruct H; discriminate|].
      apply list_elem_of_fmap in Hin as (a' & Heq & Ha'). injection Heq as -> ->.
      split; [exact Ha'|]. unfold bulk_entry in Hp.
      assert (Hv : is_solana_address a' = true)
        by exact (proj1 (Forall_forall _ _) Hvalid a' Ha').
      rewrite Hv in Hp.
      destruct (Z.eqb_spec (status_code (net (dex_request a'))) 200) as [Hs|Hs];
        [exact Hs|]. destruct (error_marker_not_payload "" Hp).
    + intros [Ha Hs]. right. destruct (Hok a Ha Hs) as (j & Hb & Hj).
      exists j. split; [|exact Hj]. apply list_elem_of_fmap. exists a.
      split; [|exact Ha]. unfold bulk_entry.
      assert (Hv : is_solana_address a = true)
        by exact (proj1 (Forall_forall _ _) Hvalid a Ha).
      rewrite Hv.
      rewrite Hs, Hb. reflexivity.
Qed.
End DexPrices.

(** ** The DexScreener client: claims *)

(** C2, counterexample.  With one address that is no address the whole
    batch is aborted; with one address answered by a 500 the result has
    one entry for two addresses, and none for the failing one. *)
Lemma C2_counterexample :
  fst (@DexScreener.fetch_prices_dex plain_runtime one_down [TOKEN_A; NOT_AN_ADDRESS] [])
  = Raise (InvalidSolanaAddress NOT_AN_ADDRESS)
  /\ match fst (@DexScreener.fetch_prices_dex plain_runtime one_down [TOKEN_A; TOKEN_B] []) with
     | Ret t => size t = 1 /\ t !! TOKEN_B = None
     | Raise _ => False
     end.
Proof. split; [vm_compute; reflexivity|]. vm_compute. split; reflexivity. Qed.

Lemma example_payload_parses : @payload_parses plain_runtime example_payload.
Proof.
  eexists _, _. split; [reflexivity|]. split; [reflexivity|].
  repeat constructor; eexists; vm_compute; reflexivity.
Defined.

(** C7, counterexample.  The overview of the BirdEye client, given the
    empty string, raises [InvalidSolanaAddress], not [NoPositionsError]. *)
Lemma C7_counterexample :
  fst (@BirdEye.fetch_token_overview plain_runtime (always 200 JNull) "" fresh_world)
  = Raise (InvalidSolanaAddress "Invalid Solana address: ")
  /\ forall msg,
       fst (@BirdEye.fetch_token_overview plain_runtime (always 200 JNull) "" fresh_world)
       <> Raise (NoPositionsError msg).
Proof. split; [reflexivity|]. intros msg. discriminate. Qed.

(** C7, amended.  Every operation of either client that takes a list of
    addresses fails with [NoPositionsError] on the empty list, and the
    overview of the BirdEye client fails with [InvalidSolanaAddress] on
    the empty string, each before any request is sent and before
    anything is parsed or printed. *)
Theorem C7_empty_input_fails_first {rt : Runtime} (net : transport)
    (w : BirdEye.world) (log : list request) :
  BirdEye.fetch_prices net [] w = (Raise (NoPositionsError (Some "No tokens provided")), w)
  /\ DexScreener.fetch_prices_dex net [] log
     = (Raise (NoPositionsError (Some "Token addresses list is empty")), log)
  /\ DexScreener._call_api_bulk net [] log
     = (Raise (NoPositionsError (Some "Token addresses list is empty")), log)
  /\ DexScreener._validate_token_addresses []
     = Raise (NoPositionsError (Some "Token addresses list is empty"))
  /\ BirdEye.fetch_token_overview net "" w
     = (Raise (InvalidSolanaAddress "Invalid Solana address: "), w).
Proof. repeat split. Qed.

(** The single-address operations of the DexScreener client send nothing
    for an address that is not valid, the empty string included. *)
Lemma dex_overview_invalid {rt : Runtime} (net : transport) (address : string)
    (log : list request) :
  is_solana_address address = false ->
  DexScreener.fetch_token_overview net address log
  = (Raise (InvalidSolanaAddress address), log).
Proof.
  intros Ha. unfold DexScreener.fetch_token_overview, m_bind, m_lift.
  rewrite (validate_token_address_bad address Ha). reflexivity.
Qed.

(** ** The DexScreener client: the overview without pairs *)

(** C9.  When the overview payload of the DexScreener client has no
    pairs (the key is absent, or its value is an empty list or [null]),
    [fetch_token_overview] returns the string ["Pairs Not Found"]: it
    does not raise, and the string is not a table of overviews. *)
Theorem C9_no_pairs_is_not_found {rt : Runtime} (net : transport) (address : string)
    (log : list request) (kv : list (string * json)) :
  is_solana_address address = true ->
  net (dex_request address) = {| status_code := 200; body := Some (JObj kv) |} ->
  pairs_missing kv ->
  DexScreener.fetch_token_overview net address log
  = (Ret (DexScreener.OvText "Pairs Not Found"), (log ++ [dex_request address])%list)
  /\ forall t, DexScreener.OvText "Pairs Not Found" <> DexScreener.OvTable t.
Proof.
  intros Ha Hnet Hp. split; [|discriminate].
  unfold DexScreener.fetch_token_overview, m_bind, m_lift.
  rewrite (validate_token_address_ok _ Ha), (call_api_valid net address log Ha), Hnet.
  cbn. destruct Hp as [-> | [-> | ->]]; reflexivity.
Qed.

Lemma C9_no_pairs_is_not_found_witness :
  is_solana_address TOKEN_A = true
  /\ always 200 empty_payload (dex_request TOKEN_A)
     = {| status_code := 200; body := Some (JObj [("pairs", JArr [])]) |}
  /\ pairs_missing [("pairs", JArr [])]
  /\ @DexScreener.fetch_token_overview plain_runtime (always 200 empty_payload) TOKEN_A []
     = (Ret (DexScreener.OvText "Pairs Not Found"), [dex_request TOKEN_A]).
Proof.
  assert (H1 : is_solana_address TOKEN_A = true) by reflexivity.
  assert (H2 : always 200 empty_payload (dex_request TOKEN_A)
               = {| status_code := 200; body := Some (JObj [("pairs", JArr [])]) |})
    by reflexivity.
  assert (H3 : pairs_missing [("pairs", JArr [])]) by (right; left; reflexivity).
  refine (conj H1 (conj H2 (conj H3 _))).
  exact (proj1 (@C9_no_pairs_is_not_found plain_runtime (always 200 empty_payload)
                  TOKEN_A [] [("pairs", JArr [])] H1 H2 H3)).
Defined.

(** A table is returned only for a payload whose [pairs] is not empty. *)
Lemma dex_overview_table_has_pairs {rt : Runtime} (net : transport) (address : string)
    (log : list request) (t : table DexScreener.TokenOverview) :
  fst (DexScreener.fetch_token_overview net address log) = Ret (DexScreener.OvTable t) ->
  exists payload pairs,
    body (net (dex_request address)) = Some payload
    /\ py_get payload "pairs" JNull = Ret pairs /\ truthy pairs = true.
Proof.
  unfold DexScreener.fetch_token_overview, m_bind, m_lift.
  destruct (is_solana_address address) eqn:Ha.
  - rewrite (validate_token_address_ok _ Ha), (call_api_valid net address log Ha).
    destruct (DexScreener._validate_response _); [|discriminate]. cbn [oc_bind].
    unfold response_json.
    destruct (body (net (dex_request address))) as [payload|]; [|discriminate].
    destruct (py_get payload "pairs" JNull) as [pairs|] eqn:Hp; [|discriminate].
    destruct (truthy pairs) eqn:Ht; [|discriminate].
    intros _. exists payload, pairs. auto.
  - rewrite (validate_token_address_bad _ Ha). discriminate.
Qed.

(** ** The pool selector *)

(** *** The order of the floats *)

Lemma SFltb_rank (a b : spec_float) :
  SFltb a b = true
  <-> exists x y, float_rank a = Some x /\ float_rank b = Some y /\ lex_lt x y.
Proof.
  unfold SFltb, SFcompare.
  destruct a as [[]|[]| |[] ma ea], b as [[]|[]| |[] mb eb]; simpl;
    (split; [intros Hc | intros (x & y & Hx & Hy & Hl)]);
    try discriminate; try reflexivity;
    try (do 2 eexists; split; [reflexivity|split;[reflexivity|]]);
    try (injection Hx as <-; injection Hy as <-);
    try (simpl in *; lia).
  all: try (simpl; destruct (Z.compare_spec ea eb); try discriminate; try lia;
            fold (Pos.compare ma mb) in Hc;
            destruct (Pos.compare_spec ma mb); simpl in *; try discriminate; lia).
  all: simpl in Hl; destruct (Z.compare_spec ea eb); try lia; try reflexivity;
       fold (Pos.compare ma mb); destruct (Pos.compare_spec ma mb); simpl;
       try reflexivity; try lia.
Qed.

Lemma SFleb_rank (a b : spec_float) :
  SFleb a b = true
  <-> exists x y, float_rank a = Some x /\ float_rank b = Some y /\ (lex_lt x y \/ x = y).
Proof.
  unfold SFleb, SFcompare.
  destruct a as [[]|[]| |[] ma ea], b as [[]|[]| |[] mb eb]; simpl;
    (split; [intros Hc | intros (x & y & Hx & Hy & Hl)]);
    try discriminate; try reflexivity;
    try (do 2 eexists; split; [reflexivity|split;[reflexivity|]]);
    try (injection Hx as <-; injection Hy as <-);
    try (simpl in *; first [lia | right; reflexivity | left; lia]).
  all: try (simpl; destruct (Z.compare_spec ea eb); try discriminate;
            try (left; lia);
            fold (Pos.compare ma mb) in Hc;
            destruct (Pos.compare_spec ma mb); simpl in *; try discriminate;
            first [left; lia | right; congruence]).
  all: try (destruct Hl as [Hl|Hl]; [simpl in Hl; lia | discriminate]).
  all: destruct (Z.compare_spec ea eb); try reflexivity;
       try (destruct Hl as [Hl|Hl]; [simpl in Hl; lia | injection Hl; intros; lia]);
       fold (Pos.compare ma mb); destruct (Pos.compare_spec ma mb); simpl;
       try reflexivity;
       destruct Hl as [Hl|Hl]; [simpl in Hl; lia | injection Hl; intros; lia].
Qed.

Lemma lex_lt_trans (x y z : Z * Z * Z) : lex_lt x y -> lex_lt y z -> lex_lt x z.
Proof. destruct x as [[? ?] ?], y as [[? ?] ?], z as [[? ?] ?]. simpl. lia. Qed.

Lemma lex_lt_irrefl (x : Z * Z * Z) : ~ lex_lt x x.
Proof. destruct x as [[? ?] ?]. simpl. lia. Qed.

Lemma float_lt_trans (a b c : spec_float) :
  SFltb a b = true -> SFltb b c = true -> SFltb a c = true.
Proof.
  rewrite !SFltb_rank. intros (x & y & Hx & Hy & Hxy) (y' & z & Hy' & Hz & Hyz).
  rewrite Hy in Hy'. injection Hy' as <-.
  exists x, z. eauto using lex_lt_trans.
Qed.

Lemma float_lt_not_le (a b : spec_float) : SFltb a b = true -> SFleb b a = false.
Proof.
  intros Hab. apply not_true_is_false. intros Hba.
  apply SFltb_rank in Hab as (x & y & Hx & Hy & Hxy).
  apply SFleb_rank in Hba as (y' & x' & Hy' & Hx' & Hyx).
  rewrite Hy in Hy'. rewrite Hx in Hx'. injection Hy' as <-. injection Hx' as <-.
  destruct Hyx as [Hyx| ->].
  - exact (lex_lt_irrefl x (lex_lt_trans _ _ _ Hxy Hyx)).
  - exact (lex_lt_irrefl x Hxy).
Qed.

(** What is not above [a] is not at or above what is above [a]. *)
Lemma float_below_max (a b c : spec_float) :
  SFltb a b = true -> SFltb a c = false -> SFleb b c = false.
Proof.
  intros Hab Hac. apply not_true_is_false. intros Hbc.
  apply SFltb_rank in Hab as (x & y & Hx & Hy & Hxy).
  apply SFleb_rank in Hbc as (y' & z & Hy' & Hz & Hyz).
  rewrite Hy in Hy'. injection Hy' as <-.
  assert (Hxz : SFltb a c = true).
  { apply SFltb_rank. exists x, z. split; [exact Hx|]. split; [exact Hz|].
    destruct Hyz as [Hyz| <-]; [exact (lex_lt_trans _ _ _ Hxy Hyz)|exact Hxy]. }
  congruence.
Qed.

(** *** The selection *)

Section Selector.
Context {rt : Runtime}.

Lemma largest_from_skip (entry : json) (rest : list json) (address : string)
    (max_entry : json) (max_liquidity_usd : spec_float) :
  DexScreener.pool_matches entry address = Ret false ->
  DexScreener.largest_from (entry :: rest) address max_entry max_liquidity_usd
  = DexScreener.largest_from rest address max_entry max_liquidity_usd.
Proof. intros Hm. cbn [DexScreener.largest_from]. rewrite Hm. reflexivity. Qed.

Lemma largest_from_pass (entry : json) (rest : list json) (address : string)
    (max_entry : json) (max_liquidity_usd f : spec_float) :
  DexScreener.pool_matches entry address = Ret true ->
  DexScreener.liquidity_usd entry = Ret f ->
  DexScreener.largest_from (entry :: rest) address max_entry max_liquidity_usd
  = if float_gt f max_liquidity_usd
    then DexScreener.largest_from rest address entry f
    else DexScreener.largest_from rest address max_entry max_liquidity_usd.
Proof.
  intros Hm Hl. cbn [DexScreener.largest_from]. rewrite Hm. cbn [oc_bind].
  rewrite Hl. reflexivity.
Qed.

(** The loop of the selector from any running maximum: it returns
    either the first of the pairs with the largest liquidity, which
    then exceeds the maximum it started from, or the entry it started
    from, when no pair that passes exceeds that maximum. *)
Lemma largest_from_spec (token_pairs : list json) (address : string)
    (max_entry : json) (max_liquidity_usd : spec_float) :
  Forall (pool_readable address) token_pairs ->
  exists r,
    DexScreener.largest_from token_pairs address max_entry max_liquidity_usd = Ret r
    /\ ((exists f, first_largest token_pairs address r f
                   /\ float_gt f max_liquidity_usd = true)
        \/ (r = max_entry
            /\ forall e g, e ∈ token_pairs ->
                 DexScreener.pool_matches e address = Ret true ->
                 DexScreener.liquidity_usd e = Ret g ->
                 float_gt g max_liquidity_usd = false)).
Proof.
  intros Hall. revert max_entry max_liquidity_usd.
  induction Hall as [|entry rest Hentry _ IH]; intros me ml.
  - exists me. split; [reflexivity|]. right. split; [reflexivity|].
    intros e g He. inversion He.
  - destruct Hentry as [Hm|[Hm [f Hf]]].
    + (* the pair does not pass the filter *)
      rewrite (largest_from_skip _ _ _ _ _ Hm).
      destruct (IH me ml) as (r & Hrun & Hspec). exists r. split; [exact Hrun|].
      destruct Hspec as [(g & (before & after & -> & Hrm & Hrl & Hb & Ha) & Hgt)
                        |[-> Hnone]].
      * left. exists g. split; [|exact Hgt].
        exists (entry :: before), after. split; [reflexivity|].
        split; [exact Hrm|]. split; [exact Hrl|]. split; [|exact Ha].
        intros e h He Hem Hel. apply elem_of_cons in He as [->|He]; [congruence|].
        exact (Hb e h He Hem Hel).
      * right. split; [reflexivity|].
        intros e g He Hem Hel. apply elem_of_cons in He as [->|He]; [congruence|].
        exact (Hnone e g He Hem Hel).
    + rewrite (largest_from_pass _ _ _ _ _ f Hm Hf).
      destruct (float_gt f ml) eqn:Hfml.
      * (* the pair becomes the running maximum *)
        destruct (IH entry f) as (r & Hrun & Hspec). exists r. split; [exact Hrun|].
        left.
        destruct Hspec as [(g & (before & after & -> & Hrm & Hrl & Hb & Ha) & Hgt)
                          |[-> Hnone]].
        -- exists g. split.
           ++ exists (entry :: before), after. split; [reflexivity|].
              split; [exact Hrm|]. split; [exact Hrl|]. split; [|exact Ha].
              intros e h He Hem Hel. apply elem_of_cons in He as [->|He].
              ** rewrite Hf in Hel. injection Hel as <-.
                 apply float_lt_not_le. exact Hgt.
              ** exact (Hb e h He Hem Hel).
           ++ unfold float_gt in *. exact (float_lt_trans _ _ _ Hfml Hgt).
        -- exists f. split; [|exact Hfml].
           exists [], rest. split; [reflexivity|]. split; [exact Hm|].
           split; [exact Hf|]. split.
           ++ intros e h He. inversion He.
           ++ intros e h He Hem Hel. exact (Hnone e h He Hem Hel).
      * (* the running maximum stays *)
        destruct (IH me ml) as (r & Hrun & Hspec). exists r. split; [exact Hrun|].
        destruct Hspec as [(g & (before & after & -> & Hrm & Hrl & Hb & Ha) & Hgt)
                          |[-> Hnone]].
        -- left. exists g. split; [|exact Hgt].
           exists (entry :: before), after. split; [reflexivity|].
           split; [exact Hrm|]. split; [exact Hrl|]. split; [|exact Ha].
           intros e h He Hem Hel. apply elem_of_cons in He as [->|He].
           ++ rewrite Hf in Hel. injection Hel as <-.
              unfold float_gt in *. exact (float_below_max ml g f Hgt Hfml).
           ++ exact (Hb e h He Hem Hel).
        -- right. split; [reflexivity|].
           intros e g He Hem Hel. apply elem_of_cons in He as [->|He].
           ++ rewrite Hf in Hel. injection Hel as <-. exact Hfml.
           ++ exact (Hnone e g He Hem Hel).
Qed.
End Selector.

(** *** Floats of small ints *)

Lemma digits2_pos_size (p : positive) : digits2_pos p = Pos.size p.
Proof. induction p; simpl; congruence. Qed.

Lemma digits2_bounds (p : positive) :
  (2 ^ (Z.pos (digits2_pos p) - 1) <= Z.pos p < 2 ^ Z.pos (digits2_pos p))%Z.
Proof.
  rewrite digits2_pos_size.
  pose proof (Pos.size_gt p) as Hgt. pose proof (Pos.size_le p) as Hle.
  apply Pos2Z.pos_lt_pos in Hgt. apply Pos2Z.pos_le_pos in Hle.
  rewrite Pos2Z.inj_pow in Hgt, Hle.
  change (Z.pos 2) with 2%Z in Hle. rewrite (Pos2Z.inj_xO p) in Hle.
  split; [|exact Hgt].
  assert (Hp : (2 ^ Z.pos (Pos.size p) = 2 * 2 ^ (Z.pos (Pos.size p) - 1))%Z).
  { rewrite <- Z.pow_succ_r by lia. f_equal. lia. }
  lia.
Qed.

Lemma iter_xO_value (p q : positive) :
  Z.pos (Pos.iter xO p q) = (Z.pos p * 2 ^ Z.pos q)%Z.
Proof.
  induction q as [|q IH] using Pos.peano_ind.
  - simpl. lia.
  - rewrite Pos.iter_succ, Pos2Z.inj_xO, IH, Pos2Z.inj_succ, Z.pow_succ_r by lia. lia.
Qed.

Lemma iter_xO_digits (p q : positive) :
  digits2_pos (Pos.iter xO p q) = (digits2_pos p + q)%positive.
Proof.
  induction q as [|q IH] using Pos.peano_ind.
  - simpl. lia.
  - rewrite Pos.iter_succ. simpl. rewrite IH. lia.
Qed.

Lemma binary_round_aux_exact (s : bool) (m : positive) (e : Z) :
  Z.pos (digits2_pos m) = 53%Z -> (-1074 <= e <= 971)%Z ->
  binary_round_aux prec64 emax64 s (Z.pos m) e loc_Exact = S754_finite s m e.
Proof.
  intros Hd He. unfold binary_round_aux, shr_fexp, fexp, emin, prec64, emax64, Zdigits2.
  rewrite Hd.
  replace (Z.max (53 + e - 53) (3 - 1024 - 53) - e)%Z with 0%Z by lia.
  cbn [shr shr_record_of_loc loc_of_shr_record shr_m round_nearest_even Zdigits2].
  rewrite Hd.
  replace (Z.max (53 + e - 53) (3 - 1024 - 53) - e)%Z with 0%Z by lia.
  cbn [shr shr_record_of_loc shr_m].
  destruct (Z.leb_spec e (1024 - 53)); [reflexivity|lia].
Qed.
Lemma digits2_small (p : positive) :
  (Z.pos p < 2 ^ 53)%Z -> (Z.pos (digits2_pos p) <= 53)%Z.
Proof.
  intros Hp. pose proof (digits2_bounds p) as [Hlo _].
  destruct (Z.le_gt_cases (Z.pos (digits2_pos p)) 53) as [H|H]; [exact H|].
  assert (2 ^ 53 <= 2 ^ (Z.pos (digits2_pos p) - 1))%Z by (apply Z.pow_le_mono_r; lia).
  lia.
Qed.

Lemma binary_round_small (s : bool) (p : positive) :
  (Z.pos p < 2 ^ 53)%Z ->
  exists m,
    binary_round prec64 emax64 s p 0 = S754_finite s m (Z.pos (digits2_pos p) - 53)
    /\ Z.pos m = (Z.pos p * 2 ^ (53 - Z.pos (digits2_pos p)))%Z.
Proof.
  intros Hp. pose proof (digits2_small p Hp) as Hd.
  unfold binary_round, shl_align, fexp, emin, prec64, emax64.
  replace (Z.max (Z.pos (digits2_pos p) + 0 - 53) (3 - 1024 - 53))%Z
    with (Z.pos (digits2_pos p) - 53)%Z by lia.
  rewrite Z.sub_0_r.
  destruct (Z.pos (digits2_pos p) - 53)%Z as [|q|q] eqn:Hq; [| lia |].
  - exists p. split.
    + apply binary_round_aux_exact; lia.
    + replace (53 - Z.pos (digits2_pos p))%Z with 0%Z by lia. lia.
  - exists (Pos.iter xO p q). split.
    + apply binary_round_aux_exact; [|lia].
      rewrite iter_xO_digits, Pos2Z.inj_add. lia.
    + rewrite iter_xO_value. f_equal. f_equal. lia.
Qed.

(** [float] of an int below [2^53] in magnitude is exact. *)
Lemma float_of_int_small (n : Z) :
  (Z.abs n < 2 ^ 53)%Z ->
  exists f, float_of_int n = Ret f /\ float_rank f = Some (int_rank n).
Proof.
  intros Hn. unfold float_of_int, binary_normalize. destruct n as [|p|p].
  - exists (S754_zero false). split; reflexivity.
  - destruct (binary_round_small false p) as (m & -> & Hm); [exact Hn|].
    eexists. split; [reflexivity|]. cbn [float_rank int_rank]. rewrite Hm. reflexivity.
  - destruct (binary_round_small true p) as (m & -> & Hm); [exact Hn|].
    eexists. split; [reflexivity|]. cbn [float_rank int_rank]. rewrite Hm. reflexivity.
Qed.

Lemma pos_rank_lt (a b : positive) :
  (Z.pos a < 2 ^ 53)%Z -> (Z.pos b < 2 ^ 53)%Z ->
  let da := Z.pos (digits2_pos a) in
  let db := Z.pos (digits2_pos b) in
  (da < db \/ (da = db /\ Z.pos a * 2 ^ (53 - da) < Z.pos b * 2 ^ (53 - db)))%Z
  <-> (Z.pos a < Z.pos b)%Z.
Proof.
  intros Ha Hb da db.
  pose proof (digits2_bounds a) as [Hla Hua]. pose proof (digits2_bounds b) as [Hlb Hub].
  fold da in Hla, Hua. fold db in Hlb, Hub.
  assert (Hpow : forall k, (0 < 2 ^ (53 - k))%Z \/ (53 < k)%Z).
  { intros k. destruct (Z.le_gt_cases k 53); [left; apply Z.pow_pos_nonneg; lia|right; lia]. }
  pose proof (digits2_small a Ha) as Hda. pose proof (digits2_small b Hb) as Hdb.
  fold da in Hda. fold db in Hdb.
  split.
  - intros [Hlt|[Heq Hm]].
    + assert (2 ^ da <= 2 ^ (db - 1))%Z by (apply Z.pow_le_mono_r; lia). lia.
    + rewrite Heq in Hm. destruct (Hpow db) as [Hp|Hp]; [|lia].
      apply Z.mul_lt_mono_pos_r in Hm; assumption.
  - intros Hab. destruct (Z.lt_trichotomy da db) as [Hlt|[Heq|Hgt]].
    + left. exact Hlt.
    + right. split; [exact Heq|]. rewrite Heq. destruct (Hpow db) as [Hp|Hp]; [|lia].
      apply Z.mul_lt_mono_pos_r; assumption.
    + assert (2 ^ db <= 2 ^ (da - 1))%Z by (apply Z.pow_le_mono_r; lia). lia.
Qed.

Lemma int_rank_lt (a b : Z) :
  (Z.abs a < 2 ^ 53)%Z -> (Z.abs b < 2 ^ 53)%Z ->
  lex_lt (int_rank a) (int_rank b) <-> (a < b)%Z.
Proof.
  intros Ha Hb. destruct a as [|a|a], b as [|b|b]; cbn [int_rank lex_lt]; try lia.
  - pose proof (pos_rank_lt a b Ha Hb) as H. cbv zeta in H. rewrite <- H. lia.
  - pose proof (pos_rank_lt b a Hb Ha) as H. cbv zeta in H.
    assert (Hn : (Z.neg a < Z.neg b <-> Z.pos b < Z.pos a)%Z) by lia.
    rewrite Hn, <- H. lia.
Qed.

Lemma int_rank_inj (a b : Z) :
  (Z.abs a < 2 ^ 53)%Z -> (Z.abs b < 2 ^ 53)%Z ->
  int_rank a = int_rank b -> a = b.
Proof.
  intros Ha Hb Heq.
  destruct (Z.lt_trichotomy a b) as [H|[H|H]]; [|exact H|].
  - apply (int_rank_lt a b Ha Hb) in H. rewrite Heq in H.
    destruct (lex_lt_irrefl _ H).
  - apply (int_rank_lt b a Hb Ha) in H. rewrite Heq in H.
    destruct (lex_lt_irrefl _ H).
Qed.

(** Floats of ints below [2^53] in magnitude compare as the ints do. *)
Lemma small_int_order (a b : Z) (fa fb : spec_float) :
  (Z.abs a < 2 ^ 53)%Z -> (Z.abs b < 2 ^ 53)%Z ->
  float_of_int a = Ret fa -> float_of_int b = Ret fb ->
  (SFltb fa fb = true <-> (a < b)%Z) /\ (SFleb fa fb = true <-> (a <= b)%Z).
Proof.
  intros Ha Hb Hfa Hfb.
  destruct (float_of_int_small a Ha) as (fa' & Hfa' & Hra).
  destruct (float_of_int_small b Hb) as (fb' & Hfb' & Hrb).
  rewrite Hfa in Hfa'. rewrite Hfb in Hfb'. injection Hfa' as <-. injection Hfb' as <-.
  pose proof (int_rank_lt a b Ha Hb) as Hlt.
  split.
  - rewrite SFltb_rank. split.
    + intros (x & y & Hx & Hy & Hxy). rewrite Hra in Hx. rewrite Hrb in Hy.
      injection Hx as <-. injection Hy as <-. apply Hlt. exact Hxy.
    + intros Hab. exists (int_rank a), (int_rank b). split; [exact Hra|].
      split; [exact Hrb|]. apply Hlt. exact Hab.
  - rewrite SFleb_rank. split.
    + intros (x & y & Hx & Hy & Hxy). rewrite Hra in Hx. rewrite Hrb in Hy.
      injection Hx as <-. injection Hy as <-. destruct Hxy as [Hxy|Hxy].
      * apply Hlt in Hxy. lia.
      * apply (int_rank_inj a b Ha Hb) in Hxy. lia.
    + intros Hab. exists (int_rank a), (int_rank b). split; [exact Hra|].
      split; [exact Hrb|]. destruct (Z.eq_dec a b) as [->|Hne]; [right; reflexivity|].
      left. apply Hlt. lia.
Qed.

Lemma exact_liquidity_float {rt : Runtime} (entry : json) (n : Z) :
  exact_liquidity entry = Some n -> DexScreener.liquidity_usd entry = float_of_int n.
Proof.
  unfold exact_liquidity, DexScreener.liquidity_usd.
  destruct entry as [| | | | | |kv]; try discriminate. cbn [py_get oc_bind].
  destruct (default (JObj []) (assoc "liquidity" kv)) as [| | | | | |inner];
    try discriminate. cbn [py_get oc_bind].
  destruct (default zero_int (assoc "usd" inner)) as [| |m| | | |]; try discriminate.
  intros [= ->]. reflexivity.
Qed.

Lemma pool_exact_readable {rt : Runtime} (address : string) (entry : json) :
  pool_exact address entry -> pool_readable address entry.
Proof.
  intros [Hm|(Hm & n & Hn & Hb)]; [left; exact Hm|].
  right. split; [exact Hm|].
  destruct (float_of_int_small n Hb) as (f & Hf & _).
  exists f. rewrite (exact_liquidity_float entry n Hn). exact Hf.
Qed.

(** C4, counterexample.  Two pairs that pass the filter, with liquidity
    [2^53] and [2^53 + 1]: both convert to the float [2^53], so the
    second does not exceed the first and the selector returns the first,
    whose exact liquidity is the smaller. *)
Lemma C4_counterexample :
  let low := example_pair JNull (JInt 9007199254740992) "raydium" in
  let high := example_pair JNull (JInt 9007199254740993) "orca" in
  @DexScreener.find_largest_pool_with_sol plain_runtime [low; high] TOKEN_A = Ret low
  /\ @DexScreener.pool_matches plain_runtime high TOKEN_A = Ret true
  /\ exact_liquidity low = Some 9007199254740992%Z
  /\ exact_liquidity high = Some 9007199254740993%Z.
Proof. repeat split; vm_compute; reflexivity. Qed.

(** C4, amended.  The pool selector compares the liquidity values as
    binary64 floats.  When the liquidity of every pair that passes the
    filter is an int below [2^53] in magnitude, the selected pair is the
    one exact comparison chooses: the first of the pairs that pass with
    the largest exact liquidity, provided it exceeds [-1], and the empty
    dict when no pair that passes has a liquidity above [-1]. *)
Theorem C4_exact_below_two_pow_53 {rt : Runtime} (token_pairs : list json)
    (address : string) :
  Forall (pool_exact address) token_pairs ->
  exists r,
    DexScreener.find_largest_pool_with_sol token_pairs address = Ret r
    /\ ((exists n, first_largest_exact token_pairs address r n /\ (-1 < n)%Z)
        \/ (r = JObj []
            /\ forall e m, e ∈ token_pairs ->
                 DexScreener.pool_matches e address = Ret true ->
                 exact_liquidity e = Some m -> (m <= -1)%Z)).
Proof.
  intros Hall.
  assert (Hread : Forall (pool_readable address) token_pairs)
    by (eapply Forall_impl; [exact Hall|apply pool_exact_readable]).
  assert (Hexact : forall e m, e ∈ token_pairs ->
            DexScreener.pool_matches e address = Ret true ->
            exact_liquidity e = Some m ->
            (Z.abs m < 2 ^ 53)%Z
            /\ exists g, DexScreener.liquidity_usd e = Ret g /\ float_of_int m = Ret g).
  { intros e m He Hem Hel.
    destruct (proj1 (Forall_forall _ _) Hall e He) as [Hno|(_ & n & Hn & Hb)];
      [congruence|].
    rewrite Hel in Hn. injection Hn as <-. split; [exact Hb|].
    destruct (float_of_int_small m Hb) as (g & Hg & _).
    exists g. rewrite (exact_liquidity_float e m Hel). auto. }
  assert (Hone : float_of_int (-1) = Ret DexScreener.minus_one) by reflexivity.
  assert (Hb1 : (Z.abs (-1) < 2 ^ 53)%Z) by reflexivity.
  unfold DexScreener.find_largest_pool_with_sol.
  destruct (largest_from_spec token_pairs address (JObj []) DexScreener.minus_one Hread)
    as (r & Hrun & Hspec).
  exists r. split; [exact Hrun|].
  destruct Hspec as [(f & (before & after & Heq & Hrm & Hrl & Hbefore & Hafter) & Hgt)
                    |[-> Hnone]].
  - left.
    assert (Hr : r ∈ token_pairs)
      by (rewrite Heq; apply elem_of_app; right; apply elem_of_cons; auto).
    destruct (proj1 (Forall_forall _ _) Hall r Hr) as [Hno|(_ & n & Hn & Hb)];
      [congruence|].
    destruct (Hexact r n Hr Hrm Hn) as (_ & f' & Hf' & Hfn).
    rewrite Hrl in Hf'. injection Hf' as <-.
    exists n. split.
    + exists before, after. split; [exact Heq|]. split; [exact Hrm|].
      split; [exact Hn|]. split.
      * intros e m He Hem Hel.
        assert (He' : e ∈ token_pairs) by (rewrite Heq; apply elem_of_app; auto).
        destruct (Hexact e m He' Hem Hel) as (Hbm & g & Hg & Hgm).
        pose proof (Hbefore e g He Hem Hg) as Hle.
        destruct (small_int_order n m f g Hb Hbm Hfn Hgm) as [_ Hiff].
        destruct (Z.lt_ge_cases m n) as [Hlt|Hge]; [exact Hlt|].
        apply Hiff in Hge. congruence.
      * intros e m He Hem Hel.
        assert (He' : e ∈ token_pairs)
          by (rewrite Heq; apply elem_of_app; right; apply elem_of_cons; auto).
        destruct (Hexact e m He' Hem Hel) as (Hbm & g & Hg & Hgm).
        pose proof (Hafter e g He Hem Hg) as Hnlt.
        destruct (small_int_order n m f g Hb Hbm Hfn Hgm) as [Hiff _].
        destruct (Z.le_gt_cases m n) as [Hle|Hgt']; [exact Hle|].
        apply Hiff in Hgt'. congruence.
    + apply (small_int_order (-1) n DexScreener.minus_one f Hb1 Hb Hone Hfn).
      exact Hgt.
  - right. split; [reflexivity|].
    intros e m He Hem Hel.
    destruct (Hexact e m He Hem Hel) as (Hbm & g & Hg & Hgm).
    pose proof (Hnone e g He Hem Hg) as Hngt. unfold float_gt in Hngt.
    destruct (small_int_order (-1) m DexScreener.minus_one g Hb1 Hbm Hone Hgm)
      as [Hiff _].
    destruct (Z.le_gt_cases m (-1)) as [Hle|Hgt']; [exact Hle|].
    apply Hiff in Hgt'. congruence.
Qed.

Lemma C4_exact_below_two_pow_53_witness :
  let pairs := [example_pair JNull (JInt 10) "raydium";
                example_pair JNull (JInt 50) "orca";
                example_pair JNull (JInt 30) "meteora"] in
  Forall (@pool_exact plain_runtime TOKEN_A) pairs
  /\ @DexScreener.find_largest_pool_with_sol plain_runtime pairs TOKEN_A
     = Ret (example_pair JNull (JInt 50) "orca").
Proof.
  intros pairs.
  assert (H1 : Forall (@pool_exact plain_runtime TOKEN_A) pairs).
  { repeat (apply List.Forall_cons;
              [right; split; [reflexivity|]; eexists; split; [reflexivity|reflexivity]|]).
    apply List.Forall_nil. }
  refine (conj H1 _).
  destruct (@C4_exact_below_two_pow_53 plain_runtime pairs TOKEN_A H1) as (r & Hrun & _).
  rewrite Hrun. vm_compute in Hrun. injection Hrun as <-. reflexivity.
Defined.

(** * Further properties *)

(** ** Validation and calls of the DexScreener client *)

(** X1.  [_validate_token_address] raises [InvalidSolanaAddress] with the
    address exactly when the address is not valid, the empty string
    included, and returns otherwise: the [NoPositionsError] of its
    docstring never leaves it. *)
Theorem X1_validate_token_address_outcomes (token_address : string) :
  DexScreener._validate_token_address token_address
  = (if is_solana_address token_address then Ret tt
     else Raise (InvalidSolanaAddress token_address))
  /\ forall msg,
       DexScreener._validate_token_address token_address <> Raise (NoPositionsError msg).
Proof.
  assert (H : DexScreener._validate_token_address token_address
              = if is_solana_address token_address then Ret tt
                else Raise (InvalidSolanaAddress token_address)).
  { destruct (is_solana_address token_address) eqn:Ha.
    - apply validate_token_address_ok, Ha.
    - apply validate_token_address_bad, Ha. }
  split; [exact H|]. intros msg. rewrite H.
  destruct (is_solana_address token_address); discriminate.
Qed.

(** X2.  [_validate_token_addresses] raises [NoPositionsError] on the
    empty list, [InvalidSolanaAddress] with the first address of the list
    that is not valid when there is one, and returns otherwise. *)
Theorem X2_validate_token_addresses_first_invalid (token_addresses : list string) :
  DexScreener._validate_token_addresses token_addresses
  = match token_addresses with
    | [] => Raise (NoPositionsError (Some "Token addresses list is empty"))
    | _ => match List.find (fun a => negb (is_solana_address a)) token_addresses with
           | Some bad => Raise (InvalidSolanaAddress bad)
           | None => Ret tt
           end
    end.
Proof.
  unfold DexScreener._validate_token_addresses.
  destruct token_addresses as [|a0 rest0]; [reflexivity|].
  generalize (a0 :: rest0). intros l.
  induction l as [|a rest IH]; [reflexivity|].
  cbn [oc_for List.find].
  destruct (is_solana_address a) eqn:Ha; cbn [negb].
  - rewrite (validate_token_address_ok a Ha). exact IH.
  - rewrite (validate_token_address_bad a Ha). reflexivity.
Qed.

(** X3.  [_call_api] sends no request for an address that is not valid
    and exactly one, to the URL of the token, for a valid one; it returns
    the JSON body of a 200 response, and raises [InvalidTokens] on any
    other status and [JSONDecodeError] on a 200 whose body is not JSON. *)
Theorem X3_call_api_outcomes (net : transport) (token_address : string)
    (log : list request) :
  DexScreener._call_api net token_address log
  = if is_solana_address token_address then
      ((if (status_code (net (dex_request token_address)) =? 200)%Z
        then match body (net (dex_request token_address)) with
             | Some j => Ret j
             | None => Raise JSONDecodeError
             end
        else Raise (InvalidTokens None)),
       (log ++ [dex_request token_address])%list)
    else (Raise (InvalidSolanaAddress token_address), log).
Proof.
  destruct (is_solana_address token_address) eqn:Ha.
  - rewrite (call_api_valid net token_address log Ha).
    unfold DexScreener._validate_response, response_json.
    destruct (status_code (net (dex_request token_address)) =? 200)%Z; reflexivity.
  - apply call_api_invalid, Ha.
Qed.

(** The item access of an ordered dict after an assignment. *)
Lemma assoc_dict_set (k k' : string) (v : json) (d : list (string * json)) :
  assoc k' (dict_set k v d) = if String.eqb k' k then Some v else assoc k' d.
Proof.
  induction d as [|[k0 v0] d IH]; cbn [dict_set assoc].
  - destruct (String.eqb k' k); reflexivity.
  - destruct (String.eqb_spec k k0) as [->|Hne]; cbn [assoc].
    + destruct (String.eqb k' k0); reflexivity.
    + rewrite IH. destruct (String.eqb_spec k' k0) as [->|Hne'].
      * destruct (String.eqb_spec k0 k); [congruence|reflexivity].
      * reflexivity.
Qed.

Lemma dict_set_keys (k : string) (v : json) (d : list (string * json)) :
  map fst (dict_set k v d)
  = if bool_decide (k ∈ map fst d) then map fst d else (map fst d ++ [k])%list.
Proof.
  induction d as [|[k0 v0] d IH]; cbn [dict_set map fst].
  - rewrite bool_decide_eq_false_2 by (intros H; inversion H). reflexivity.
  - destruct (String.eqb_spec k k0) as [->|Hne].
    + rewrite bool_decide_eq_true_2 by (apply elem_of_cons; auto). reflexivity.
    + cbn [map fst]. rewrite IH. destruct (decide (k ∈ map fst d)) as [Hin|Hin].
      * rewrite !bool_decide_eq_true_2; [reflexivity| |exact Hin].
        apply elem_of_cons. auto.
      * rewrite !bool_decide_eq_false_2; [reflexivity| |exact Hin].
        intros H. apply elem_of_cons in H as [H|H]; contradiction.
Qed.

Lemma dict_set_NoDup (k : string) (v : json) (d : list (string * json)) :
  NoDup (map fst d) -> NoDup (map fst (dict_set k v d)).
Proof.
  intros Hnd. rewrite dict_set_keys. case_bool_decide; [exact Hnd|].
  apply NoDup_app. split; [exact Hnd|]. split; [|apply NoDup_singleton].
  intros x Hx Hk. apply list_elem_of_singleton in Hk. subst x. contradiction.
Qed.

Section DexBulkAny.
Context {rt : Runtime} (net : transport).

(** The loop of [_call_api_bulk] over any addresses whose 200 responses
    carry JSON. *)
Lemma call_each_any (addresses : list string) (responses : list (string * json))
    (log : list request) :
  (forall a, a ∈ addresses -> is_solana_address a = true ->
             status_code (net (dex_request a)) = 200%Z ->
             body (net (dex_request a)) <> None) ->
  DexScreener.call_each net addresses responses log
  = (Ret (foldl (fun rs a => dict_set a (bulk_entry net a) rs) responses addresses),
     (log ++ bulk_requests addresses)%list).
Proof.
  revert responses log.
  induction addresses as [|a rest IH]; intros responses log Hbody.
  - cbn. rewrite app_nil_r. reflexivity.
  - cbn [DexScreener.call_each foldl]. unfold m_bind.
    rewrite call_one_entry by (apply Hbody, elem_of_cons; auto).
    rewrite IH by (intros b Hb; apply Hbody, elem_of_cons; auto).
    rewrite <- app_assoc. unfold bulk_requests. rewrite filter_cons.
    destruct (decide (is_solana_address a = true)) as [Hv|Hv].
    + rewrite Hv. reflexivity.
    + apply not_true_is_false in Hv. rewrite Hv. reflexivity.
Qed.

Lemma bulk_fold_assoc (addresses : list string) (responses : list (string * json))
    (a : string) :
  assoc a (foldl (fun rs x => dict_set x (bulk_entry net x) rs) responses addresses)
  = if bool_decide (a ∈ addresses) then Some (bulk_entry net a) else assoc a responses.
Proof.
  revert responses. induction addresses as [|x rest IH]; intros responses.
  - cbn [foldl]. rewrite bool_decide_eq_false_2 by (intros H; inversion H). reflexivity.
  - cbn [foldl]. rewrite IH, assoc_dict_set.
    destruct (decide (a ∈ rest)) as [Hin|Hin].
    + rewrite !bool_decide_eq_true_2; [reflexivity| |exact Hin].
      apply elem_of_cons. auto.
    + rewrite (bool_decide_eq_false_2 _ Hin).
      destruct (String.eqb_spec a x) as [->|Hne].
      * rewrite bool_decide_eq_true_2 by (apply elem_of_cons; auto). reflexivity.
      * rewrite bool_decide_eq_false_2; [reflexivity|].
        intros H. apply elem_of_cons in H as [H|H]; contradiction.
Qed.

Lemma bulk_fold_NoDup (addresses : list string) (responses : list (string * json)) :
  NoDup (map fst responses) ->
  NoDup (map fst (foldl (fun rs x => dict_set x (bulk_entry net x) rs)
                    responses addresses)).
Proof.
  revert responses. induction addresses as [|x rest IH]; intros responses Hnd.
  - exact Hnd.
  - cbn [foldl]. apply IH, dict_set_NoDup, Hnd.
Qed.
End DexBulkAny.

(** X4.  For every non-empty list of addresses, repeated ones included,
    whose 200 responses carry JSON, [_call_api_bulk] does not raise: it
    returns a dict with distinct keys that holds an entry for exactly the
    addresses of the list, the payload of a valid address answered with a
    200 and an error marker for any other, and it sends one request for
    each occurrence of a valid address, in order. *)
Theorem X4_call_api_bulk_covers_every_address {rt : Runtime} (net : transport)
    (token_addresses : list string) (log : list request) :
  token_addresses <> [] ->
  (forall a, a ∈ token_addresses -> is_solana_address a = true ->
             status_code (net (dex_request a)) = 200%Z ->
             body (net (dex_request a)) <> None) ->
  exists responses,
    DexScreener._call_api_bulk net token_addresses log
    = (Ret responses, (log ++ bulk_requests token_addresses)%list)
    /\ NoDup (map fst responses)
    /\ forall a, assoc a responses
                 = if bool_decide (a ∈ token_addresses) then Some (bulk_entry net a)
                   else None.
Proof.
  intros Hne Hbody.
  exists (foldl (fun rs a => dict_set a (bulk_entry net a) rs) [] token_addresses).
  split; [|split].
  - unfold DexScreener._call_api_bulk.
    destruct token_addresses as [|a rest]; [congruence|].
    apply call_each_any, Hbody.
  - apply bulk_fold_NoDup. constructor.
  - intros a. rewrite bulk_fold_assoc. reflexivity.
Qed.

Lemma X4_call_api_bulk_covers_every_address_witness :
  [TOKEN_A; NOT_AN_ADDRESS; TOKEN_A] <> []
  /\ (forall a, a ∈ [TOKEN_A; NOT_AN_ADDRESS; TOKEN_A] -> is_solana_address a = true ->
        status_code (one_down (dex_request a)) = 200%Z ->
        body (one_down (dex_request a)) <> None)
  /\ exists responses,
       @DexScreener._call_api_bulk plain_runtime one_down
         [TOKEN_A; NOT_AN_ADDRESS; TOKEN_A] []
       = (Ret responses, [dex_request TOKEN_A; dex_request TOKEN_A])
       /\ map fst responses = [TOKEN_A; NOT_AN_ADDRESS].
Proof.
  assert (H1 : [TOKEN_A; NOT_AN_ADDRESS; TOKEN_A] <> []) by discriminate.
  assert (H2 : forall a, a ∈ [TOKEN_A; NOT_AN_ADDRESS; TOKEN_A] ->
                 is_solana_address a = true ->
                 status_code (one_down (dex_request a)) = 200%Z ->
                 body (one_down (dex_request a)) <> None).
  { intros a Ha Hv _.
    assert (Hcases : a = TOKEN_A \/ a = NOT_AN_ADDRESS).
    { apply elem_of_cons in Ha as [->|Ha]; [auto|].
      apply elem_of_cons in Ha as [->|Ha]; [auto|].
      apply list_elem_of_singleton in Ha. auto. }
    destruct Hcases as [->| ->]; [discriminate|].
    vm_compute in Hv. discriminate. }
  refine (conj H1 (conj H2 _)).
  destruct (@X4_call_api_bulk_covers_every_address plain_runtime one_down
              [TOKEN_A; NOT_AN_ADDRESS; TOKEN_A] [] H1 H2) as (responses & Hrun & _ & _).
  exists responses. split; [exact Hrun|].
  vm_compute in Hrun. injection Hrun as <-. reflexivity.
Defined.

(** ** How the loops over pairs change the table *)

Section Respects.
Context {V : Type} (R : locals V -> locals V -> Prop).
Hypothesis R_refl : forall st, R st st.
Hypothesis R_trans : forall st1 st2 st3, R st1 st2 -> R st2 st3 -> R st1 st3.

Lemma respects_ret {A : Type} (a : A) : respects R (m_ret a).
Proof. intros st. apply R_refl. Qed.

Lemma respects_raise {A : Type} (e : exn) : respects R (@m_raise _ A e).
Proof. intros st. apply R_refl. Qed.

Lemma respects_lift {A : Type} (c : outcome A) : respects R (m_lift c).
Proof. intros st. apply R_refl. Qed.

Lemma respects_bind {A B : Type} (c : M (locals V) A) (k : A -> M (locals V) B) :
  respects R c -> (forall a, respects R (k a)) -> respects R (m_bind c k).
Proof.
  intros Hc Hk st. unfold m_bind. specialize (Hc st).
  destruct (c st) as [[a|e] st1]; cbn [snd] in *; [|exact Hc].
  exact (R_trans _ _ _ Hc (Hk a st1)).
Qed.

Lemma respects_try {A : Type} (c : M (locals V) A) (h : exn -> M (locals V) A) :
  respects R c -> (forall e, respects R (h e)) -> respects R (m_try c h).
Proof.
  intros Hc Hh st. unfold m_try. specialize (Hc st).
  destruct (c st) as [[a|e] st1]; cbn [snd] in *; [exact Hc|].
  exact (R_trans _ _ _ Hc (Hh e st1)).
Qed.

Lemma respects_for {A : Type} (body : A -> M (locals V) unit) (l : list A) :
  (forall x, respects R (body x)) -> respects R (m_for body l).
Proof.
  intros Hbody. induction l as [|x rest IH]; cbn [m_for].
  - apply respects_ret.
  - apply respects_bind; [apply Hbody|intros _; exact IH].
Qed.

Lemma respects_assign_dex_id (d : json) :
  (forall st d', R st {| tbl := tbl st; dex_id := d' |}) ->
  respects R (assign_dex_id d).
Proof. intros H st. apply H. Qed.

Lemma respects_read_dex_id : respects R read_dex_id.
Proof. intros st. unfold read_dex_id. destruct (dex_id st); apply R_refl. Qed.
End Respects.

Lemma respects_weaken {V A : Type} (R R' : locals V -> locals V -> Prop)
    (c : M (locals V) A) :
  (forall st st', R st st' -> R' st st') -> respects R c -> respects R' c.
Proof. intros Himp Hc st. apply Himp, Hc. Qed.

Section UpdatesEntry.
Context {V : Type} (address : string).

Lemma updates_entry_refl (st : locals V) : updates_entry address st st.
Proof. left. reflexivity. Qed.

Lemma updates_entry_trans (st1 st2 st3 : locals V) :
  updates_entry address st1 st2 -> updates_entry address st2 st3 ->
  updates_entry address st1 st3.
Proof.
  intros [H12|[v H12]] [H23|[w H23]].
  - left. congruence.
  - right. exists w. congruence.
  - right. exists v. congruence.
  - right. exists w. rewrite H23, H12. apply insert_insert_eq.
Qed.

Lemma updates_entry_dex_id (st : locals V) (d : option json) :
  updates_entry address st {| tbl := tbl st; dex_id := d |}.
Proof. left. reflexivity. Qed.

Lemma updates_entry_set (st : locals V) (venues : gmap pykey (gmap pykey V))
    (d : option json) :
  updates_entry address st {| tbl := <[address := venues]> (tbl st); dex_id := d |}.
Proof. right. exists venues. reflexivity. Qed.

Lemma venue_reset_updates (d : json) :
  respects (updates_entry address) (@venue_reset V address d).
Proof.
  intros st. unfold venue_reset, m_bind, m_get, m_lift, set_tbl, m_raise.
  destruct (tbl st !! address); [|apply updates_entry_refl].
  destruct (py_key d); [apply updates_entry_set|apply updates_entry_refl].
Qed.

Lemma venue_store_updates (d symbol : json) (v : V) :
  respects (updates_entry address) (venue_store address d symbol v).
Proof.
  intros st. unfold venue_store, m_bind, m_get, m_lift, set_tbl, m_raise.
  destruct (tbl st !! address) as [venues|]; [|apply updates_entry_refl].
  destruct (py_key d) as [k|]; [|apply updates_entry_refl].
  destruct (venues !! k); [|apply updates_entry_refl].
  destruct (py_key symbol); [apply updates_entry_set|apply updates_entry_refl].
Qed.

Lemma venue_delete_updates (d : json) :
  respects (updates_entry address) (@venue_delete V address d).
Proof.
  intros st. unfold venue_delete, m_bind, m_get, m_lift, set_tbl, m_raise.
  destruct (tbl st !! address) as [venues|]; [|apply updates_entry_refl].
  destruct (py_key d) as [k|]; [|apply updates_entry_refl].
  destruct (venues !! k); [apply updates_entry_set|apply updates_entry_refl].
Qed.

Lemma drop_venue_updates (e : exn) :
  respects (updates_entry address) (@drop_venue V address e).
Proof.
  unfold drop_venue. destruct (is_Value_or_TypeError e).
  - apply (respects_bind _ updates_entry_trans).
    + apply respects_read_dex_id, updates_entry_refl.
    + intros d. destruct (truthy d).
      * apply venue_delete_updates.
      * apply respects_ret, updates_entry_refl.
  - apply respects_raise, updates_entry_refl.
Qed.

Lemma updates_entry_elsewhere (st st' : locals V) :
  updates_entry address st st' -> same_elsewhere address st st'.
Proof.
  intros [H|[v H]] a Ha; rewrite H; [reflexivity|].
  apply lookup_insert_ne. congruence.
Qed.

Lemma updates_entry_present (st st' : locals V) :
  updates_entry address st st' ->
  is_Some (tbl st !! address) -> is_Some (tbl st' !! address).
Proof.
  intros [H|[v H]] Hs; rewrite H; [exact Hs|].
  rewrite lookup_insert_eq. eauto.
Qed.
End UpdatesEntry.

(** Steps of a chain of reads and stores. *)
Ltac updates_steps address :=
  repeat first
    [ apply venue_reset_updates
    | apply venue_store_updates
    | apply respects_assign_dex_id; intros ? ?; apply updates_entry_dex_id
    | apply (respects_lift _ (updates_entry_refl address))
    | apply (respects_ret _ (updates_entry_refl address))
    | apply (respects_bind _ (updates_entry_trans address)); [|intros ?] ].

Section PairLoops.
Context {rt : Runtime} (address : string).

(** One pair changes at most the entry of the token, whatever the pair. *)
Lemma price_pair_updates (pair : json) :
  respects (updates_entry address) (DexScreener.price_pair address pair).
Proof.
  unfold DexScreener.price_pair.
  apply (respects_try _ (updates_entry_trans address)); [|apply drop_venue_updates].
  updates_steps address.
Qed.

Lemma overview_pair_updates (pair : json) :
  respects (updates_entry address) (DexScreener.overview_pair address pair).
Proof.
  unfold DexScreener.overview_pair.
  apply (respects_try _ (updates_entry_trans address)); [|apply drop_venue_updates].
  updates_steps address.
Qed.
End PairLoops.

Section ElsewhereAndValues.
Context {V : Type}.

Lemma same_elsewhere_refl (address : string) (st : locals V) :
  same_elsewhere address st st.
Proof. intros a _. reflexivity. Qed.

Lemma same_elsewhere_trans (address : string) (st1 st2 st3 : locals V) :
  same_elsewhere address st1 st2 -> same_elsewhere address st2 st3 ->
  same_elsewhere address st1 st3.
Proof. intros H12 H23 a Ha. rewrite (H23 a Ha). exact (H12 a Ha). Qed.

Lemma token_reset_elsewhere (address : string) :
  respects (same_elsewhere address) (@token_reset V address).
Proof. intros st a Ha. cbn. apply lookup_insert_ne. congruence. Qed.

Lemma token_discard_elsewhere (address : string) :
  respects (same_elsewhere address) (@token_discard V address).
Proof. intros st a Ha. cbn. apply lookup_delete_ne. congruence. Qed.

Lemma keeps_values_refl (P : V -> Prop) (st : locals V) : keeps_values P st st.
Proof. intros H. exact H. Qed.

Lemma keeps_values_trans (P : V -> Prop) (st1 st2 st3 : locals V) :
  keeps_values P st1 st2 -> keeps_values P st2 st3 -> keeps_values P st1 st3.
Proof. intros H12 H23 H. exact (H23 (H12 H)). Qed.

(** Replacing the venues of a token by venues whose values satisfy [P]. *)
Lemma table_values_insert (P : V -> Prop) (t : table V) (address : string)
    (venues : gmap pykey (gmap pykey V)) :
  table_values P t ->
  (forall k quotes s v, venues !! k = Some quotes -> quotes !! s = Some v -> P v) ->
  table_values P (<[address := venues]> t).
Proof.
  intros Ht Hv a venues' k quotes s v Ha Hk Hs.
  destruct (decide (address = a)) as [->|Hne].
  - rewrite lookup_insert_eq in Ha. injection Ha as <-. exact (Hv k quotes s v Hk Hs).
  - rewrite lookup_insert_ne in Ha by exact Hne. exact (Ht a venues' k quotes s v Ha Hk Hs).
Qed.

Lemma venue_reset_values (P : V -> Prop) (address : string) (d : json) :
  respects (keeps_values P) (@venue_reset V address d).
Proof.
  intros st Ht. unfold venue_reset, m_bind, m_get, m_lift, set_tbl, m_raise.
  destruct (tbl st !! address) as [venues|] eqn:Hv; [|exact Ht].
  destruct (py_key d) as [k0|]; [|exact Ht]. cbn [snd tbl].
  apply table_values_insert; [exact Ht|].
  intros k quotes s v Hk Hs. destruct (decide (k0 = k)) as [->|Hne].
  - rewrite lookup_insert_eq in Hk. injection Hk as <-. rewrite lookup_empty in Hs.
    discriminate.
  - rewrite lookup_insert_ne in Hk by exact Hne. exact (Ht _ _ _ _ _ _ Hv Hk Hs).
Qed.

Lemma venue_store_values (P : V -> Prop) (address : string) (d symbol : json) (v : V) :
  P v -> respects (keeps_values P) (venue_store address d symbol v).
Proof.
  intros Hpv st Ht. unfold venue_store, m_bind, m_get, m_lift, set_tbl, m_raise.
  destruct (tbl st !! address) as [venues|] eqn:Hv; [|exact Ht].
  destruct (py_key d) as [k0|]; [|exact Ht].
  destruct (venues !! k0) as [quotes0|] eqn:Hq; [|exact Ht].
  destruct (py_key symbol) as [s0|]; [|exact Ht]. cbn [snd tbl].
  apply table_values_insert; [exact Ht|].
  intros k quotes s w Hk Hs. destruct (decide (k0 = k)) as [->|Hne].
  - rewrite lookup_insert_eq in Hk. injection Hk as <-.
    destruct (decide (s0 = s)) as [->|Hns].
    + rewrite lookup_insert_eq in Hs. injection Hs as <-. exact Hpv.
    + rewrite lookup_insert_ne in Hs by exact Hns. exact (Ht _ _ _ _ _ _ Hv Hq Hs).
  - rewrite lookup_insert_ne in Hk by exact Hne. exact (Ht _ _ _ _ _ _ Hv Hk Hs).
Qed.

Lemma venue_delete_values (P : V -> Prop) (address : string) (d : json) :
  respects (keeps_values P) (@venue_delete V address d).
Proof.
  intros st Ht. unfold venue_delete, m_bind, m_get, m_lift, set_tbl, m_raise.
  destruct (tbl st !! address) as [venues|] eqn:Hv; [|exact Ht].
  destruct (py_key d) as [k0|]; [|exact Ht].
  destruct (venues !! k0) as [quotes0|] eqn:Hq; [|exact Ht]. cbn [snd tbl].
  apply table_values_insert; [exact Ht|].
  intros k quotes s w Hk Hs. destruct (decide (k0 = k)) as [->|Hne].
  - rewrite lookup_delete_eq in Hk. discriminate.
  - rewrite lookup_delete_ne in Hk by exact Hne. exact (Ht _ _ _ _ _ _ Hv Hk Hs).
Qed.

Lemma drop_venue_values (P : V -> Prop) (address : string) (e : exn) :
  respects (keeps_values P) (@drop_venue V address e).
Proof.
  unfold drop_venue. destruct (is_Value_or_TypeError e).
  - apply (respects_bind _ (keeps_values_trans P)).
    + apply respects_read_dex_id, keeps_values_refl.
    + intros d. destruct (truthy d).
      * apply venue_delete_values.
      * apply respects_ret, keeps_values_refl.
  - apply respects_raise, keeps_values_refl.
Qed.
End ElsewhereAndValues.

Section TokenLoops.
Context {rt : Runtime}.

(** One item of [responses] changes at most the entry of its token,
    whatever the payload. *)
Lemma price_token_elsewhere (item : string * json) :
  respects (same_elsewhere (fst item)) (DexScreener.price_token item).
Proof.
  destruct item as [address token_data]. cbn [fst]. unfold DexScreener.price_token.
  apply (respects_try _ (same_elsewhere_trans address)).
  - apply (respects_bind _ (same_elsewhere_trans address));
      [apply respects_lift, same_elsewhere_refl|].
    intros [|]; [|apply respects_ret, same_elsewhere_refl].
    apply (respects_bind _ (same_elsewhere_trans address));
      [apply token_reset_elsewhere|intros _].
    apply (respects_bind _ (same_elsewhere_trans address));
      [apply respects_lift, same_elsewhere_refl|intros pairs].
    apply (respects_bind _ (same_elsewhere_trans address));
      [apply respects_lift, same_elsewhere_refl|intros items].
    apply (respects_for _ (same_elsewhere_refl address) (same_elsewhere_trans address)).
    intros pair.
    apply (respects_weaken (updates_entry address)); [apply updates_entry_elsewhere|].
    apply price_pair_updates.
  - intros e. destruct (is_Value_or_TypeError e).
    + apply token_discard_elsewhere.
    + apply respects_raise, same_elsewhere_refl.
Qed.

(** The loop of [fetch_prices_dex] gives entries to the tokens of its
    items only, whatever the payloads and whatever its outcome. *)
Lemma price_tokens_keys (items : list (string * json))
    (st : locals DexScreener.PriceInfo) (a : string) :
  is_Some (tbl (snd (m_for DexScreener.price_token items st)) !! a) ->
  is_Some (tbl st !! a) \/ a ∈ map fst items.
Proof.
  revert st. induction items as [|item rest IH]; intros st; cbn [m_for].
  - cbn. auto.
  - unfold m_bind. pose proof (price_token_elsewhere item st) as Hstep.
    destruct (DexScreener.price_token item st) as [[[]|e] st1]; cbn [snd] in *.
    + intros Hs. destruct (IH st1 Hs) as [H1|H1].
      * destruct (decide (a = fst item)) as [->|Hne].
        -- right. cbn [map]. apply elem_of_cons. auto.
        -- left. rewrite <- (Hstep a Hne). exact H1.
      * right. cbn [map]. apply elem_of_cons. auto.
    + intros Hs. destruct (decide (a = fst item)) as [->|Hne].
      * right. cbn [map]. apply elem_of_cons. auto.
      * left. rewrite <- (Hstep a Hne). exact Hs.
Qed.

(** The overview of one pair keeps [unavailable] on the stored values. *)
Lemma overview_pair_values (address : string) (pair : json) :
  respects (keeps_values unavailable) (DexScreener.overview_pair address pair).
Proof.
  unfold DexScreener.overview_pair.
  apply (respects_try _ (keeps_values_trans unavailable)); [|apply drop_venue_values].
  repeat first
    [ apply venue_reset_values
    | apply venue_store_values; repeat split
    | apply respects_assign_dex_id; intros ? ? H; exact H
    | apply (respects_lift _ (keeps_values_refl unavailable))
    | apply (respects_bind _ (keeps_values_trans unavailable)); [|intros ?] ].
Qed.
End TokenLoops.

Section BulkKeys.
Context {rt : Runtime} (net : transport).

(** The keys of the dict of [_call_api_bulk] are addresses of the list,
    whatever the transport answers. *)
Lemma call_each_keys (addresses : list string) (responses responses' : list (string * json))
    (log log' : list request) (k : string) :
  DexScreener.call_each net addresses responses log = (Ret responses', log') ->
  k ∈ map fst responses' -> k ∈ map fst responses \/ k ∈ addresses.
Proof.
  revert responses log. induction addresses as [|a rest IH]; intros responses log.
  - cbn. intros [= <- <-]. auto.
  - cbn [DexScreener.call_each]. unfold m_bind.
    destruct (DexScreener.call_one net a responses log) as [[rs1|e] log1] eqn:Hone;
      [|discriminate].
    intros Hrest Hk. destruct (IH rs1 log1 Hrest Hk) as [H|H].
    + assert (Hkeys : exists v, rs1 = dict_set a v responses).
      { unfold DexScreener.call_one, m_try in Hone.
        destruct (m_bind _ _ log) as [[rs|e] l0]eqn:Hbody.
        - unfold m_bind, m_lift in Hbody.
          destruct (DexScreener._validate_token_address a); [|discriminate].
          destruct (DexScreener.requests_get net (DexScreener.token_url a) log)
            as [[resp|] l1]; [|discriminate].
          destruct (DexScreener._validate_response resp); [|discriminate].
          destruct (response_json resp) as [j|]; [|discriminate].
          unfold m_ret in Hbody. injection Hbody as <- <-.
          injection Hone as <- <-. eauto.
        - destruct (is_address_or_tokens_error e); [|discriminate].
          unfold m_ret in Hone. injection Hone as <- <-. eauto. }
      destruct Hkeys as [v ->]. rewrite dict_set_keys in H.
      case_bool_decide; [left; exact H|].
      apply elem_of_app in H as [H|H]; [left; exact H|].
      apply list_elem_of_singleton in H. subst k. right. apply elem_of_cons. auto.
    + right. apply elem_of_cons. auto.
Qed.
End BulkKeys.

(** X5.  Whatever the transport answers, a mapping that [fetch_prices_dex]
    returns has keys among the requested addresses only. *)
Theorem X5_fetch_prices_dex_keys_are_requested {rt : Runtime} (net : transport)
    (token_addresses : list string) (log : list request)
    (t : table DexScreener.PriceInfo) (a : string) :
  fst (DexScreener.fetch_prices_dex net token_addresses log) = Ret t ->
  is_Some (t !! a) -> a ∈ token_addresses.
Proof.
  unfold DexScreener.fetch_prices_dex, m_bind, m_lift.
  destruct (DexScreener._validate_token_addresses token_addresses); [|discriminate].
  destruct (DexScreener._call_api_bulk net token_addresses log)
    as [[responses|e] log1] eqn:Hbulk; [|discriminate].
  unfold DexScreener.run_locals.
  pose proof (price_tokens_keys responses {| tbl := ∅; dex_id := None |} a) as Hkeys.
  destruct (m_for DexScreener.price_token responses {| tbl := ∅; dex_id := None |})
    as [[[]|e] st']; [|discriminate].
  cbn [snd fst m_ret] in *. intros [= <-] Hs.
  destruct (Hkeys Hs) as [H|H];
    [cbn [tbl] in H; rewrite lookup_empty in H; destruct H; discriminate|].
  unfold DexScreener._call_api_bulk in Hbulk.
  destruct token_addresses as [|first rest]; [discriminate|].
  destruct (call_each_keys net (first :: rest) [] responses log log1 a Hbulk H)
    as [H'|H'].
  - inversion H'.
  - exact H'.
Qed.

(** X6.  Whatever the payload, a table that the DexScreener
    [fetch_token_overview] returns has exactly one key, the requested
    address, and every overview in it has ["N/A"] as its decimals, its
    last trade time and its supply. *)
Theorem X6_overview_table_shape {rt : Runtime} (net : transport) (address : string)
    (log : list request) (t : table DexScreener.TokenOverview) :
  fst (DexScreener.fetch_token_overview net address log) = Ret (DexScreener.OvTable t) ->
  (forall a, is_Some (t !! a) <-> a = address) /\ table_values unavailable t.
Proof.
  unfold DexScreener.fetch_token_overview, m_bind, m_lift.
  destruct (DexScreener._validate_token_address address); [|discriminate].
  destruct (DexScreener._call_api net address log) as [[responses|e] log1];
    [|discriminate].
  destruct (py_get responses "pairs" JNull) as [pairs|]; [|discriminate].
  destruct (truthy pairs); [|discriminate].
  destruct (py_iter pairs) as [items|]; [|discriminate].
  unfold DexScreener.run_locals.
  set (st0 := {| tbl := {[address := ∅]}; dex_id := None |}
              : locals DexScreener.TokenOverview).
  pose proof (respects_for (updates_entry address) (updates_entry_refl address)
                (updates_entry_trans address) (DexScreener.overview_pair address) items
                (overview_pair_updates address) st0) as Hupd.
  pose proof (respects_for (keeps_values unavailable) (keeps_values_refl unavailable)
                (keeps_values_trans unavailable) (DexScreener.overview_pair address) items
                (overview_pair_values address) st0) as Hval.
  destruct (m_for (DexScreener.overview_pair address) items st0) as [[[]|e] st'];
    [|discriminate].
  cbn [snd fst m_ret] in *. intros [= <-]. split.
  - intros key. assert (Hkeys : exists venues, tbl st' = {[address := venues]}).
    { destruct Hupd as [H|[venues H]]; rewrite H; cbn [tbl st0]; [eauto|].
      exists venues. apply insert_singleton_eq. }
    destruct Hkeys as [venues ->]. rewrite lookup_singleton_is_Some. split; congruence.
  - apply Hval. intros key venues k quotes s v Ha Hk Hs. cbn [tbl st0] in Ha.
    apply lookup_singleton_Some in Ha as [_ <-]. rewrite lookup_empty in Hk.
    discriminate.
Qed.

(** ** More on the prices of the DexScreener client *)

Lemma first_invalid_split (l : list string) :
  (exists a, a ∈ l /\ is_solana_address a = false) ->
  exists l1 bad l2,
    l = (l1 ++ bad :: l2)%list
    /\ Forall (fun a => is_solana_address a = true) l1
    /\ is_solana_address bad = false.
Proof.
  induction l as [|a rest IH]; intros (a0 & Hin & Hbad); [inversion Hin|].
  destruct (is_solana_address a) eqn:Ha.
  - destruct IH as (l1 & bad & l2 & -> & Hall & Hb).
    { exists a0. split; [|exact Hbad].
      apply elem_of_cons in Hin as [->|Hin]; [congruence|exact Hin]. }
    exists (a :: l1), bad, l2. split; [reflexivity|]. split; [|exact Hb].
    constructor; assumption.
  - exists [], a, rest. split; [reflexivity|]. split; [constructor|exact Ha].
Qed.

(** X7.  When any of the addresses is not valid, [fetch_prices_dex]
    raises [InvalidSolanaAddress] for one of them and sends no request at
    all, not even for the valid addresses that come first. *)
Theorem X7_fetch_prices_dex_validates_before_sending {rt : Runtime} (net : transport)
    (token_addresses : list string) (log : list request) :
  (exists a, a ∈ token_addresses /\ is_solana_address a = false) ->
  exists bad,
    bad ∈ token_addresses /\ is_solana_address bad = false
    /\ DexScreener.fetch_prices_dex net token_addresses log
       = (Raise (InvalidSolanaAddress bad), log).
Proof.
  intros Hex. destruct (first_invalid_split token_addresses Hex)
    as (l1 & bad & l2 & -> & Hall & Hbad).
  exists bad. split; [apply elem_of_app; right; apply elem_of_cons; auto|].
  split; [exact Hbad|]. apply fetch_prices_dex_invalid; assumption.
Qed.

Lemma X7_fetch_prices_dex_validates_before_sending_witness :
  (exists a, a ∈ [TOKEN_A; NOT_AN_ADDRESS] /\ is_solana_address a = false)
  /\ @DexScreener.fetch_prices_dex plain_runtime one_down [TOKEN_A; NOT_AN_ADDRESS] []
     = (Raise (InvalidSolanaAddress NOT_AN_ADDRESS), []).
Proof.
  assert (H1 : exists a, a ∈ [TOKEN_A; NOT_AN_ADDRESS] /\ is_solana_address a = false).
  { exists NOT_AN_ADDRESS. split; [|reflexivity].
    apply elem_of_cons. right. apply elem_of_cons. left. reflexivity. }
  refine (conj H1 _).
  destruct (@X7_fetch_prices_dex_validates_before_sending plain_runtime one_down
              [TOKEN_A; NOT_AN_ADDRESS] [] H1) as (bad & _ & _ & Hrun).
  rewrite Hrun. vm_compute in Hrun. injection Hrun as <-. reflexivity.
Defined.

Section DexSingle.
Context {rt : Runtime} (net : transport).

(** The table of a single valid address answered with a 200 whose pairs
    all parse. *)
Lemma fetch_prices_dex_single (address : string) (log : list request)
    (kv : list (string * json)) (pairs : list json) :
  is_solana_address address = true ->
  net (dex_request address) = {| status_code := 200; body := Some (JObj kv) |} ->
  assoc "pairs" kv = Some (JArr pairs) ->
  Forall pair_parses pairs ->
  DexScreener.fetch_prices_dex net [address] log
  = (Ret {[address := foldl store_pair ∅ pairs]}, (log ++ [dex_request address])%list).
Proof.
  intros Ha Hnet Hpairs Hall.
  unfold DexScreener.fetch_prices_dex, m_bind, m_lift.
  rewrite validate_token_addresses_ok by (try discriminate; repeat constructor; exact Ha).
  cbn [DexScreener._call_api_bulk DexScreener.call_each]. unfold m_bind.
  rewrite call_one_entry by (intros _ _; rewrite Hnet; discriminate).
  unfold bulk_entry. rewrite Ha, Hnet. cbn [status_code body Z.eqb Pos.eqb from_option id].
  cbn [dict_set m_ret]. unfold DexScreener.run_locals. cbn [m_for]. unfold m_bind.
  unfold DexScreener.price_token, m_try, m_bind, m_lift, py_contains.
  rewrite Hpairs. rewrite bool_decide_eq_true_2 by eauto.
  unfold token_reset, m_bind, m_get, set_tbl. cbn [py_getitem].
  rewrite Hpairs. cbn [py_iter tbl dex_id].
  destruct (price_pairs_parse address pairs
              {| tbl := <[address := ∅]> ∅; dex_id := None |} ∅ Hall)
    as (st' & Hrun & Htbl); [apply lookup_insert_eq|].
  rewrite Hrun. cbn [m_ret]. rewrite Htbl. cbn [tbl].
  rewrite insert_insert_eq, insert_empty. reflexivity.
Qed.

(** The venue of a [dexId] after a list of pairs that parse: the quote of
    the last pair with that [dexId]. *)
Lemma store_pairs_last (venues : gmap pykey (gmap pykey DexScreener.PriceInfo))
    (before after : list json) (pair d : json) (k s : pykey)
    (q : DexScreener.PriceInfo) :
  pair_entry pair = Ret (d, k, s, q) ->
  Forall (fun p => forall d' k' s' q', pair_entry p = Ret (d', k', s', q') -> k' <> k)
    after ->
  foldl store_pair venues (before ++ pair :: after) !! k = Some {[s := q]}.
Proof.
  intros He Hafter. rewrite foldl_app. cbn [foldl].
  generalize (foldl store_pair venues before). intros v0.
  assert (Hs : store_pair v0 pair !! k = Some {[s := q]}).
  { unfold store_pair. rewrite He. apply lookup_insert_eq. }
  revert Hs. generalize (store_pair v0 pair). intros v1.
  revert v1. induction Hafter as [|p rest Hp _ IH]; intros v1 Hs; [exact Hs|].
  cbn [foldl]. apply IH. unfold store_pair.
  destruct (pair_entry p) as [[[[d' k'] s'] q']|]; [|exact Hs].
  rewrite lookup_insert_ne; [exact Hs|]. exact (Hp d' k' s' q' eq_refl).
Qed.
End DexSingle.

(** X8.  When two pairs of a payload have the same [dexId], the later one
    replaces the earlier: for a valid address answered with a 200 whose
    pairs all parse, the venue of a [dexId] in the result of
    [fetch_prices_dex] holds one quote, that of the last pair with this
    [dexId], under the symbol of that pair. *)
Theorem X8_last_pair_of_a_venue_wins {rt : Runtime} (net : transport)
    (address : string) (log : list request) (kv : list (string * json))
    (before after : list json) (pair d : json) (k s : pykey)
    (q : DexScreener.PriceInfo) :
  is_solana_address address = true ->
  net (dex_request address) = {| status_code := 200; body := Some (JObj kv) |} ->
  assoc "pairs" kv = Some (JArr (before ++ pair :: after)) ->
  Forall pair_parses (before ++ pair :: after) ->
  pair_entry pair = Ret (d, k, s, q) ->
  Forall (fun p => forall d' k' s' q', pair_entry p = Ret (d', k', s', q') -> k' <> k)
    after ->
  exists t venues,
    DexScreener.fetch_prices_dex net [address] log
    = (Ret t, (log ++ [dex_request address])%list)
    /\ t !! address = Some venues
    /\ venues !! k = Some {[s := q]}.
Proof.
  intros Ha Hnet Hpairs Hall He Hafter.
  exists {[address := foldl store_pair ∅ (before ++ pair :: after)]},
    (foldl store_pair ∅ (before ++ pair :: after)).
  split; [|split].
  - exact (fetch_prices_dex_single net address log kv _ Ha Hnet Hpairs Hall).
  - apply lookup_singleton_eq.
  - exact (store_pairs_last ∅ before after pair d k s q He Hafter).
Qed.

Lemma X8_last_pair_of_a_venue_wins_witness :
  let first := example_pair (JStr "1.5") (JInt 10) "orca" in
  let last := example_pair (JStr "1.6") (JInt 50) "orca" in
  let q := {| DexScreener.value := Dec false 16 (-1);
              DexScreener.liquidity := Dec false 50 0 |} in
  is_solana_address TOKEN_A = true
  /\ Forall (@pair_parses plain_runtime) ([first] ++ last :: [])
  /\ @pair_entry plain_runtime last = Ret (JStr "orca", KStr "orca", KStr "TKA", q)
  /\ exists t venues,
       fst (@DexScreener.fetch_prices_dex plain_runtime (always 200 same_venue_payload)
              [TOKEN_A] []) = Ret t
       /\ t !! TOKEN_A = Some venues
       /\ venues !! KStr "orca" = Some {[KStr "TKA" := q]}.
Proof.
  intros first last q.
  assert (H1 : is_solana_address TOKEN_A = true) by reflexivity.
  assert (H2 : Forall (@pair_parses plain_runtime) ([first] ++ last :: [])).
  { repeat (apply List.Forall_cons; [eexists; vm_compute; reflexivity|]).
    apply List.Forall_nil. }
  assert (H3 : @pair_entry plain_runtime last
               = Ret (JStr "orca", KStr "orca", KStr "TKA", q)) by reflexivity.
  refine (conj H1 (conj H2 (conj H3 _))).
  destruct (@X8_last_pair_of_a_venue_wins plain_runtime (always 200 same_venue_payload)
              TOKEN_A [] [("pairs", JArr ([first] ++ last :: []))]
              [first] [] last (JStr "orca") (KStr "orca") (KStr "TKA") q
              H1 eq_refl eq_refl H2 H3 (List.Forall_nil _))
    as (t & venues & Hrun & Ht & Hv).
  exists t, venues. rewrite Hrun. auto.
Defined.

Lemma example_pairs_parse :
  Forall (@pair_parses plain_runtime)
    [example_pair (JStr "1.5") (JInt 10) "raydium"; example_pair (JStr "1.6") (JInt 50) "orca"].
Proof.
  repeat (apply List.Forall_cons; [eexists; vm_compute; reflexivity|]).
  apply List.Forall_nil.
Qed.

Lemma X5_fetch_prices_dex_keys_are_requested_witness :
  let t : table DexScreener.PriceInfo :=
    {[TOKEN_A := foldl (@store_pair plain_runtime) ∅
                   [example_pair (JStr "1.5") (JInt 10) "raydium";
                    example_pair (JStr "1.6") (JInt 50) "orca"]]} in
  fst (@DexScreener.fetch_prices_dex plain_runtime (always 200 example_payload)
         [TOKEN_A] []) = Ret t
  /\ is_Some (t !! TOKEN_A)
  /\ TOKEN_A ∈ [TOKEN_A].
Proof.
  intros t.
  assert (H1 : fst (@DexScreener.fetch_prices_dex plain_runtime
                      (always 200 example_payload) [TOKEN_A] []) = Ret t).
  { rewrite (@fetch_prices_dex_single plain_runtime (always 200 example_payload) TOKEN_A []
               [("pairs", JArr [example_pair (JStr "1.5") (JInt 10) "raydium";
                                example_pair (JStr "1.6") (JInt 50) "orca"])]
               _ eq_refl eq_refl eq_refl example_pairs_parse).
    reflexivity. }
  assert (H2 : is_Some (t !! TOKEN_A)).
  { unfold t. rewrite lookup_singleton_eq. eauto. }
  refine (conj H1 (conj H2 _)).
  exact (@X5_fetch_prices_dex_keys_are_requested plain_runtime
           (always 200 example_payload) [TOKEN_A] [] t TOKEN_A H1 H2).
Defined.

(** ** The overview of the DexScreener client for pairs that parse *)

Section DexOverviewSingle.
Context {rt : Runtime} (net : transport).

(** A pair that parses is stored in the overview under its venue and
    symbol. *)
Lemma overview_pair_parses (address : string) (pair d : json) (k s : pykey)
    (q : DexScreener.PriceInfo) (st : locals DexScreener.TokenOverview)
    (venues : gmap pykey (gmap pykey DexScreener.TokenOverview)) :
  pair_entry pair = Ret (d, k, s, q) ->
  tbl st !! address = Some venues ->
  DexScreener.overview_pair address pair st
  = (Ret tt, {| tbl := <[address := <[k := {[s := overview_of pair q]}]> venues]> (tbl st);
                dex_id := Some d |}).
Proof.
  intros He Hv. unfold pair_entry in He.
  destruct (py_get pair "priceUsd" zero_float) as [p|] eqn:E1; [|discriminate].
  cbn [oc_bind] in He.
  destruct (py_Decimal p) as [price|] eqn:E2; [|discriminate]. cbn [oc_bind] in He.
  destruct (py_get pair "liquidity" (JObj [])) as [l|] eqn:E3; [|discriminate].
  cbn [oc_bind] in He.
  destruct (py_get l "usd" zero_float) as [u|] eqn:E4; [|discriminate].
  cbn [oc_bind] in He.
  destruct (py_Decimal u) as [liq|] eqn:E5; [|discriminate]. cbn [oc_bind] in He.
  destruct (py_get pair "dexId" JNull) as [d'|] eqn:E6; [|discriminate].
  cbn [oc_bind] in He.
  destruct (py_key d') as [k'|] eqn:E7; [|discriminate]. cbn [oc_bind] in He.
  destruct (py_get pair "baseToken" (JObj [])) as [b|] eqn:E8; [|discriminate].
  cbn [oc_bind] in He.
  destruct (py_get b "symbol" JNull) as [sym|] eqn:E9; [|discriminate].
  cbn [oc_bind] in He.
  destruct (py_key sym) as [s'|] eqn:E10; [|discriminate]. cbn [oc_bind] in He.
  injection He as <- <- <- <-.
  unfold overview_of, pair_symbol. rewrite E8. cbn [oc_bind]. rewrite E9.
  cbn [DexScreener.value DexScreener.liquidity].
  unfold DexScreener.overview_pair, m_try, m_bind, m_lift.
  rewrite E1, E2, E8, E9, E3, E4, E5, E6.
  unfold assign_dex_id, venue_reset, venue_store, m_bind, m_get, m_lift, set_tbl.
  cbn [tbl dex_id]. rewrite Hv, E7. cbn [tbl dex_id].
  rewrite !lookup_insert_eq, E10. cbn [tbl dex_id].
  rewrite !insert_insert_eq, insert_empty. reflexivity.
Qed.

(** The loop of the overview over pairs that all parse never raises. *)
Lemma overview_pairs_parse (address : string) (pairs : list json)
    (st : locals DexScreener.TokenOverview)
    (venues : gmap pykey (gmap pykey DexScreener.TokenOverview)) :
  Forall pair_parses pairs ->
  tbl st !! address = Some venues ->
  exists st',
    m_for (DexScreener.overview_pair address) pairs st = (Ret tt, st')
    /\ tbl st' = <[address := foldl store_overview venues pairs]> (tbl st).
Proof.
  intros Hall. revert st venues.
  induction Hall as [|pair rest [[[[d k] s] q] He] _ IH]; intros st venues Hv.
  - exists st. split; [reflexivity|]. cbn [foldl]. symmetry. apply insert_id, Hv.
  - cbn [m_for]. unfold m_bind.
    rewrite (overview_pair_parses address pair d k s q st venues He Hv).
    destruct (IH {| tbl := <[address := <[k := {[s := overview_of pair q]}]> venues]> (tbl st);
                    dex_id := Some d |} (<[k := {[s := overview_of pair q]}]> venues))
      as (st' & Hrun & Htbl); [apply lookup_insert_eq|].
    exists st'. split; [exact Hrun|].
    assert (Hs : store_overview venues pair = <[k := {[s := overview_of pair q]}]> venues)
      by (unfold store_overview; rewrite He; reflexivity).
    rewrite Htbl. cbn [tbl foldl]. rewrite insert_insert_eq, Hs. reflexivity.
Qed.

(** The overview of a valid address answered with a 200 whose pairs, at
    least one, all parse. *)
Lemma fetch_token_overview_single (address : string) (log : list request)
    (kv : list (string * json)) (pairs : list json) :
  is_solana_address address = true ->
  net (dex_request address) = {| status_code := 200; body := Some (JObj kv) |} ->
  assoc "pairs" kv = Some (JArr pairs) ->
  pairs <> [] ->
  Forall pair_parses pairs ->
  DexScreener.fetch_token_overview net address log
  = (Ret (DexScreener.OvTable {[address := foldl store_overview ∅ pairs]}),
     (log ++ [dex_request address])%list).
Proof.
  intros Ha Hnet Hpairs Hne Hall.
  unfold DexScreener.fetch_token_overview, m_bind, m_lift.
  rewrite (validate_token_address_ok _ Ha), (call_api_valid net address log Ha).
  rewrite Hnet. unfold response_json, DexScreener._validate_response.
  cbn [status_code body Z.eqb Pos.eqb negb oc_bind py_get]. rewrite Hpairs.
  cbn [from_option id truthy].
  destruct pairs as [|pair rest]; [congruence|]. cbn [py_iter].
  unfold DexScreener.run_locals.
  destruct (overview_pairs_parse address (pair :: rest)
              {| tbl := {[address := ∅]}; dex_id := None |} ∅ Hall)
    as (st' & Hrun & Htbl); [apply lookup_singleton_eq|].
  rewrite Hrun. cbn [m_ret]. rewrite Htbl. cbn [tbl].
  rewrite insert_singleton_eq. reflexivity.
Qed.

(** The quotes of the venues of an overview are those of the prices. *)
Lemma store_overview_quotes (pairs : list json)
    (venues : gmap pykey (gmap pykey DexScreener.TokenOverview)) :
  venue_quotes (foldl store_overview venues pairs)
  = foldl store_pair (venue_quotes venues) pairs.
Proof.
  revert venues. induction pairs as [|pair rest IH]; intros venues; [reflexivity|].
  cbn [foldl]. rewrite IH. f_equal. unfold store_overview, store_pair.
  destruct (pair_entry pair) as [[[[d k] s] [v l]]|]; [|reflexivity].
  unfold venue_quotes. rewrite fmap_insert, map_fmap_singleton. reflexivity.
Qed.
End DexOverviewSingle.

(** X6, an instance: the overview of [TOKEN_A] over a transport that
    always answers with the example payload. *)
Lemma X6_overview_table_shape_witness :
  let t : table DexScreener.TokenOverview :=
    {[TOKEN_A := foldl (@store_overview plain_runtime) ∅
                   [example_pair (JStr "1.5") (JInt 10) "raydium";
                    example_pair (JStr "1.6") (JInt 50) "orca"]]} in
  fst (@DexScreener.fetch_token_overview plain_runtime (always 200 example_payload)
         TOKEN_A []) = Ret (DexScreener.OvTable t)
  /\ (forall a, is_Some (t !! a) <-> a = TOKEN_A)
  /\ table_values unavailable t.
Proof.
  intros t.
  assert (H1 : fst (@DexScreener.fetch_token_overview plain_runtime
                      (always 200 example_payload) TOKEN_A [])
               = Ret (DexScreener.OvTable t)).
  { rewrite (@fetch_token_overview_single plain_runtime (always 200 example_payload)
               TOKEN_A []
               [("pairs", JArr [example_pair (JStr "1.5") (JInt 10) "raydium";
                                example_pair (JStr "1.6") (JInt 50) "orca"])]
               _ eq_refl eq_refl eq_refl ltac:(discriminate) example_pairs_parse).
    reflexivity. }
  refine (conj H1 _).
  exact (@X6_overview_table_shape plain_runtime (always 200 example_payload)
           TOKEN_A [] t H1).
Defined.

(** X9.  The overview and the prices of one token agree.  For a valid
    address answered with a 200 whose [pairs], at least one, all parse,
    [fetch_token_overview] and [fetch_prices_dex] on that address alone
    both return a table, and sending the price and the liquidity of every
    overview to a quote turns the table of overviews into the table of
    prices. *)
Theorem X9_overview_agrees_with_prices {rt : Runtime} (net : transport)
    (address : string) (log : list request) (kv : list (string * json))
    (pairs : list json) :
  is_solana_address address = true ->
  net (dex_request address) = {| status_code := 200; body := Some (JObj kv) |} ->
  assoc "pairs" kv = Some (JArr pairs) ->
  pairs <> [] ->
  Forall pair_parses pairs ->
  exists (prices : table DexScreener.PriceInfo) (overview : table DexScreener.TokenOverview),
    fst (DexScreener.fetch_prices_dex net [address] log) = Ret prices
    /\ fst (DexScreener.fetch_token_overview net address log)
       = Ret (DexScreener.OvTable overview)
    /\ prices = table_quotes overview.
Proof.
  intros Ha Hnet Hpairs Hne Hall.
  exists {[address := foldl store_pair ∅ pairs]},
    {[address := foldl store_overview ∅ pairs]}.
  rewrite (fetch_prices_dex_single net address log kv pairs Ha Hnet Hpairs Hall).
  rewrite (fetch_token_overview_single net address log kv pairs Ha Hnet Hpairs Hne Hall).
  split; [reflexivity|]. split; [reflexivity|].
  unfold table_quotes. rewrite map_fmap_singleton, store_overview_quotes.
  unfold venue_quotes. rewrite fmap_empty. reflexivity.
Qed.

Lemma X9_overview_agrees_with_prices_witness :
  exists (prices : table DexScreener.PriceInfo) (overview : table DexScreener.TokenOverview),
    fst (@DexScreener.fetch_prices_dex plain_runtime (always 200 example_payload)
           [TOKEN_A] []) = Ret prices
    /\ fst (@DexScreener.fetch_token_overview plain_runtime (always 200 example_payload)
              TOKEN_A []) = Ret (DexScreener.OvTable overview)
    /\ prices = table_quotes overview.
Proof.
  exact (@X9_overview_agrees_with_prices plain_runtime (always 200 example_payload)
           TOKEN_A []
           [("pairs", JArr [example_pair (JStr "1.5") (JInt 10) "raydium";
                            example_pair (JStr "1.6") (JInt 50) "orca"])]
           _ eq_refl eq_refl eq_refl ltac:(discriminate) example_pairs_parse).
Defined.

(** ** Payloads whose pairs cannot be iterated *)

Section DexNullPairs.
Context {rt : Runtime} (net : transport).

(** What a turn of the loop of [_call_api_bulk] returns, when it returns. *)
Lemma call_one_returns (a : string) (responses responses' : list (string * json))
    (log log' : list request) :
  DexScreener.call_one net a responses log = (Ret responses', log') ->
  responses' = dict_set a (bulk_entry net a) responses.
Proof.
  destruct (is_solana_address a) eqn:Ha.
  - destruct (status_code (net (dex_request a)) =? 200)%Z eqn:Hs.
    + destruct (body (net (dex_request a))) as [j|] eqn:Hb.
      * rewrite call_one_entry by (intros _ _; rewrite Hb; discriminate).
        intros [= <- _]. reflexivity.
      * unfold DexScreener.call_one, m_try, m_bind, m_lift.
        rewrite (validate_token_address_ok a Ha), requests_get_eq.
        unfold DexScreener._validate_response, response_json.
        rewrite Hs, Hb. cbn. discriminate.
    + rewrite call_one_entry; [intros [= <- _]; reflexivity|].
      intros _ H200. rewrite H200 in Hs. discriminate.
  - rewrite call_one_entry; [intros [= <- _]; reflexivity|]. congruence.
Qed.

(** The dict [_call_api_bulk] builds, when it returns. *)
Lemma call_each_returns (addresses : list string) (responses responses' : list (string * json))
    (log log' : list request) :
  DexScreener.call_each net addresses responses log = (Ret responses', log') ->
  responses' = foldl (fun rs a => dict_set a (bulk_entry net a) rs) responses addresses.
Proof.
  revert responses log. induction addresses as [|a rest IH]; intros responses log.
  - cbn. intros [= <- _]. reflexivity.
  - cbn [DexScreener.call_each foldl]. unfold m_bind.
    destruct (DexScreener.call_one net a responses log) as [[rs|e] log1] eqn:Hone;
      [|discriminate].
    apply call_one_returns in Hone as ->. apply IH.
Qed.

(** The entry of a token whose [pairs] cannot be iterated is removed. *)
Lemma price_token_not_iterable (address : string) (kv : list (string * json))
    (pairs : json) (st : locals DexScreener.PriceInfo) :
  assoc "pairs" kv = Some pairs ->
  py_iter pairs = Raise TypeError ->
  DexScreener.price_token (address, JObj kv) st
  = (Ret tt, {| tbl := delete address (tbl st); dex_id := dex_id st |}).
Proof.
  intros Hpairs Hiter.
  unfold DexScreener.price_token, m_try, m_bind, m_lift, py_contains.
  rewrite Hpairs. rewrite bool_decide_eq_true_2 by eauto.
  unfold token_reset, m_bind, m_get, set_tbl. cbn [py_getitem].
  rewrite Hpairs, Hiter. cbn [is_Value_or_TypeError is_ValueError is_TypeError orb].
  unfold token_discard, m_bind, m_get, set_tbl. cbn [tbl dex_id].
  rewrite delete_insert_eq. reflexivity.
Qed.

(** Items for other tokens leave the entry of [address] as it is. *)
Lemma price_tokens_elsewhere (address : string) (items : list (string * json))
    (st : locals DexScreener.PriceInfo) :
  address ∉ map fst items ->
  tbl (snd (m_for DexScreener.price_token items st)) !! address = tbl st !! address.
Proof.
  revert st. induction items as [|item rest IH]; intros st Hnot; [reflexivity|].
  cbn [map] in Hnot. apply not_elem_of_cons in Hnot as [Hne Hrest].
  cbn [m_for]. unfold m_bind.
  pose proof (price_token_elsewhere item st address Hne) as Hstep.
  destruct (DexScreener.price_token item st) as [[[]|e] st1]; cbn [snd] in *.
  - rewrite (IH st1 Hrest). exact Hstep.
  - exact Hstep.
Qed.

(** In a dict where [address] has a payload whose [pairs] cannot be
    iterated, the loop of [fetch_prices_dex], when it ends, leaves no
    entry for it. *)
Lemma price_tokens_not_iterable (address : string) (kv : list (string * json))
    (pairs : json) (items : list (string * json)) (st st' : locals DexScreener.PriceInfo) :
  assoc "pairs" kv = Some pairs ->
  py_iter pairs = Raise TypeError ->
  NoDup (map fst items) ->
  assoc address items = Some (JObj kv) ->
  m_for DexScreener.price_token items st = (Ret tt, st') ->
  tbl st' !! address = None.
Proof.
  intros Hpairs Hiter. revert st.
  induction items as [|[k v] rest IH]; intros st Hnd Hassoc; [discriminate|].
  cbn [map fst] in Hnd. apply NoDup_cons in Hnd as [Hk Hnd].
  cbn [assoc] in Hassoc. cbn [m_for]. unfold m_bind.
  destruct (String.eqb address k) eqn:Heq.
  - apply String.eqb_eq in Heq as <-. injection Hassoc as ->.
    rewrite (price_token_not_iterable address kv pairs st Hpairs Hiter).
    intros Hrun.
    pose proof (price_tokens_elsewhere address rest
                  {| tbl := delete address (tbl st); dex_id := dex_id st |} Hk) as Hkeep.
    rewrite Hrun in Hkeep. cbn [snd tbl] in Hkeep. rewrite Hkeep.
    apply lookup_delete_eq.
  - destruct (DexScreener.price_token (k, v) st) as [[[]|e] st1]; [|discriminate].
    apply IH; assumption.
Qed.
End DexNullPairs.

(** X10.  A token whose payload has a [pairs] that cannot be iterated,
    [null] for one, is left out of the prices: [prices[address] = {}] is
    undone by the outer handler.  Whatever the other addresses of the
    list and their answers, when [fetch_prices_dex] returns a table, a
    valid address answered with a 200 and such a payload has no entry in
    it. *)
Theorem X10_pairs_not_iterable_drops_token {rt : Runtime} (net : transport)
    (token_addresses : list string) (log : list request) (address : string)
    (kv : list (string * json)) (pairs : json) (t : table DexScreener.PriceInfo) :
  address ∈ token_addresses ->
  net (dex_request address) = {| status_code := 200; body := Some (JObj kv) |} ->
  assoc "pairs" kv = Some pairs ->
  py_iter pairs = Raise TypeError ->
  fst (DexScreener.fetch_prices_dex net token_addresses log) = Ret t ->
  t !! address = None.
Proof.
  intros Hin Hnet Hpairs Hiter.
  unfold DexScreener.fetch_prices_dex, m_bind, m_lift.
  destruct (DexScreener._validate_token_addresses token_addresses) eqn:Hval;
    [|discriminate].
  assert (Ha : is_solana_address address = true).
  { destruct (is_solana_address address) eqn:Ha; [reflexivity|].
    destruct (first_invalid_split token_addresses) as (l1 & bad & l2 & -> & Hall & Hbad);
      [eauto|].
    rewrite validate_token_addresses_bad in Hval by assumption. discriminate. }
  destruct (DexScreener._call_api_bulk net token_addresses log) as [[responses|e] log1]
    eqn:Hbulk; [|discriminate].
  assert (Hresp : responses
                  = foldl (fun rs a => dict_set a (bulk_entry net a) rs) [] token_addresses).
  { destruct token_addresses as [|a0 rest]; [discriminate|].
    exact (call_each_returns net _ _ _ _ _ Hbulk). }
  unfold DexScreener.run_locals.
  destruct (m_for DexScreener.price_token responses {| tbl := ∅; dex_id := None |})
    as [[[]|e] st'] eqn:Hrun; [|discriminate].
  cbn [fst m_ret]. intros [= <-].
  refine (price_tokens_not_iterable address kv pairs responses _ st' Hpairs Hiter _ _ Hrun).
  - rewrite Hresp. apply bulk_fold_NoDup. constructor.
  - rewrite Hresp, bulk_fold_assoc. rewrite bool_decide_eq_true_2 by exact Hin.
    unfold bulk_entry. rewrite Ha, Hnet. reflexivity.
Qed.

Lemma X10_pairs_not_iterable_drops_token_witness :
  TOKEN_A ∈ [TOKEN_B; TOKEN_A]
  /\ fst (@DexScreener.fetch_prices_dex plain_runtime (always 200 null_pairs_payload)
            [TOKEN_B; TOKEN_A] []) = Ret ∅
  /\ (∅ : table DexScreener.PriceInfo) !! TOKEN_A = None.
Proof.
  assert (H1 : TOKEN_A ∈ [TOKEN_B; TOKEN_A]).
  { apply elem_of_cons. right. apply elem_of_cons. left. reflexivity. }
  assert (H2 : fst (@DexScreener.fetch_prices_dex plain_runtime
                      (always 200 null_pairs_payload) [TOKEN_B; TOKEN_A] []) = Ret ∅)
    by (vm_compute; reflexivity).
  refine (conj H1 (conj H2 _)).
  exact (@X10_pairs_not_iterable_drops_token plain_runtime (always 200 null_pairs_payload)
           [TOKEN_B; TOKEN_A] [] TOKEN_A [("pairs", JNull)] JNull ∅
           H1 eq_refl eq_refl eq_refl H2).
Defined.

(** ** An answer that is not JSON *)

Section DexNotJson.
Context {rt : Runtime} (net : transport).

Lemma call_each_app (l1 l2 : list string) (responses : list (string * json))
    (log : list request) :
  DexScreener.call_each net (l1 ++ l2)%list responses log
  = match DexScreener.call_each net l1 responses log with
    | (Ret responses', log') => DexScreener.call_each net l2 responses' log'
    | (Raise e, log') => (Raise e, log')
    end.
Proof.
  revert responses log. induction l1 as [|a rest IH]; intros responses log; [reflexivity|].
  cbn [app DexScreener.call_each]. unfold m_bind.
  destruct (DexScreener.call_one net a responses log) as [[rs|e] log1]; [apply IH|reflexivity].
Qed.

(** A valid address answered with a 200 that is not JSON: the decoding
    error is not one the loop handles. *)
Lemma call_one_not_json (a : string) (responses : list (string * json))
    (log : list request) :
  is_solana_address a = true ->
  status_code (net (dex_request a)) = 200%Z ->
  body (net (dex_request a)) = None ->
  DexScreener.call_one net a responses log
  = (Raise JSONDecodeError, (log ++ [dex_request a])%list).
Proof.
  intros Ha Hs Hb. unfold DexScreener.call_one, m_try, m_bind, m_lift.
  rewrite (validate_token_address_ok a Ha), requests_get_eq.
  unfold DexScreener._validate_response, response_json. rewrite Hs, Hb. reflexivity.
Qed.

Lemma call_api_bulk_not_json (l1 l2 : list string) (a : string) (log : list request) :
  (forall x, x ∈ l1 -> is_solana_address x = true ->
             status_code (net (dex_request x)) = 200%Z ->
             body (net (dex_request x)) <> None) ->
  is_solana_address a = true ->
  status_code (net (dex_request a)) = 200%Z ->
  body (net (dex_request a)) = None ->
  DexScreener._call_api_bulk net (l1 ++ a :: l2)%list log
  = (Raise JSONDecodeError, (log ++ bulk_requests l1 ++ [dex_request a])%list).
Proof.
  intros H1 Ha Hs Hb.
  assert (Hrun : DexScreener.call_each net (l1 ++ a :: l2)%list [] log
                 = (Raise JSONDecodeError,
                    (log ++ bulk_requests l1 ++ [dex_request a])%list)).
  { rewrite call_each_app, (call_each_any net l1 [] log H1).
    cbn [DexScreener.call_each]. unfold m_bind.
    rewrite (call_one_not_json a _ _ Ha Hs Hb), app_assoc. reflexivity. }
  destruct l1; exact Hrun.
Qed.
End DexNotJson.

(** X11.  One answer that is not JSON loses the whole bulk call.  When a
    valid address of the list is answered with a 200 whose body is not
    JSON, and the addresses before it raise nothing of the kind,
    [_call_api_bulk] raises the decoding error at that address: the
    requests of the valid addresses up to it have been sent, those of the
    addresses after it never are, and no dict is returned.
    [fetch_prices_dex] on a list of valid addresses fails the same
    way. *)
Theorem X11_non_json_answer_aborts_bulk {rt : Runtime} (net : transport)
    (l1 l2 : list string) (a : string) (log : list request) :
  (forall x, x ∈ l1 -> is_solana_address x = true ->
             status_code (net (dex_request x)) = 200%Z ->
             body (net (dex_request x)) <> None) ->
  is_solana_address a = true ->
  status_code (net (dex_request a)) = 200%Z ->
  body (net (dex_request a)) = None ->
  DexScreener._call_api_bulk net (l1 ++ a :: l2)%list log
  = (Raise JSONDecodeError, (log ++ bulk_requests l1 ++ [dex_request a])%list)
  /\ (Forall (fun x => is_solana_address x = true) (l1 ++ a :: l2)%list ->
      DexScreener.fetch_prices_dex net (l1 ++ a :: l2)%list log
      = (Raise JSONDecodeError, (log ++ map dex_request l1 ++ [dex_request a])%list)).
Proof.
  intros H1 Ha Hs Hb.
  pose proof (call_api_bulk_not_json net l1 l2 a log H1 Ha Hs Hb) as Hbulk.
  split; [exact Hbulk|]. intros Hall.
  unfold DexScreener.fetch_prices_dex, m_bind, m_lift.
  rewrite validate_token_addresses_ok by (try exact Hall; destruct l1; discriminate).
  rewrite Hbulk. rewrite bulk_requests_valid; [reflexivity|].
  apply Forall_app in Hall as [Hall _]. exact Hall.
Qed.

Lemma X11_non_json_answer_aborts_bulk_witness :
  (forall x, x ∈ [] -> is_solana_address x = true ->
             status_code (not_json (dex_request x)) = 200%Z ->
             body (not_json (dex_request x)) <> None)
  /\ @DexScreener._call_api_bulk plain_runtime not_json [TOKEN_A; TOKEN_B] []
     = (Raise JSONDecodeError, [dex_request TOKEN_A]).
Proof.
  assert (H1 : forall x, x ∈ [] -> is_solana_address x = true ->
                 status_code (not_json (dex_request x)) = 200%Z ->
                 body (not_json (dex_request x)) <> None)
    by (intros x Hx; inversion Hx).
  refine (conj H1 _).
  exact (proj1 (@X11_non_json_answer_aborts_bulk plain_runtime not_json [] [TOKEN_B]
                  TOKEN_A [] H1 eq_refl eq_refl eq_refl)).
Defined.

(** ** More on the BirdEye client *)

Section BirdEyeMore.
Context {rt : Runtime} (net : transport).

(** The keys of the table the loop of [fetch_prices] builds. *)
Lemma price_each_keys (data : json) (tokens : list string)
    (acc prices : gmap string BirdEye.PriceInfo) :
  BirdEye.price_each data tokens acc = Ret prices ->
  forall t, is_Some (prices !! t) <-> is_Some (acc !! t) \/ t ∈ tokens.
Proof.
  revert acc. induction tokens as [|t0 rest IH]; intros acc.
  - cbn. intros [= <-] t. split; [auto|]. intros [H|H]; [exact H|inversion H].
  - rewrite price_each_step.
    destruct (token_quote data t0) as [q|e]; [|discriminate]. cbn [oc_bind].
    intros Hrun t. rewrite (IH _ Hrun t), lookup_insert_is_Some, elem_of_cons.
    destruct (decide (t0 = t)) as [->|Hne]; [tauto|]. split.
    + intros [[->|[_ H]]|H]; [contradiction|auto|auto].
    + intros [H|[->|H]]; [auto|contradiction|auto].
Qed.

(** The first token whose entry does not convert ends the loop. *)
Lemma price_each_fails (data : json) (l1 l2 : list string) (bad : string) (e : exn)
    (acc : gmap string BirdEye.PriceInfo) :
  Forall (fun t => exists q, token_quote data t = Ret q) l1 ->
  token_quote data bad = Raise e ->
  BirdEye.price_each data (l1 ++ bad :: l2)%list acc = Raise e.
Proof.
  intros Hall Hbad. revert acc.
  induction Hall as [|t ts [q Hq] _ IH]; intros acc; cbn [app]; rewrite price_each_step.
  - rewrite Hbad. reflexivity.
  - rewrite Hq. cbn [oc_bind]. apply IH.
Qed.

(** The overview sends its request exactly when the address is valid. *)
Lemma birdeye_overview_sends (address : string) (w : BirdEye.world) :
  BirdEye.sent (snd (BirdEye.fetch_token_overview net address w))
  = (BirdEye.sent w ++ (if is_solana_address address then [overview_request address]
                        else []))%list
  /\ BirdEye.printed (snd (BirdEye.fetch_token_overview net address w))
     = BirdEye.printed w.
Proof.
  unfold BirdEye.fetch_token_overview.
  destruct (is_solana_address address); cbn [negb].
  - unfold m_bind. rewrite make_api_call_get. fold (overview_request address).
    destruct (_ =? 401)%Z; [split; reflexivity|].
    destruct (negb _); [split; reflexivity|].
    unfold m_lift.
    repeat match goal with
           | |- context [match ?c with Ret _ => _ | Raise _ => _ end] =>
               destruct c; [|split; reflexivity]
           end.
    split; reflexivity.
  - split; [symmetry; apply app_nil_r|reflexivity].
Qed.
End BirdEyeMore.

(** X12.  [fetch_prices] of the BirdEye client prints exactly when it
    returns.  When the call returns, its value is [None] and one table has
    been printed, whose keys are exactly the requested tokens; when it
    raises, nothing has been printed. *)
Theorem X12_fetch_prices_prints_iff_returns {rt : Runtime} (net : transport)
    (tokens : list string) (w : BirdEye.world) :
  match fst (BirdEye.fetch_prices net tokens w) with
  | Ret r =>
      r = None
      /\ exists prices,
           BirdEye.printed (snd (BirdEye.fetch_prices net tokens w))
           = (BirdEye.printed w ++ [prices])%list
           /\ forall t, is_Some (prices !! t) <-> t ∈ tokens
  | Raise _ =>
      BirdEye.printed (snd (BirdEye.fetch_prices net tokens w)) = BirdEye.printed w
  end.
Proof.
  destruct tokens as [|t0 ts]; [reflexivity|].
  unfold BirdEye.fetch_prices, m_bind. rewrite make_api_call_get.
  destruct (negb _); [reflexivity|].
  unfold m_lift. destruct (response_json _) as [data|]; [|reflexivity].
  destruct (BirdEye.price_each data (t0 :: ts) ∅) as [prices|e] eqn:Hrun; [|reflexivity].
  cbn. split; [reflexivity|]. exists prices. split; [reflexivity|].
  intros t. rewrite (price_each_keys data _ _ _ Hrun t), lookup_empty.
  split; [intros [[x Hx]|H]; [discriminate|exact H]|auto].
Qed.

(** X13.  One entry that does not convert loses the whole table.  On a
    200 response, when the entries of the tokens before [bad] convert and
    that of [bad] raises [e], [fetch_prices] raises [e] after its one
    request and prints nothing. *)
Theorem X13_fetch_prices_first_bad_entry_aborts {rt : Runtime} (net : transport)
    (l1 l2 : list string) (bad : string) (e : exn) (data : json) (w : BirdEye.world) :
  net (multi_price_request (l1 ++ bad :: l2)%list)
  = {| status_code := 200; body := Some data |} ->
  Forall (fun t => exists q, token_quote data t = Ret q) l1 ->
  token_quote data bad = Raise e ->
  BirdEye.fetch_prices net (l1 ++ bad :: l2)%list w
  = (Raise e,
     {| BirdEye.sent := (BirdEye.sent w ++ [multi_price_request (l1 ++ bad :: l2)%list])%list;
        BirdEye.printed := BirdEye.printed w |}).
Proof.
  intros Hnet Hall Hbad.
  pose proof (price_each_fails data l1 l2 bad e ∅ Hall Hbad) as Hrun.
  destruct (l1 ++ bad :: l2)%list as [|t0 ts] eqn:Hl; [destruct l1; discriminate|].
  unfold BirdEye.fetch_prices, m_bind. rewrite make_api_call_get.
  fold (multi_price_request (t0 :: ts)). rewrite Hnet. cbn [status_code].
  unfold m_lift, response_json. cbn [body negb Z.eqb Pos.eqb].
  rewrite Hrun. reflexivity.
Qed.

Lemma X13_fetch_prices_first_bad_entry_aborts_witness :
  Forall (fun t => exists q, @token_quote plain_runtime null_value_prices t = Ret q) [TOKEN_B]
  /\ @BirdEye.fetch_prices plain_runtime (always 200 null_value_prices)
       [TOKEN_B; TOKEN_A; TOKEN_B] fresh_world
     = (Raise TypeError,
        {| BirdEye.sent := [@multi_price_request plain_runtime [TOKEN_B; TOKEN_A; TOKEN_B]];
           BirdEye.printed := [] |}).
Proof.
  assert (H1 : Forall (fun t => exists q, @token_quote plain_runtime null_value_prices t
                                          = Ret q) [TOKEN_B]).
  { apply List.Forall_cons; [|apply List.Forall_nil]. eexists. vm_compute. reflexivity. }
  refine (conj H1 _).
  exact (@X13_fetch_prices_first_bad_entry_aborts plain_runtime (always 200 null_value_prices)
           [TOKEN_B] [TOKEN_B] TOKEN_A TypeError null_value_prices fresh_world
           eq_refl H1 eq_refl).
Defined.

(** X14.  A 200 answer without a usable [data] makes the overview of the
    BirdEye client fail with [AttributeError], not with [InvalidTokens]:
    for a valid address and a 200 whose payload is a dict in which [data]
    is absent, [null] or anything but a dict, the method raises
    [AttributeError] after its one request. *)
Theorem X14_birdeye_overview_without_data {rt : Runtime} (net : transport)
    (address : string) (w : BirdEye.world) (kv : list (string * json)) :
  is_solana_address address = true ->
  net (overview_request address) = {| status_code := 200; body := Some (JObj kv) |} ->
  (forall fields, default JNull (assoc "data" kv) <> JObj fields) ->
  BirdEye.fetch_token_overview net address w
  = (Raise AttributeError,
     {| BirdEye.sent := (BirdEye.sent w ++ [overview_request address])%list;
        BirdEye.printed := BirdEye.printed w |}).
Proof.
  intros Ha Hnet Hdata. unfold BirdEye.fetch_token_overview. rewrite Ha. cbn [negb].
  unfold m_bind. rewrite make_api_call_get. fold (overview_request address).
  rewrite Hnet. cbn [status_code Z.eqb Pos.eqb negb].
  unfold m_lift, response_json. cbn [body py_get].
  destruct (default JNull (assoc "data" kv)) as [| | | | | |fields] eqn:Hd;
    try reflexivity.
  exfalso. exact (Hdata fields eq_refl).
Qed.

Lemma X14_birdeye_overview_without_data_witness :
  is_solana_address TOKEN_A = true
  /\ (forall fields, default JNull (assoc "data" [("success", JBool true)]) <> JObj fields)
  /\ @BirdEye.fetch_token_overview plain_runtime
       (always 200 (JObj [("success", JBool true)])) TOKEN_A fresh_world
     = (Raise AttributeError,
        {| BirdEye.sent := [@overview_request plain_runtime TOKEN_A];
           BirdEye.printed := [] |}).
Proof.
  assert (H1 : is_solana_address TOKEN_A = true) by reflexivity.
  assert (H2 : forall fields,
             default JNull (assoc "data" [("success", JBool true)]) <> JObj fields)
    by discriminate.
  refine (conj H1 (conj H2 _)).
  exact (@X14_birdeye_overview_without_data plain_runtime
           (always 200 (JObj [("success", JBool true)])) TOKEN_A fresh_world
           [("success", JBool true)] H1 eq_refl H2).
Defined.

(** X15.  What the BirdEye client sends does not depend on the answer.
    [fetch_prices] sends one request, the multi-price one, for every
    non-empty list and none for the empty list; [fetch_token_overview]
    sends one request, the overview one, for a valid address and none
    otherwise, and prints nothing.  Every request is a GET that carries
    the three headers of the client. *)
Theorem X15_birdeye_requests {rt : Runtime} (net : transport)
    (tokens : list string) (address : string) (w : BirdEye.world) :
  BirdEye.sent (snd (BirdEye.fetch_prices net tokens w))
  = (BirdEye.sent w ++ match tokens with
                       | [] => []
                       | _ => [multi_price_request tokens]
                       end)%list
  /\ BirdEye.sent (snd (BirdEye.fetch_token_overview net address w))
     = (BirdEye.sent w ++ (if is_solana_address address then [overview_request address]
                           else []))%list
  /\ BirdEye.printed (snd (BirdEye.fetch_token_overview net address w))
     = BirdEye.printed w
  /\ verb (multi_price_request tokens) = "GET"
  /\ verb (overview_request address) = "GET"
  /\ headers (multi_price_request tokens) = BirdEye._headers
  /\ headers (overview_request address) = BirdEye._headers
  /\ map fst BirdEye._headers = ["accept"; "x-chain"; "X-API-KEY"].
Proof.
  split.
  - destruct tokens as [|t0 ts] eqn:Ht.
    + cbn. symmetry. apply app_nil_r.
    + apply fetch_prices_sends. discriminate.
  - destruct (birdeye_overview_sends net address w) as [Hs Hp].
    split; [exact Hs|]. split; [exact Hp|]. repeat split; reflexivity.
Qed.

(** ** More on the pool selector *)

Section SelectorMore.
Context {rt : Runtime}.

(** Whatever the pairs, a result of the loop is the entry it started
    from or a pair that passes the filter with a liquidity above the
    maximum it started from. *)
Lemma largest_from_result (token_pairs : list json) (address : string)
    (max_entry r : json) (max_liquidity_usd : spec_float) :
  DexScreener.largest_from token_pairs address max_entry max_liquidity_usd = Ret r ->
  r = max_entry
  \/ (r ∈ token_pairs
      /\ DexScreener.pool_matches r address = Ret true
      /\ exists g, DexScreener.liquidity_usd r = Ret g
                   /\ float_gt g max_liquidity_usd = true).
Proof.
  revert max_entry max_liquidity_usd.
  induction token_pairs as [|entry rest IH]; intros max_entry max_liquidity_usd.
  - cbn. intros [= <-]. left. reflexivity.
  - cbn [DexScreener.largest_from].
    destruct (DexScreener.pool_matches entry address) as [[|]|] eqn:Hm; [| |discriminate];
      cbn [oc_bind].
    + destruct (DexScreener.liquidity_usd entry) as [l|] eqn:Hl; [|discriminate].
      cbn [oc_bind]. destruct (float_gt l max_liquidity_usd) eqn:Hgt; intros Hrun.
      * destruct (IH _ _ Hrun) as [->|(Hin & Hp & g & Hg & Hlt)]; right.
        -- split; [apply elem_of_cons; auto|]. split; [exact Hm|]. eauto.
        -- split; [apply elem_of_cons; auto|]. split; [exact Hp|].
           exists g. split; [exact Hg|]. unfold float_gt in *.
           exact (float_lt_trans _ _ _ Hgt Hlt).
      * destruct (IH _ _ Hrun) as [->|(Hin & Hp & Hg)]; [left; reflexivity|right].
        split; [apply elem_of_cons; auto|]. split; assumption.
    + intros Hrun. destruct (IH _ _ Hrun) as [->|(Hin & Hp & Hg)]; [left; reflexivity|right].
      split; [apply elem_of_cons; auto|]. split; assumption.
Qed.

(** A pair the filter rejects can be taken out of the sequence. *)
Lemma largest_from_drop (l1 l2 : list json) (entry : json) (address : string)
    (max_entry : json) (max_liquidity_usd : spec_float) :
  DexScreener.pool_matches entry address = Ret false ->
  DexScreener.largest_from (l1 ++ entry :: l2)%list address max_entry max_liquidity_usd
  = DexScreener.largest_from (l1 ++ l2)%list address max_entry max_liquidity_usd.
Proof.
  intros Hm. revert max_entry max_liquidity_usd.
  induction l1 as [|e rest IH]; intros max_entry max_liquidity_usd; cbn [app].
  - apply largest_from_skip, Hm.
  - cbn [DexScreener.largest_from].
    destruct (DexScreener.pool_matches e address) as [[|]|]; cbn [oc_bind];
      [|apply IH|reflexivity].
    destruct (DexScreener.liquidity_usd e) as [l|]; cbn [oc_bind]; [|reflexivity].
    destruct (float_gt l max_liquidity_usd); apply IH.
Qed.

(** The first pair whose filter raises ends the loop. *)
Lemma largest_from_raises (l1 l2 : list json) (bad : json) (address : string) (e : exn)
    (max_entry : json) (max_liquidity_usd : spec_float) :
  Forall (pool_readable address) l1 ->
  DexScreener.pool_matches bad address = Raise e ->
  DexScreener.largest_from (l1 ++ bad :: l2)%list address max_entry max_liquidity_usd
  = Raise e.
Proof.
  intros Hall Hbad. revert max_entry max_liquidity_usd.
  induction Hall as [|x xs [Hx|[Hx [f Hf]]] _ IH]; intros max_entry max_liquidity_usd;
    cbn [app].
  - cbn [DexScreener.largest_from]. rewrite Hbad. reflexivity.
  - rewrite largest_from_skip by exact Hx. apply IH.
  - rewrite (largest_from_pass _ _ _ _ _ f Hx Hf).
    destruct (float_gt f max_liquidity_usd); apply IH.
Qed.

(** The filter on a pair of the target token that has no [quoteToken]. *)
Lemma pool_matches_without_quote (kv b : list (string * json)) (address : string) :
  assoc "baseToken" kv = Some (JObj b) ->
  assoc "address" b = Some (JStr address) ->
  assoc "quoteToken" kv = None ->
  DexScreener.pool_matches (JObj kv) address = Raise KeyError.
Proof.
  intros Hb Ha Hq. unfold DexScreener.pool_matches. cbn [py_get py_getitem].
  rewrite Hb. cbn [from_option id oc_bind py_get]. rewrite Ha.
  cbn [from_option id oc_bind json_is_str]. rewrite String.eqb_refl, Hq. reflexivity.
Qed.
End SelectorMore.

(** X16.  The selector requires a [quoteToken] of the pairs of the target
    token: a pair whose [baseToken.address] is the target and that has no
    [quoteToken] makes [find_largest_pool_with_sol] raise [KeyError],
    whatever pool the readable pairs before it have given and whatever
    follows. *)
Theorem X16_selector_needs_quoteToken {rt : Runtime} (l1 l2 : list json)
    (kv b : list (string * json)) (address : string) :
  Forall (pool_readable address) l1 ->
  assoc "baseToken" kv = Some (JObj b) ->
  assoc "address" b = Some (JStr address) ->
  assoc "quoteToken" kv = None ->
  DexScreener.find_largest_pool_with_sol (l1 ++ JObj kv :: l2)%list address
  = Raise KeyError.
Proof.
  intros Hall Hb Ha Hq. unfold DexScreener.find_largest_pool_with_sol.
  apply largest_from_raises; [exact Hall|].
  exact (pool_matches_without_quote kv b address Hb Ha Hq).
Qed.

Lemma X16_selector_needs_quoteToken_witness :
  Forall (@pool_readable plain_runtime TOKEN_A) [example_pair JNull (JInt 10) "raydium"]
  /\ @DexScreener.find_largest_pool_with_sol plain_runtime
       [example_pair JNull (JInt 10) "raydium";
        JObj [("baseToken", JObj [("address", JStr TOKEN_A)])];
        example_pair JNull (JInt 50) "orca"] TOKEN_A
     = Raise KeyError.
Proof.
  assert (H1 : Forall (@pool_readable plain_runtime TOKEN_A)
                 [example_pair JNull (JInt 10) "raydium"]).
  { apply List.Forall_cons; [|apply List.Forall_nil].
    right. split; [reflexivity|]. eexists. vm_compute. reflexivity. }
  refine (conj H1 _).
  exact (@X16_selector_needs_quoteToken plain_runtime
           [example_pair JNull (JInt 10) "raydium"] [example_pair JNull (JInt 50) "orca"]
           [("baseToken", JObj [("address", JStr TOKEN_A)])] [("address", JStr TOKEN_A)]
           TOKEN_A H1 eq_refl eq_refl eq_refl).
Defined.

(** X17.  Whatever the pairs, readable or not, a value that
    [find_largest_pool_with_sol] returns is the empty dict or one of the
    pairs, and then a pair that passes the filter and whose liquidity, as
    a float, is above [-1]: a pair the filter rejects, or one whose
    liquidity is a NaN, is never returned. *)
Theorem X17_selector_returns_a_passing_pair {rt : Runtime} (token_pairs : list json)
    (address : string) (r : json) :
  DexScreener.find_largest_pool_with_sol token_pairs address = Ret r ->
  r = JObj []
  \/ (r ∈ token_pairs
      /\ DexScreener.pool_matches r address = Ret true
      /\ exists g, DexScreener.liquidity_usd r = Ret g
                   /\ float_gt g DexScreener.minus_one = true
                   /\ g <> S754_nan).
Proof.
  intros Hrun. destruct (largest_from_result _ _ _ _ _ Hrun)
    as [->|(Hin & Hp & g & Hg & Hgt)]; [left; reflexivity|right].
  split; [exact Hin|]. split; [exact Hp|]. exists g. split; [exact Hg|].
  split; [exact Hgt|]. intros ->. discriminate.
Qed.

Lemma X17_selector_returns_a_passing_pair_witness :
  let pairs := [example_pair JNull (JInt 10) "raydium";
                example_pair JNull (JInt 50) "orca"] in
  @DexScreener.find_largest_pool_with_sol plain_runtime pairs TOKEN_A
  = Ret (example_pair JNull (JInt 50) "orca")
  /\ (example_pair JNull (JInt 50) "orca" = JObj []
      \/ example_pair JNull (JInt 50) "orca" ∈ pairs).
Proof.
  intros pairs.
  assert (H1 : @DexScreener.find_largest_pool_with_sol plain_runtime pairs TOKEN_A
               = Ret (example_pair JNull (JInt 50) "orca")) by (vm_compute; reflexivity).
  refine (conj H1 _).
  destruct (@X17_selector_returns_a_passing_pair plain_runtime pairs TOKEN_A _ H1)
    as [H|[H _]]; [left; exact H|right; exact H].
Defined.

(** X18.  A pair the filter rejects has no effect on the selection,
    wherever it stands: taking it out of the sequence leaves the outcome
    of [find_largest_pool_with_sol] as it is, value or exception. *)
Theorem X18_rejected_pair_has_no_effect {rt : Runtime} (l1 l2 : list json)
    (entry : json) (address : string) :
  DexScreener.pool_matches entry address = Ret false ->
  DexScreener.find_largest_pool_with_sol (l1 ++ entry :: l2)%list address
  = DexScreener.find_largest_pool_with_sol (l1 ++ l2)%list address.
Proof.
  intros Hm. unfold DexScreener.find_largest_pool_with_sol.
  apply largest_from_drop, Hm.
Qed.

Lemma X18_rejected_pair_has_no_effect_witness :
  let other := JObj [("baseToken", JObj [("address", JStr TOKEN_B)]);
                     ("liquidity", JObj [("usd", JStr "a lot")])] in
  @DexScreener.pool_matches plain_runtime other TOKEN_A = Ret false
  /\ @DexScreener.find_largest_pool_with_sol plain_runtime
       [example_pair JNull (JInt 10) "raydium"; other] TOKEN_A
     = @DexScreener.find_largest_pool_with_sol plain_runtime
         [example_pair JNull (JInt 10) "raydium"] TOKEN_A.
Proof.
  intros other.
  assert (H1 : @DexScreener.pool_matches plain_runtime other TOKEN_A = Ret false)
    by reflexivity.
  refine (conj H1 _).
  exact (@X18_rejected_pair_has_no_effect plain_runtime
           [example_pair JNull (JInt 10) "raydium"] [] other TOKEN_A H1).
Defined.

(** ** Pairs that do not convert *)

Section DexFailingPairs.
Context {rt : Runtime} (net : transport).

Lemma m_for_app {St A : Type} (body : A -> M St unit) (l1 l2 : list A) (st : St) :
  m_for body (l1 ++ l2)%list st
  = match m_for body l1 st with
    | (Ret _, st') => m_for body l2 st'
    | (Raise e, st') => (Raise e, st')
    end.
Proof.
  revert st. induction l1 as [|x rest IH]; intros st; [reflexivity|].
  cbn [app m_for]. unfold m_bind.
  destruct (body x st) as [[[]|e] st1]; [apply IH|reflexivity].
Qed.

(** The prices of a single valid address answered with a 200 whose
    [pairs] is a list, in terms of the loop over the pairs. *)
Lemma fetch_prices_dex_one (address : string) (log : list request)
    (kv : list (string * json)) (pairs : list json) :
  is_solana_address address = true ->
  net (dex_request address) = {| status_code := 200; body := Some (JObj kv) |} ->
  assoc "pairs" kv = Some (JArr pairs) ->
  DexScreener.fetch_prices_dex net [address] log
  = (match m_for (DexScreener.price_pair address) pairs
             {| tbl := {[address := ∅]}; dex_id := None |} with
     | (Ret _, st) => Ret (tbl st)
     | (Raise e, st) =>
         if is_Value_or_TypeError e then Ret (delete address (tbl st)) else Raise e
     end, (log ++ [dex_request address])%list).
Proof.
  intros Ha Hnet Hpairs.
  unfold DexScreener.fetch_prices_dex, m_bind, m_lift.
  rewrite validate_token_addresses_ok by (try discriminate; repeat constructor; exact Ha).
  cbn [DexScreener._call_api_bulk DexScreener.call_each]. unfold m_bind.
  rewrite call_one_entry by (intros _ _; rewrite Hnet; discriminate).
  unfold bulk_entry. rewrite Ha, Hnet. cbn [status_code body Z.eqb Pos.eqb from_option id].
  cbn [dict_set m_ret]. unfold DexScreener.run_locals. cbn [m_for]. unfold m_bind.
  unfold DexScreener.price_token, m_try, m_bind, m_lift, py_contains.
  rewrite Hpairs. rewrite bool_decide_eq_true_2 by eauto.
  unfold token_reset, m_bind, m_get, set_tbl. cbn [py_getitem].
  rewrite Hpairs. cbn [py_iter tbl dex_id]. rewrite insert_empty.
  destruct (m_for (DexScreener.price_pair address) pairs _) as [[[]|e] st]; [reflexivity|].
  destruct (is_Value_or_TypeError e); reflexivity.
Qed.

(** A pair whose price does not convert, with an error the inner handler
    takes: the handler reads [dex_id] as the pairs before left it. *)
Lemma price_pair_fails (address : string) (pair p : json) (e : exn)
    (st : locals DexScreener.PriceInfo) :
  py_get pair "priceUsd" zero_float = Ret p ->
  py_Decimal p = Raise e ->
  is_Value_or_TypeError e = true ->
  DexScreener.price_pair address pair st
  = match dex_id st with
    | None => (Raise UnboundLocalError, st)
    | Some d => if truthy d then venue_delete address d st else (Ret tt, st)
    end.
Proof.
  intros Hp He Hcaught. unfold DexScreener.price_pair, m_try, m_bind, m_lift.
  rewrite Hp, He. unfold drop_venue. rewrite Hcaught.
  unfold m_bind, read_dex_id. destruct (dex_id st) as [d|]; [|reflexivity].
  destruct (truthy d); reflexivity.
Qed.

Lemma pair_entry_key (pair d : json) (k s : pykey) (q : DexScreener.PriceInfo) :
  pair_entry pair = Ret (d, k, s, q) -> py_key d = Ret k.
Proof.
  unfold pair_entry.
  repeat match goal with
         | |- context [oc_bind ?c _] =>
             let E := fresh "E" in destruct c eqn:E; [|discriminate]; cbn [oc_bind]
         end.
  intros [= <- <- <- <-]. assumption.
Qed.

(** Pairs of other venues leave the venue of [k] as it is. *)
Lemma store_pairs_other (venues : gmap pykey (gmap pykey DexScreener.PriceInfo))
    (pairs : list json) (k : pykey) :
  Forall (fun p => forall d' k' s' q', pair_entry p = Ret (d', k', s', q') -> k' <> k)
    pairs ->
  foldl store_pair venues pairs !! k = venues !! k.
Proof.
  intros Hall. revert venues.
  induction Hall as [|p rest Hp _ IH]; intros venues; [reflexivity|].
  cbn [foldl]. rewrite IH. unfold store_pair.
  destruct (pair_entry p) as [[[[d' k'] s'] q']|]; [|reflexivity].
  apply lookup_insert_ne. exact (Hp d' k' s' q' eq_refl).
Qed.
End DexFailingPairs.

(** X19.  A pair whose price does not convert removes the venue of the
    pair before it.  The handler of the inner [try] deletes
    [prices[address][dex_id]], and [dex_id] is still that of the previous
    pair: for a valid address answered with a 200 whose pairs parse but
    for one, whose [priceUsd] raises a [ValueError] or a [TypeError] in
    [Decimal], the venue of the pair just before it, which had parsed
    with a [dexId] that is not falsy, is missing from the prices unless a
    later pair brings it back. *)
Theorem X19_failed_pair_removes_previous_venue {rt : Runtime} (net : transport)
    (address : string) (log : list request) (kv : list (string * json))
    (before after : list json) (good bad d p : json) (k s : pykey)
    (q : DexScreener.PriceInfo) (e : exn) :
  is_solana_address address = true ->
  net (dex_request address) = {| status_code := 200; body := Some (JObj kv) |} ->
  assoc "pairs" kv = Some (JArr (before ++ good :: bad :: after)) ->
  Forall pair_parses before ->
  pair_entry good = Ret (d, k, s, q) ->
  truthy d = true ->
  py_get bad "priceUsd" zero_float = Ret p ->
  py_Decimal p = Raise e ->
  is_Value_or_TypeError e = true ->
  Forall pair_parses after ->
  Forall (fun x => forall d' k' s' q', pair_entry x = Ret (d', k', s', q') -> k' <> k)
    after ->
  exists t venues,
    DexScreener.fetch_prices_dex net [address] log
    = (Ret t, (log ++ [dex_request address])%list)
    /\ t !! address = Some venues
    /\ venues !! k = None.
Proof.
  intros Ha Hnet Hpairs Hbefore Hgood Hd Hp He Hcaught Hafter Hother.
  rewrite (fetch_prices_dex_one net address log kv _ Ha Hnet Hpairs).
  rewrite m_for_app.
  destruct (price_pairs_parse address before
              {| tbl := {[address := ∅]}; dex_id := None |} ∅ Hbefore)
    as (st1 & Hrun1 & Htbl1); [apply lookup_singleton_eq|].
  rewrite Hrun1. cbn [m_for]. unfold m_bind.
  assert (Hv1 : tbl st1 !! address = Some (foldl store_pair ∅ before))
    by (rewrite Htbl1; apply lookup_insert_eq).
  rewrite (price_pair_parses address good d k s q st1 (foldl store_pair ∅ before) Hgood Hv1).
  rewrite (price_pair_fails address bad p e _ Hp He Hcaught). cbn [dex_id].
  rewrite Hd. unfold venue_delete, m_bind, m_get, m_lift, set_tbl. cbn [tbl dex_id].
  rewrite lookup_insert_eq, (pair_entry_key good d k s q Hgood), lookup_insert_eq.
  rewrite insert_insert_eq.
  set (venues := delete k (<[k := {[s := q]}]> (foldl store_pair ∅ before))).
  match goal with
  | |- context [m_for _ after ?st] =>
      destruct (price_pairs_parse address after st venues Hafter)
        as (st2 & Hrun2 & Htbl2); [apply lookup_insert_eq|]
  end.
  rewrite Hrun2. exists (tbl st2), (foldl store_pair venues after).
  split; [reflexivity|]. split.
  - rewrite Htbl2. apply lookup_insert_eq.
  - rewrite (store_pairs_other _ after k Hother). apply lookup_delete_eq.
Qed.

Lemma X19_failed_pair_removes_previous_venue_witness :
  let good := example_pair (JStr "1.6") (JInt 50) "orca" in
  let bad := example_pair JNull (JInt 10) "raydium" in
  @pair_entry plain_runtime good
  = Ret (JStr "orca", KStr "orca", KStr "TKA",
         {| DexScreener.value := Dec false 16 (-1);
            DexScreener.liquidity := Dec false 50 0 |})
  /\ exists t venues,
       @DexScreener.fetch_prices_dex plain_runtime (always 200 stale_payload) [TOKEN_A] []
       = (Ret t, [dex_request TOKEN_A])
       /\ t !! TOKEN_A = Some venues
       /\ venues !! KStr "orca" = None.
Proof.
  intros good bad.
  assert (H1 : @pair_entry plain_runtime good
               = Ret (JStr "orca", KStr "orca", KStr "TKA",
                      {| DexScreener.value := Dec false 16 (-1);
                         DexScreener.liquidity := Dec false 50 0 |})) by reflexivity.
  refine (conj H1 _).
  exact (@X19_failed_pair_removes_previous_venue plain_runtime (always 200 stale_payload)
           TOKEN_A [] [("pairs", JArr [good; bad])] [] [] good bad
           (JStr "orca") JNull (KStr "orca") (KStr "TKA") _ TypeError
           eq_refl eq_refl eq_refl (List.Forall_nil _) H1 eq_refl eq_refl eq_refl eq_refl
           (List.Forall_nil _) (List.Forall_nil _)).
Defined.

(** X20.  When the first pair of the first token does not convert, the
    call fails with [UnboundLocalError]: the handler of the inner [try]
    reads [dex_id] before any pair has assigned it, and the outer handler
    does not take that error.  For a valid address answered with a 200
    whose first pair has a [priceUsd] that raises a [ValueError] or a
    [TypeError] in [Decimal], [fetch_prices_dex] on that address raises
    [UnboundLocalError], whatever the other pairs are. *)
Theorem X20_first_pair_failure_is_unbound_local {rt : Runtime} (net : transport)
    (address : string) (log : list request) (kv : list (string * json))
    (bad p : json) (rest : list json) (e : exn) :
  is_solana_address address = true ->
  net (dex_request address) = {| status_code := 200; body := Some (JObj kv) |} ->
  assoc "pairs" kv = Some (JArr (bad :: rest)) ->
  py_get bad "priceUsd" zero_float = Ret p ->
  py_Decimal p = Raise e ->
  is_Value_or_TypeError e = true ->
  DexScreener.fetch_prices_dex net [address] log
  = (Raise UnboundLocalError, (log ++ [dex_request address])%list).
Proof.
  intros Ha Hnet Hpairs Hp He Hcaught.
  rewrite (fetch_prices_dex_one net address log kv _ Ha Hnet Hpairs).
  cbn [m_for]. unfold m_bind.
  rewrite (price_pair_fails address bad p e _ Hp He Hcaught). reflexivity.
Qed.

Lemma X20_first_pair_failure_is_unbound_local_witness :
  is_solana_address TOKEN_A = true
  /\ @DexScreener.fetch_prices_dex plain_runtime (always 200 unbound_payload) [TOKEN_A] []
     = (Raise UnboundLocalError, [dex_request TOKEN_A]).
Proof.
  assert (H1 : is_solana_address TOKEN_A = true) by reflexivity.
  refine (conj H1 _).
  exact (@X20_first_pair_failure_is_unbound_local plain_runtime (always 200 unbound_payload)
           TOKEN_A [] [("pairs", JArr [example_pair JNull (JInt 10) "raydium"])]
           (example_pair JNull (JInt 10) "raydium") JNull [] TypeError
           H1 eq_refl eq_refl eq_refl eq_refl eq_refl).
Defined.

(** X21.  A price that [Decimal] rejects with another error than
    [ValueError] and [TypeError], as it does for a string that is no
    number, which raises [InvalidOperation], is taken by neither handler:
    for a valid address answered with a 200 whose pairs parse up to a
    pair with such a [priceUsd], [fetch_prices_dex] raises that error. *)
Theorem X21_unhandled_price_error_escapes {rt : Runtime} (net : transport)
    (address : string) (log : list request) (kv : list (string * json))
    (before after : list json) (bad p : json) (e : exn) :
  is_solana_address address = true ->
  net (dex_request address) = {| status_code := 200; body := Some (JObj kv) |} ->
  assoc "pairs" kv = Some (JArr (before ++ bad :: after)) ->
  Forall pair_parses before ->
  py_get bad "priceUsd" zero_float = Ret p ->
  py_Decimal p = Raise e ->
  is_Value_or_TypeError e = false ->
  DexScreener.fetch_prices_dex net [address] log
  = (Raise e, (log ++ [dex_request address])%list).
Proof.
  intros Ha Hnet Hpairs Hbefore Hp He Hfree.
  rewrite (fetch_prices_dex_one net address log kv _ Ha Hnet Hpairs).
  rewrite m_for_app.
  destruct (price_pairs_parse address before
              {| tbl := {[address := ∅]}; dex_id := None |} ∅ Hbefore)
    as (st1 & Hrun1 & _); [apply lookup_singleton_eq|].
  rewrite Hrun1. cbn [m_for]. unfold m_bind.
  unfold DexScreener.price_pair, m_try, m_bind, m_lift. rewrite Hp, He.
  unfold drop_venue. rewrite Hfree. cbn [m_raise]. rewrite Hfree. reflexivity.
Qed.

Lemma X21_unhandled_price_error_escapes_witness :
  let good := example_pair (JStr "1.6") (JInt 50) "orca" in
  let bad := example_pair (JStr "n/a") (JInt 10) "raydium" in
  Forall (@pair_parses plain_runtime) [good]
  /\ @DexScreener.fetch_prices_dex plain_runtime
       (always 200 (JObj [("pairs", JArr [good; bad])])) [TOKEN_A] []
     = (Raise InvalidOperation, [dex_request TOKEN_A]).
Proof.
  intros good bad.
  assert (H1 : Forall (@pair_parses plain_runtime) [good]).
  { apply List.Forall_cons; [eexists; vm_compute; reflexivity|apply List.Forall_nil]. }
  refine (conj H1 _).
  exact (@X21_unhandled_price_error_escapes plain_runtime
           (always 200 (JObj [("pairs", JArr [good; bad])])) TOKEN_A []
           [("pairs", JArr [good; bad])] [good] [] bad (JStr "n/a") InvalidOperation
           eq_refl eq_refl eq_refl H1 eq_refl eq_refl eq_refl).
Defined.

(** X22.  The failures of the DexScreener [fetch_token_overview] before
    it reads the payload: an address that is not valid raises
    [InvalidSolanaAddress] and nothing is sent; a valid one has its one
    request sent, and then a status other than 200 raises
    [InvalidTokens] without a message and a 200 whose body is not JSON
    raises the decoding error. *)
Theorem X22_dex_overview_failures {rt : Runtime} (net : transport) (address : string)
    (log : list request) :
  match is_solana_address address,
        (status_code (net (dex_request address)) =? 200)%Z,
        body (net (dex_request address)) with
  | false, _, _ =>
      DexScreener.fetch_token_overview net address log
      = (Raise (InvalidSolanaAddress address), log)
  | true, false, _ =>
      DexScreener.fetch_token_overview net address log
      = (Raise (InvalidTokens None), (log ++ [dex_request address])%list)
  | true, true, None =>
      DexScreener.fetch_token_overview net address log
      = (Raise JSONDecodeError, (log ++ [dex_request address])%list)
  | true, true, Some _ =>
      snd (DexScreener.fetch_token_overview net address log)
      = (log ++ [dex_request address])%list
  end.
Proof.
  destruct (is_solana_address address) eqn:Ha.
  - unfold DexScreener.fetch_token_overview, m_bind, m_lift.
    rewrite (validate_token_address_ok _ Ha), (call_api_valid net address log Ha).
    unfold DexScreener._validate_response, response_json.
    destruct (status_code (net (dex_request address)) =? 200)%Z; cbn [negb oc_bind];
      [|reflexivity].
    destruct (body (net (dex_request address))) as [j|]; [|reflexivity].
    destruct (py_get j "pairs" JNull) as [pairs|]; [|reflexivity].
    destruct (truthy pairs); [|reflexivity].
    destruct (py_iter pairs) as [items|]; [|reflexivity].
    unfold DexScreener.run_locals.
    destruct (m_for _ items _) as [[[]|e] st]; reflexivity.
  - apply dex_overview_invalid, Ha.
Qed.

(** ** The claims on the pool selector and on the statuses of BirdEye *)

Section SelectorFilter.
Context {rt : Runtime}.


End SelectorFilter.




(** C6, amended.  In the overview of the BirdEye client a 401 raises
    [InvalidTokens] with the dict [{"CODE": 401, "message": "Token is not
    Authorized"}] and every other status but 200 raises
    [InvalidTokens("API call was unsuccessful")], whatever the other
    operation is answered; the two errors differ; in [fetch_prices] every
    status but 200, the 401 included, raises the latter.  Neither carries
    the status code of the response. *)
Theorem C6_unauthorized_in_overview_only {rt : Runtime} (net : transport)
    (address : string) (tokens : list string) (w : BirdEye.world) :
  (is_solana_address address = true ->
   status_code (net (overview_request address)) <> 200%Z ->
   BirdEye.fetch_token_overview net address w
   = (Raise (if (status_code (net (overview_request address)) =? 401)%Z
             then InvalidTokens (Some BirdEye.unauthorized)
             else unsuccessful),
      {| BirdEye.sent := (BirdEye.sent w ++ [overview_request address])%list;
         BirdEye.printed := BirdEye.printed w |}))
  /\ InvalidTokens (Some BirdEye.unauthorized) <> unsuccessful
  /\ (tokens <> [] ->
      status_code (net (multi_price_request tokens)) <> 200%Z ->
      BirdEye.fetch_prices net tokens w
      = (Raise unsuccessful,
         {| BirdEye.sent := (BirdEye.sent w ++ [multi_price_request tokens])%list;
            BirdEye.printed := BirdEye.printed w |})).
Proof.
  split; [|split; [discriminate|]].
  - intros Ha Hov. unfold BirdEye.fetch_token_overview, m_bind. rewrite Ha. cbn [negb].
    rewrite make_api_call_get. fold (overview_request address).
    destruct (Z.eqb_spec (status_code (net (overview_request address))) 401);
      [reflexivity|].
    destruct (Z.eqb_spec (status_code (net (overview_request address))) 200);
      [contradiction|reflexivity].
  - intros Hne Hmp. destruct tokens as [|t ts]; [congruence|].
    unfold BirdEye.fetch_prices, m_bind. rewrite make_api_call_get.
    fold (multi_price_request (t :: ts)).
    destruct (Z.eqb_spec (status_code (net (multi_price_request (t :: ts)))) 200);
      [contradiction|reflexivity].
Qed.

Lemma C6_unauthorized_in_overview_only_witness :
  is_solana_address TOKEN_A = true
  /\ status_code (overview_unauthorized (@overview_request plain_runtime TOKEN_A)) <> 200%Z
  /\ status_code (overview_unauthorized (@multi_price_request plain_runtime [TOKEN_A]))
     = 200%Z
  /\ fst (@BirdEye.fetch_token_overview plain_runtime overview_unauthorized TOKEN_A
            fresh_world)
     = Raise (InvalidTokens (Some BirdEye.unauthorized))
  /\ [TOKEN_A] <> []
  /\ status_code (always 401 JNull (@multi_price_request plain_runtime [TOKEN_A])) <> 200%Z
  /\ fst (@BirdEye.fetch_prices plain_runtime (always 401 JNull) [TOKEN_A] fresh_world)
     = Raise unsuccessful.
Proof.
  assert (H1 : is_solana_address TOKEN_A = true) by reflexivity.
  assert (H2 : status_code (overview_unauthorized (@overview_request plain_runtime TOKEN_A))
               <> 200%Z) by discriminate.
  assert (H3 : status_code (overview_unauthorized
                              (@multi_price_request plain_runtime [TOKEN_A])) = 200%Z)
    by reflexivity.
  assert (H4 : [TOKEN_A] <> []) by discriminate.
  assert (H5 : status_code (always 401 JNull (@multi_price_request plain_runtime [TOKEN_A]))
               <> 200%Z) by discriminate.
  pose proof (proj1 (@C6_unauthorized_in_overview_only plain_runtime overview_unauthorized
                       TOKEN_A [TOKEN_A] fresh_world) H1 H2) as Hov.
  pose proof (proj2 (proj2 (@C6_unauthorized_in_overview_only plain_runtime
                              (always 401 JNull) TOKEN_A [TOKEN_A] fresh_world)) H4 H5)
    as Hmp.
  refine (conj H1 (conj H2 (conj H3 (conj _ (conj H4 (conj H5 _)))))).
  - rewrite Hov. reflexivity.
  - rewrite Hmp. reflexivity.
Defined.

(** ** The claims on the bulk call and on the defaults *)

Section DexResults.
Context {rt : Runtime} (net : transport).

(** A well-formed pair is one the [try] block reads to the end. *)
Lemma well_formed_pair_entry (pair : json) (k s : pykey) (q : DexScreener.PriceInfo) :
  well_formed_pair pair k s q -> exists d, pair_entry pair = Ret (d, k, s, q).
Proof.
  intros (kv & -> & Hp & Hl & Hk & Hs). destruct q as [price liq].
  cbn [DexScreener.value DexScreener.liquidity] in *.
  exists (default JNull (assoc "dexId" kv)).
  unfold pair_entry. cbn [py_get oc_bind].
  assert (E1 : py_Decimal (default zero_float (assoc "priceUsd" kv)) = Ret price).
  { destruct (assoc "priceUsd" kv) as [p|]; cbn [field_converts from_option id] in *;
      [exact Hp|]. rewrite Hp. reflexivity. }
  rewrite E1. cbn [oc_bind].
  assert (E2 : (let? u := py_get (default (JObj []) (assoc "liquidity" kv)) "usd" zero_float
                in py_Decimal u) = Ret liq).
  { destruct (assoc "liquidity" kv) as [[| | | | | |inner]|];
      cbn [from_option id py_get oc_bind assoc] in *; try contradiction.
    - destruct (assoc "usd" inner) as [u|]; cbn [field_converts from_option id] in *;
        [exact Hl|]. rewrite Hl. reflexivity.
    - rewrite Hl. reflexivity. }
  destruct (py_get (default (JObj []) (assoc "liquidity" kv)) "usd" zero_float) as [u|];
    cbn [oc_bind] in E2; [|discriminate].
  cbn [oc_bind]. rewrite E2. cbn [oc_bind]. rewrite Hk. cbn [oc_bind].
  destruct (assoc "baseToken" kv) as [[| | | | | |b]|];
    cbn [from_option id py_get oc_bind assoc] in *; try contradiction.
  - rewrite Hs. reflexivity.
  - rewrite Hs. reflexivity.
Qed.

Lemma well_formed_pair_parses (pair : json) :
  (exists k s q, well_formed_pair pair k s q) -> pair_parses pair.
Proof.
  intros (k & s & q & Hw). destruct (well_formed_pair_entry pair k s q Hw) as [d Hd].
  eexists. exact Hd.
Qed.

(** A token whose payload parses gets the venues of its pairs. *)
Lemma price_token_stores (address : string) (kv : list (string * json))
    (pairs : list json) (st : locals DexScreener.PriceInfo) :
  assoc "pairs" kv = Some (JArr pairs) ->
  Forall pair_parses pairs ->
  exists st',
    DexScreener.price_token (address, JObj kv) st = (Ret tt, st')
    /\ tbl st' = <[address := foldl store_pair ∅ pairs]> (tbl st).
Proof.
  intros Hpairs Hall.
  unfold DexScreener.price_token, m_try, m_bind, m_lift, py_contains.
  rewrite Hpairs. rewrite bool_decide_eq_true_2 by eauto.
  unfold token_reset, m_bind, m_get, set_tbl. cbn [py_getitem].
  rewrite Hpairs. cbn [py_iter].
  destruct (price_pairs_parse address pairs
              {| tbl := <[address := ∅]> (tbl st); dex_id := dex_id st |} ∅ Hall)
    as (st' & Hrun & Htbl); [apply lookup_insert_eq|].
  rewrite Hrun. exists st'. split; [reflexivity|]. rewrite Htbl. cbn [tbl].
  apply insert_insert_eq.
Qed.

(** The loop of [fetch_prices_dex] over a dict of payloads that parse
    and error markers: every token with a payload ends with the venues
    of its pairs. *)
Lemma price_tokens_results (items : list (string * json))
    (st : locals DexScreener.PriceInfo) :
  NoDup (map fst items) ->
  Forall (fun it => payload_parses (snd it) \/ exists text, snd it = error_marker text)
    items ->
  exists st',
    m_for DexScreener.price_token items st = (Ret tt, st')
    /\ forall a kv pairs,
         (a, JObj kv) ∈ items -> assoc "pairs" kv = Some (JArr pairs) ->
         tbl st' !! a = Some (foldl store_pair ∅ pairs).
Proof.
  intros Hnd Hall. revert st Hnd.
  induction Hall as [|[b j] rest Hit _ IH]; intros st Hnd.
  - exists st. split; [reflexivity|]. intros a kv pairs Hin. inversion Hin.
  - cbn [map fst] in Hnd. apply NoDup_cons in Hnd as [Hb Hnd].
    cbn [m_for]. unfold m_bind. cbn [snd] in Hit.
    assert (Hstep : exists st1,
               DexScreener.price_token (b, j) st = (Ret tt, st1)
               /\ forall kv pairs, j = JObj kv -> assoc "pairs" kv = Some (JArr pairs) ->
                    tbl st1 !! b = Some (foldl store_pair ∅ pairs)).
    { destruct Hit as [(kv & pairs & -> & Hpairs & Hparse)|[text ->]].
      - destruct (price_token_stores b kv pairs st Hpairs Hparse) as (st1 & Hrun & Htbl).
        exists st1. split; [exact Hrun|]. intros kv' pairs' [= <-] Hpairs'.
        rewrite Hpairs in Hpairs'. injection Hpairs' as <-.
        rewrite Htbl. apply lookup_insert_eq.
      - exists st. split; [apply price_token_marker|].
        intros kv pairs [= <-]. discriminate. }
    destruct Hstep as (st1 & Hrun1 & Hb1). rewrite Hrun1.
    destruct (IH st1 Hnd) as (st' & Hrest & Hres).
    exists st'. split; [exact Hrest|]. intros a kv pairs Hin Hpairs.
    apply elem_of_cons in Hin as [Heq|Hin].
    + injection Heq as -> <-.
      pose proof (price_tokens_elsewhere b rest st1 Hb) as Hkeep.
      rewrite Hrest in Hkeep. cbn [snd] in Hkeep. rewrite Hkeep.
      exact (Hb1 kv pairs eq_refl Hpairs).
    + exact (Hres a kv pairs Hin Hpairs).
Qed.

(** Over distinct valid addresses whose 200 responses carry a payload
    that parses, [fetch_prices_dex] returns, for every address answered
    with a 200, the venues of the pairs of its payload. *)
Lemma fetch_prices_dex_results (addresses : list string) (log : list request) :
  addresses <> [] -> NoDup addresses ->
  Forall (fun a => is_solana_address a = true) addresses ->
  (forall a, a ∈ addresses -> status_code (net (dex_request a)) = 200%Z ->
             exists j, body (net (dex_request a)) = Some j /\ payload_parses j) ->
  exists t,
    DexScreener.fetch_prices_dex net addresses log
    = (Ret t, (log ++ map dex_request addresses)%list)
    /\ forall a kv pairs,
         a ∈ addresses ->
         net (dex_request a) = {| status_code := 200; body := Some (JObj kv) |} ->
         assoc "pairs" kv = Some (JArr pairs) ->
         t !! a = Some (foldl store_pair ∅ pairs).
Proof.
  intros Hne Hnd Hvalid Hok.
  assert (Hitems :
    Forall (fun it => payload_parses (snd it) \/ exists text, snd it = error_marker text)
      (map (fun a => (a, bulk_entry net a)) addresses)).
  { apply Forall_forall. intros [a j] Hin.
    apply list_elem_of_fmap in Hin as (a' & Heq & Ha'). injection Heq as -> ->.
    cbn [snd]. unfold bulk_entry.
    assert (Hv : is_solana_address a' = true)
      by exact (proj1 (Forall_forall _ _) Hvalid a' Ha').
    rewrite Hv.
    destruct (Z.eqb_spec (status_code (net (dex_request a'))) 200) as [Hs|Hs].
    - destruct (Hok a' Ha' Hs) as (j & -> & Hj). left. exact Hj.
    - right. exists "". reflexivity. }
  assert (Hkeys : NoDup (map fst (map (fun a => (a, bulk_entry net a)) addresses))).
  { rewrite map_map. cbn [fst]. rewrite map_id. exact Hnd. }
  destruct (price_tokens_results _ {| tbl := ∅; dex_id := None |} Hkeys Hitems)
    as (st' & Hrun & Hres).
  exists (tbl st'). split.
  - unfold DexScreener.fetch_prices_dex, m_bind, m_lift.
    rewrite (validate_token_addresses_ok addresses Hne Hvalid).
    rewrite call_api_bulk_entries; [|exact Hne|exact Hnd|].
    + unfold DexScreener.run_locals. rewrite Hrun. unfold m_ret.
      rewrite (bulk_requests_valid addresses Hvalid). reflexivity.
    + intros a Ha _ Hs. destruct (Hok a Ha Hs) as (j & -> & _). discriminate.
  - intros a kv pairs Ha Hnet Hpairs. apply (Hres a kv pairs); [|exact Hpairs].
    apply list_elem_of_fmap. exists a. split; [|exact Ha].
    unfold bulk_entry.
    rewrite (proj1 (Forall_forall _ _) Hvalid a Ha), Hnet. reflexivity.
Qed.
End DexResults.

(** C2, amended.  Over N distinct addresses of which one, [bad], is
    invalid or answered with a status other than 200, while the others
    are valid and answered with a 200 and a payload that parses:
    [_call_api_bulk] returns N entries in the order of the addresses, an
    error marker for [bad] and the payload for each of the others, and
    does not abort; [fetch_prices_dex] aborts the batch with
    [InvalidSolanaAddress] before any request when [bad] is invalid, and
    otherwise does not abort: it returns a mapping that holds the N-1
    successful results, for each address but [bad] the venues built from
    the pairs of its payload. *)
Theorem C2_bulk_marks_prices_keep_results {rt : Runtime} (net : transport)
    (addresses : list string) (bad : string) (log : list request) :
  NoDup addresses ->
  bad ∈ addresses ->
  (is_solana_address bad = false \/ status_code (net (dex_request bad)) <> 200%Z) ->
  (forall a, a ∈ addresses -> a <> bad ->
     is_solana_address a = true
     /\ exists j, net (dex_request a) = {| status_code := 200; body := Some j |}
                  /\ payload_parses j) ->
  (exists responses log',
     DexScreener._call_api_bulk net addresses log = (Ret responses, log')
     /\ map fst responses = addresses
     /\ (exists text, assoc bad responses = Some (error_marker text))
     /\ forall a, a ∈ addresses -> a <> bad ->
          assoc a responses = body (net (dex_request a)))
  /\ (is_solana_address bad = false ->
      DexScreener.fetch_prices_dex net addresses log
      = (Raise (InvalidSolanaAddress bad), log))
  /\ (is_solana_address bad = true ->
      exists t,
        DexScreener.fetch_prices_dex net addresses log
        = (Ret t, (log ++ map dex_request addresses)%list)
        /\ forall a kv pairs,
             a ∈ addresses -> a <> bad ->
             net (dex_request a) = {| status_code := 200; body := Some (JObj kv) |} ->
             assoc "pairs" kv = Some (JArr pairs) ->
             t !! a = Some (foldl store_pair ∅ pairs)).
Proof.
  intros Hnd Hbad Hfail Hgood.
  assert (Hne : addresses <> []) by (intros ->; inversion Hbad).
  assert (Hstatus : forall a, a ∈ addresses -> is_solana_address a = true ->
                      status_code (net (dex_request a)) = 200%Z -> a <> bad).
  { intros a _ Hv Hs ->. destruct Hfail; congruence. }
  split; [|split].
  - exists (map (fun a => (a, bulk_entry net a)) addresses),
      (log ++ bulk_requests addresses)%list.
    split; [|split; [|split]].
    + apply call_api_bulk_entries; [exact Hne|exact Hnd|].
      intros a Ha Hv Hs. destruct (Hgood a Ha (Hstatus a Ha Hv Hs)) as (_ & j & -> & _).
      discriminate.
    + rewrite map_map. cbn [fst]. apply map_id.
    + rewrite (assoc_map_entry (bulk_entry net) bad addresses Hbad). unfold bulk_entry.
      destruct (is_solana_address bad) eqn:Hv; [|eauto].
      destruct Hfail as [Hf|Hf]; [discriminate|].
      destruct (Z.eqb_spec (status_code (net (dex_request bad))) 200); [contradiction|].
      eauto.
    + intros a Ha Hab. rewrite (assoc_map_entry (bulk_entry net) a addresses Ha).
      destruct (Hgood a Ha Hab) as (Hv & j & Hnet & _).
      unfold bulk_entry. rewrite Hv, Hnet. reflexivity.
  - intros Hinv. apply list_elem_of_split in Hbad as (l1 & l2 & ->).
    apply fetch_prices_dex_invalid; [|exact Hinv].
    apply Forall_forall. intros a Ha.
    apply (Hgood a); [apply elem_of_app; auto|].
    intros ->. apply NoDup_app in Hnd as (_ & Hdis & _).
    apply (Hdis bad Ha). apply elem_of_cons. auto.
  - intros Hv.
    destruct (fetch_prices_dex_results net addresses log Hne Hnd) as (t & Hrun & Hres).
    + apply Forall_forall. intros a Ha.
      destruct (decide (a = bad)) as [->|Hab]; [exact Hv|apply (Hgood a Ha Hab)].
    + intros a Ha Hsa.
      assert (Hab : a <> bad) by (intros ->; destruct Hfail; congruence).
      destruct (Hgood a Ha Hab) as (_ & j & Hnet & Hj).
      exists j. rewrite Hnet. auto.
    + exists t. split; [exact Hrun|].
      intros a kv pairs Ha _ Hnet Hpairs. exact (Hres a kv pairs Ha Hnet Hpairs).
Qed.

Lemma C2_bulk_marks_prices_keep_results_witness :
  NoDup [TOKEN_A; TOKEN_B]
  /\ TOKEN_B ∈ [TOKEN_A; TOKEN_B]
  /\ (is_solana_address TOKEN_B = false
      \/ status_code (one_down (dex_request TOKEN_B)) <> 200%Z)
  /\ (forall a, a ∈ [TOKEN_A; TOKEN_B] -> a <> TOKEN_B ->
        is_solana_address a = true
        /\ exists j, one_down (dex_request a) = {| status_code := 200; body := Some j |}
                     /\ @payload_parses plain_runtime j)
  /\ exists t,
       @DexScreener.fetch_prices_dex plain_runtime one_down [TOKEN_A; TOKEN_B] []
       = (Ret t, [dex_request TOKEN_A; dex_request TOKEN_B])
       /\ t !! TOKEN_A
          = Some (foldl (@store_pair plain_runtime) ∅
                    [example_pair (JStr "1.5") (JInt 10) "raydium";
                     example_pair (JStr "1.6") (JInt 50) "orca"]).
Proof.
  assert (H1 : NoDup [TOKEN_A; TOKEN_B]).
  { apply NoDup_cons. split; [|apply NoDup_singleton].
    intros H. apply list_elem_of_singleton in H. discriminate. }
  assert (H2 : TOKEN_B ∈ [TOKEN_A; TOKEN_B]) by (apply elem_of_cons; right; left).
  assert (H3 : is_solana_address TOKEN_B = false
               \/ status_code (one_down (dex_request TOKEN_B)) <> 200%Z)
    by (right; discriminate).
  assert (H4 : forall a, a ∈ [TOKEN_A; TOKEN_B] -> a <> TOKEN_B ->
                 is_solana_address a = true
                 /\ exists j, one_down (dex_request a)
                              = {| status_code := 200; body := Some j |}
                              /\ @payload_parses plain_runtime j).
  { intros a Ha Hne. apply elem_of_cons in Ha as [->|Ha].
    - split; [reflexivity|]. exists example_payload.
      split; [reflexivity|exact example_payload_parses].
    - apply list_elem_of_singleton in Ha. contradiction. }
  refine (conj H1 (conj H2 (conj H3 (conj H4 _)))).
  destruct (@C2_bulk_marks_prices_keep_results plain_runtime one_down [TOKEN_A; TOKEN_B]
              TOKEN_B [] H1 H2 H3 H4) as (_ & _ & Hprices).
  destruct (Hprices eq_refl) as (t & Hrun & Hres).
  exists t. split; [exact Hrun|].
  apply (Hres TOKEN_A [("pairs", JArr [example_pair (JStr "1.5") (JInt 10) "raydium";
                                       example_pair (JStr "1.6") (JInt 50) "orca"])]).
  - apply elem_of_cons. left. reflexivity.
  - discriminate.
  - reflexivity.
  - reflexivity.
Defined.

Section Defaults.
Context {rt : Runtime} (net : transport).

(** The quote that [fetch_prices] of BirdEye stores for a token whose
    entry it can store. *)
Lemma entry_converts_quote (kv entries : list (string * json)) (token : string) :
  assoc "data" kv = Some (JObj entries) ->
  entry_converts entries token ->
  exists q,
    token_quote (JObj kv) token = Ret q
    /\ (assoc token entries = None ->
        q = {| BirdEye.price := Dec false 0 0; BirdEye.liquidity := Dec false 0 0 |}).
Proof.
  intros Hdata Hentry. unfold token_quote, entry_converts in *.
  cbn [py_getitem]. rewrite Hdata. cbn [oc_bind py_get].
  destruct (assoc token entries) as [token_data|]; cbn [from_option id oc_bind truthy].
  - destruct Hentry as [Hfalse|(fields & v & c & p & l & -> & Hv & Hp & Hc & Hl)].
    + rewrite Hfalse. eexists. split; [reflexivity|discriminate].
    + destruct (truthy (JObj fields)); [|eexists; split; [reflexivity|discriminate]].
      cbn [py_getitem]. rewrite Hv. cbn [oc_bind]. rewrite Hp. cbn [oc_bind].
      rewrite Hc. cbn [oc_bind]. rewrite Hl. cbn [oc_bind].
      eexists. split; [reflexivity|discriminate].
  - eexists. split; reflexivity.
Qed.
End Defaults.

(** C8, counterexample.  A [null] in a numeric field is not replaced by
    zero: in the BirdEye flow it raises [TypeError]; in the DexScreener
    flow it raises [UnboundLocalError] when it is in the first pair, and
    in the second pair it removes the venue of the first pair, which had
    parsed.  A pair whose numeric fields are all absent can raise too:
    with a [baseToken] that is [null] it raises [AttributeError]. *)
Lemma C8_counterexample :
  fst (@BirdEye.fetch_prices plain_runtime (always 200 null_value_prices)
         [TOKEN_A] fresh_world) = Raise TypeError
  /\ fst (@DexScreener.fetch_prices_dex plain_runtime (always 200 unbound_payload)
            [TOKEN_A] []) = Raise UnboundLocalError
  /\ fst (@DexScreener.fetch_prices_dex plain_runtime (always 200 stale_payload)
            [TOKEN_A] []) = Ret {[TOKEN_A := ∅]}
  /\ fst (@DexScreener.fetch_prices_dex plain_runtime (always 200 null_base_payload)
            [TOKEN_A] []) = Raise AttributeError.
Proof. repeat split; vm_compute; reflexivity. Qed.

(** C8, amended.  Price normalization does not raise on a payload whose
    entries are well formed.  In the DexScreener flow, when every pair is
    a dict whose [priceUsd] and [liquidity.usd] are absent or convert,
    whose [liquidity] and [baseToken] are absent or dicts and whose
    [dexId] and symbol can be keys, [fetch_prices_dex] returns: an absent
    [priceUsd] or [liquidity.usd] is stored as the exact decimal 0, the
    loop goes on to the last pair, and the venue of a [dexId] holds the
    quote of the last pair with that [dexId], under its symbol.  In the
    BirdEye flow, when the entry of every requested token is omitted,
    falsy, or a dict whose [value] and [priceChange24h] convert,
    [fetch_prices] builds and prints its table, in which a token that the
    payload omits has the exact decimal 0 in both fields. *)
Theorem C8_absent_fields_default_to_zero {rt : Runtime} (net : transport) :
  (forall (address : string) (log : list request) (kv : list (string * json))
          (pairs : list json),
     is_solana_address address = true ->
     net (dex_request address) = {| status_code := 200; body := Some (JObj kv) |} ->
     assoc "pairs" kv = Some (JArr pairs) ->
     Forall (fun pair => exists k s q, well_formed_pair pair k s q) pairs ->
     exists venues,
       DexScreener.fetch_prices_dex net [address] log
       = (Ret {[address := venues]}, (log ++ [dex_request address])%list)
       /\ forall before pair after k s q,
            pairs = (before ++ pair :: after)%list ->
            well_formed_pair pair k s q ->
            (forall p k' s' q', p ∈ after -> well_formed_pair p k' s' q' -> k' <> k) ->
            venues !! k = Some {[s := q]})
  /\ (forall (tokens : list string) (w : BirdEye.world) (kv entries : list (string * json)),
        tokens <> [] ->
        net (multi_price_request tokens) = {| status_code := 200; body := Some (JObj kv) |} ->
        assoc "data" kv = Some (JObj entries) ->
        Forall (entry_converts entries) tokens ->
        exists prices,
          BirdEye.fetch_prices net tokens w
          = (Ret None,
             {| BirdEye.sent := (BirdEye.sent w ++ [multi_price_request tokens])%list;
                BirdEye.printed := (BirdEye.printed w ++ [prices])%list |})
          /\ forall token, token ∈ tokens -> assoc token entries = None ->
               prices !! token
               = Some {| BirdEye.price := Dec false 0 0;
                         BirdEye.liquidity := Dec false 0 0 |}).
Proof.
  split.
  - intros address log kv pairs Ha Hnet Hpairs Hwell.
    assert (Hparse : Forall pair_parses pairs).
    { apply Forall_forall. intros p Hp. apply well_formed_pair_parses.
      exact (proj1 (Forall_forall _ _) Hwell p Hp). }
    exists (foldl store_pair ∅ pairs). split.
    + exact (fetch_prices_dex_single net address log kv pairs Ha Hnet Hpairs Hparse).
    + intros before pair after k s q -> Hw Hafter.
      destruct (well_formed_pair_entry pair k s q Hw) as [d Hd].
      apply (store_pairs_last ∅ before after pair d k s q Hd).
      apply Forall_forall. intros p Hp d' k' s' q' Hentry.
      assert (Hin : p ∈ (before ++ pair :: after)%list)
        by (apply elem_of_app; right; apply elem_of_cons; auto).
      destruct (proj1 (Forall_forall _ _) Hwell p Hin) as (k0 & s0 & q0 & Hw0).
      destruct (well_formed_pair_entry p k0 s0 q0 Hw0) as [d0 Hd0].
      rewrite Hd0 in Hentry. injection Hentry as _ <- _ _.
      exact (Hafter p k0 s0 q0 Hp Hw0).
  - intros tokens w kv entries Hne Hnet Hdata Hall.
    assert (Hquotes : Forall (fun t => exists q, token_quote (JObj kv) t = Ret q) tokens).
    { apply Forall_forall. intros t Ht.
      destruct (entry_converts_quote kv entries t Hdata
                  (proj1 (Forall_forall _ _) Hall t Ht)) as (q & Hq & _).
      eauto. }
    destruct (fetch_prices_prints net tokens w (JObj kv) Hne Hnet Hquotes)
      as (prices & Hrun & Hin).
    exists prices. split; [exact Hrun|]. intros token Ht Homit.
    destruct (Hin token Ht) as (q & Hq & Hlook).
    destruct (entry_converts_quote kv entries token Hdata
                (proj1 (Forall_forall _ _) Hall token Ht)) as (q' & Hq' & Hzero).
    rewrite Hq' in Hq. injection Hq as <-. rewrite Hlook, (Hzero Homit). reflexivity.
Qed.

Lemma C8_absent_fields_default_to_zero_witness :
  let zero := {| DexScreener.value := Dec false 0 0;
                 DexScreener.liquidity := Dec false 0 0 |} in
  @well_formed_pair plain_runtime bare_pair (KStr "orca") (KStr "TKA") zero
  /\ (exists venues,
        @DexScreener.fetch_prices_dex plain_runtime
          (always 200 (JObj [("pairs", JArr [bare_pair])])) [TOKEN_A] []
        = (Ret {[TOKEN_A := venues]}, [dex_request TOKEN_A])
        /\ venues !! KStr "orca" = Some {[KStr "TKA" := zero]})
  /\ Forall (@entry_converts plain_runtime
               [(TOKEN_A, JObj [("value", JStr "2.5"); ("priceChange24h", JInt 7)])])
       [TOKEN_A; TOKEN_B]
  /\ exists prices,
       BirdEye.printed
         (snd (@BirdEye.fetch_prices plain_runtime (always 200 example_prices)
                 [TOKEN_A; TOKEN_B] fresh_world)) = [prices]
       /\ prices !! TOKEN_B
          = Some {| BirdEye.price := Dec false 0 0; BirdEye.liquidity := Dec false 0 0 |}.
Proof.
  intros zero.
  assert (H1 : @well_formed_pair plain_runtime bare_pair (KStr "orca") (KStr "TKA") zero).
  { eexists. split; [reflexivity|]. repeat split; reflexivity. }
  assert (H2 : Forall (fun pair => exists k s q, @well_formed_pair plain_runtime pair k s q)
                 [bare_pair]).
  { apply List.Forall_cons; [eauto|apply List.Forall_nil]. }
  assert (H3 : Forall (@entry_converts plain_runtime
                         [(TOKEN_A, JObj [("value", JStr "2.5");
                                          ("priceChange24h", JInt 7)])])
                 [TOKEN_A; TOKEN_B]).
  { apply List.Forall_cons; [|apply List.Forall_cons; [exact I|apply List.Forall_nil]].
    right. eexists _, _, _, _, _. repeat split; reflexivity. }
  refine (conj H1 (conj _ (conj H3 _))).
  - destruct (proj1 (@C8_absent_fields_default_to_zero plain_runtime
                       (always 200 (JObj [("pairs", JArr [bare_pair])])))
                TOKEN_A [] [("pairs", JArr [bare_pair])] [bare_pair]
                eq_refl eq_refl eq_refl H2) as (venues & Hrun & Hstored).
    exists venues. split; [exact Hrun|].
    apply (Hstored [] bare_pair [] (KStr "orca") (KStr "TKA") zero eq_refl H1).
    intros p k' s' q' Hp. inversion Hp.
  - destruct (proj2 (@C8_absent_fields_default_to_zero plain_runtime
                       (always 200 example_prices))
                [TOKEN_A; TOKEN_B] fresh_world
                [("data", JObj [(TOKEN_A, JObj [("value", JStr "2.5");
                                                ("priceChange24h", JInt 7)])])]
                [(TOKEN_A, JObj [("value", JStr "2.5"); ("priceChange24h", JInt 7)])]
                ltac:(discriminate) eq_refl eq_refl H3) as (prices & Hrun & Hzero).
    exists prices. split; [rewrite Hrun; reflexivity|].
    apply Hzero; [|reflexivity]. apply elem_of_cons. right. apply elem_of_cons. left.
    reflexivity.
Defined.

(** ** The overview of the BirdEye client never returns *)

(** X23.  [fetch_token_overview] of the BirdEye client returns for no
    input: [TokenOverview] is an alias of [typing.Dict], which cannot be
    called, so when everything before the last statement has gone well
    the call that should build the result raises [TypeError]. *)
Theorem X23_birdeye_overview_never_returns {rt : Runtime} (net : transport)
    (address : string) (w : BirdEye.world) (v : json) :
  fst (BirdEye.fetch_token_overview net address w) <> Ret v.
Proof.
  unfold BirdEye.fetch_token_overview.
  destruct (negb (is_solana_address address)); [discriminate|].
  unfold m_bind. rewrite make_api_call_get.
  destruct (_ =? 401)%Z; [discriminate|].
  destruct (negb _); [discriminate|].
  unfold m_lift.
  repeat match goal with
         | |- context [match ?c with Ret _ => _ | Raise _ => _ end] =>
             destruct c; [|discriminate]
         end.
  discriminate.
Qed.

(** X24.  On a valid address and a 200 whose [data] is a dict in which
    every field the overview reads is absent or converts,
    [fetch_token_overview] of the BirdEye client raises [TypeError] after
    its one request: the fields are read and converted, and the call of
    [TokenOverview] fails. *)
Theorem X24_birdeye_overview_raises_TypeError {rt : Runtime} (net : transport)
    (address : string) (w : BirdEye.world) (kv fields : list (string * json))
    (price liquidity supply : Decimal) (decimals lastTradeUnixTime : Z) :
  is_solana_address address = true ->
  net (overview_request address) = {| status_code := 200; body := Some (JObj kv) |} ->
  assoc "data" kv = Some (JObj fields) ->
  py_Decimal (default zero_int (assoc "price" fields)) = Ret price ->
  py_int (default zero_int (assoc "decimals" fields)) = Ret decimals ->
  py_int (default zero_int (assoc "lastTradeUnixTime" fields)) = Ret lastTradeUnixTime ->
  py_Decimal (default zero_int (assoc "liquidity" fields)) = Ret liquidity ->
  py_Decimal (default zero_int (assoc "supply" fields)) = Ret supply ->
  BirdEye.fetch_token_overview net address w
  = (Raise TypeError,
     {| BirdEye.sent := (BirdEye.sent w ++ [overview_request address])%list;
        BirdEye.printed := BirdEye.printed w |}).
Proof.
  intros Ha Hnet Hdata Hp Hd Ht Hl Hs.
  unfold BirdEye.fetch_token_overview. rewrite Ha. cbn [negb].
  unfold m_bind. rewrite make_api_call_get. fold (overview_request address).
  rewrite Hnet. cbn [status_code Z.eqb Pos.eqb negb].
  unfold m_lift, response_json. cbn [body py_get]. rewrite Hdata.
  cbn [from_option id py_get]. rewrite Hp, Hd, Ht, Hl, Hs. reflexivity.
Qed.

Lemma X24_birdeye_overview_raises_TypeError_witness :
  let fields := [("price", JStr "2.5"); ("symbol", JStr "TKA"); ("decimals", JInt 9)] in
  is_solana_address TOKEN_A = true
  /\ @BirdEye.fetch_token_overview plain_runtime
       (always 200 (JObj [("data", JObj fields)])) TOKEN_A fresh_world
     = (Raise TypeError,
        {| BirdEye.sent := [@overview_request plain_runtime TOKEN_A];
           BirdEye.printed := [] |}).
Proof.
  intros fields.
  assert (H1 : is_solana_address TOKEN_A = true) by reflexivity.
  refine (conj H1 _).
  exact (@X24_birdeye_overview_raises_TypeError plain_runtime
           (always 200 (JObj [("data", JObj fields)])) TOKEN_A fresh_world
           [("data", JObj fields)] fields _ _ _ _ _
           H1 eq_refl eq_refl eq_refl eq_refl eq_refl eq_refl eq_refl).
Defined.
